(** * AgriSense: the data-fusion layer and the RAG pipeline

    A shallow embedding of [backend/models/datafusion.py] (class
    [DataFusion]) and [backend/models/llm_rag.py] (class [RAGPipeline]),
    with the properties of the hybrid query and retrieval engine.

    Conventions of the embedding.
    - A Python call that may raise is a computation in the error monad
      [exc]; [try ... except Exception] is [try_except].
    - Python floats are idealised as rationals ([Q]); NaN is a separate
      value of [pyfloat].  Rounding is not modelled.
    - A pandas DataFrame is a schema (column names with their dtypes) and a
      list of rows; the row index labels are not modelled.
    - A Python [str] is the byte string of its UTF-8 encoding; where the
      source looks at characters ([strip], slicing) the model reads the
      bytes as the code points they encode.
    - The pandas, Chroma, embedding and language-model entry points the
      source calls are interfaces ([Pandas], [Backend]); the source's own
      control flow is written out over them. *)

From Stdlib Require Import ZArith QArith Lia.
From stdpp Require Import base option list strings gmap pretty sorting.

Set Default Proof Using "Type".

(** ** Exceptions *)

Record exn := Exception { exn_class : string; exn_message : string }.

Inductive exc (A : Type) : Type :=
| Raised (e : exn)
| Returned (a : A).
Arguments Raised {A} e.
Arguments Returned {A} a.

#[global] Instance exc_ret : MRet exc := fun A a => Returned a.
#[global] Instance exc_bind : MBind exc := fun A B f m =>
  match m with
  | Raised e => Raised e
  | Returned a => f a
  end.

#[global] Instance exc_fmap : FMap exc := fun A B f m =>
  match m with
  | Raised e => Raised e
  | Returned a => Returned (f a)
  end.

(** [try: m except Exception as e: handler e] *)
Definition try_except {A} (m : exc A) (handler : exn → exc A) : exc A :=
  match m with
  | Raised e => handler e
  | Returned a => Returned a
  end.

Definition raise {A} (cls msg : string) : exc A := Raised (Exception cls msg).

(** [l[i]] on a Python list: [IndexError] out of range. *)
Definition py_index {A} (l : list A) (i : nat) : exc A :=
  match l !! i with
  | Some a => Returned a
  | None => raise "IndexError" "list index out of range"
  end.

Definition raises {A} (m : exc A) : Prop := ∃ e, m = Raised e.
Definition returns {A} (m : exc A) : Prop := ∃ a, m = Returned a.

(** ** Values *)

Inductive pyfloat :=
| NaN
| Fin (q : Q).

Inductive cell :=
| VNull
| VNum (q : Q)
| VStr (s : string)
| VTime (t : Z).

Inductive dtype := Dint64 | Dfloat64 | Dobject | Ddatetime64.

Definition is_null (c : cell) : bool :=
  match c with VNull => true | _ => false end.

(** Elementwise [==] of a Series against a scalar: a null equals nothing. *)
Definition cell_eqb (c v : cell) : bool :=
  match c, v with
  | VNum a, VNum b => Qeq_bool a b
  | VStr a, VStr b => String.eqb a b
  | VTime a, VTime b => Z.eqb a b
  | _, _ => false
  end.

(** [Series.isin(values)]: as [==], except that a null matches a null. *)
Definition cell_isin (c : cell) (vs : list cell) : bool :=
  existsb (fun v => cell_eqb c v || (is_null c && is_null v)) vs.

(** Elementwise [>] as used on two numeric scalars. *)
Definition cell_gtb (a b : cell) : exc bool :=
  match a, b with
  | VNum x, VNum y => Returned (negb (Qle_bool x y))
  | VTime x, VTime y => Returned (Z.ltb y x)
  | VStr x, VStr y => Returned (bool_decide (String.ltb y x = true))
  | _, _ => raise "TypeError" "'>' not supported between these instances"
  end.

(** ** DataFrames *)

Record DataFrame := mkDataFrame {
  schema : list (string * dtype);
  rows : list (list cell)
}.

(** [pd.DataFrame()] *)
Definition pd_DataFrame : DataFrame := mkDataFrame [] [].

(** [df.columns] *)
Definition columns (df : DataFrame) : list string := (schema df).*1.

(** [len(df)] *)
Definition len (df : DataFrame) : nat := length (rows df).

(** [df.empty]: some axis has length zero. *)
Definition empty (df : DataFrame) : bool :=
  match schema df, rows df with
  | [], _ | _, [] => true
  | _, _ => false
  end.

(** [df.shape] *)
Definition df_shape (df : DataFrame) : nat * nat :=
  (length (rows df), length (schema df)).

(** Position of the first column called [col]. *)
Fixpoint index_of (col : string) (cols : list string) : option nat :=
  match cols with
  | [] => None
  | c :: cs => if String.eqb c col then Some 0 else S <$> index_of col cs
  end.

Definition row_get (i : nat) (row : list cell) : cell := nth i row VNull.

(** [df[col]]: the Series under [col]; [KeyError] for an unknown name. *)
Definition get_column (df : DataFrame) (col : string) : exc (list cell) :=
  match index_of col (columns df) with
  | Some i => Returned (row_get i <$> rows df)
  | None => raise "KeyError" col
  end.

(** [df[col]] where a Series is needed: when several columns bear the name
    it is a DataFrame, and the Series method called on it raises. *)
Definition get_series (df : DataFrame) (col : string) : exc (list cell) :=
  if bool_decide (1 < length (List.filter (String.eqb col) (columns df)))
  then raise "ValueError" "The truth value of a DataFrame is ambiguous"
  else get_column df col.

(** [df[df[col] <pred>]]: keep the rows whose cell under [col] passes. *)
Definition mask_rows (df : DataFrame) (col : string) (p : cell → bool) : DataFrame :=
  match index_of col (columns df) with
  | Some i => mkDataFrame (schema df) (List.filter (fun r => p (row_get i r)) (rows df))
  | None => df
  end.

(** [df[cols]] for a list of names: [KeyError] if one is unknown. *)
Fixpoint column_positions (sch : list (string * dtype)) (cols : list string)
  : exc (list (nat * (string * dtype))) :=
  match cols with
  | [] => Returned []
  | c :: cs =>
      match index_of c sch.*1 with
      | None => raise "KeyError" c
      | Some i =>
          rest ← column_positions sch cs;
          mret ((i, (c, default Dobject (snd <$> sch !! i))) :: rest)
      end
  end.

Definition select_columns (df : DataFrame) (cols : list string) : exc DataFrame :=
  ps ← column_positions (schema df) cols;
  mret (mkDataFrame (ps.*2) ((fun r => (fun p => row_get p.1 r) <$> ps) <$> rows df)).

(** [df.head(n)]: the first [n] rows, or all but the last [-n] for [n < 0]. *)
Definition head (df : DataFrame) (n : Z) : DataFrame :=
  let k := if (0 <=? n)%Z then Z.to_nat n else length (rows df) - Z.to_nat (- n) in
  mkDataFrame (schema df) (take k (rows df)).

(** [df.dropna()]: drop the rows holding a null. *)
Definition dropna (df : DataFrame) : DataFrame :=
  mkDataFrame (schema df) (List.filter (fun r => negb (existsb is_null r)) (rows df)).

(** [series.dropna()] *)
Definition series_dropna (s : list cell) : list cell :=
  List.filter (fun c => negb (is_null c)) s.

(** [df[col] = values] with the column's new dtype; a row without a value
    gets a null. *)
Definition set_column (df : DataFrame) (col : string) (dt : dtype)
    (values : list cell) : DataFrame :=
  match index_of col (columns df) with
  | Some i =>
      mkDataFrame (<[i := (col, dt)]> (schema df))
        (imap (fun k r => <[i := nth k values VNull]> r) (rows df))
  | None =>
      mkDataFrame (schema df ++ [(col, dt)])
        (imap (fun k r => r ++ [nth k values VNull]) (rows df))
  end.

(** [pd.api.types.is_datetime64_any_dtype(df[col])] *)
Definition is_datetime64_any_dtype (df : DataFrame) (col : string) : exc bool :=
  match index_of col (columns df) with
  | Some i =>
      mret (match snd <$> schema df !! i with Some Ddatetime64 => true | _ => false end)
  | None => raise "KeyError" col
  end.

(** Timestamps: [None] is NaT. *)
Definition time_key (c : cell) : option Z :=
  match c with VTime t => Some t | _ => None end.

Definition time_cell (t : option Z) : cell :=
  match t with Some z => VTime z | None => VNull end.

(** Ascending order of [sort_values], NaT last. *)
Definition time_le (a b : option Z) : bool :=
  match a, b with
  | Some x, Some y => (x <=? y)%Z
  | Some _, None => true
  | None, Some _ => false
  | None, None => true
  end.

(** [series.min()] and [series.max()] of a datetime Series, skipping NaT. *)
Definition time_min (s : list cell) : option Z :=
  foldr (fun c acc =>
           match time_key c, acc with
           | Some t, Some a => Some (Z.min t a)
           | Some t, None => Some t
           | None, _ => acc
           end) None s.

Definition time_max (s : list cell) : option Z :=
  foldr (fun c acc =>
           match time_key c, acc with
           | Some t, Some a => Some (Z.max t a)
           | Some t, None => Some t
           | None, _ => acc
           end) None s.

(** [series.iloc[0]] and [series.iloc[-1]] *)
Definition iloc_first (s : list cell) : exc cell :=
  match s with
  | c :: _ => mret c
  | [] => raise "IndexError" "single positional indexer is out-of-bounds"
  end.

Definition iloc_last (s : list cell) : exc cell :=
  match last s with
  | Some c => mret c
  | None => raise "IndexError" "single positional indexer is out-of-bounds"
  end.

(** The pandas entry points whose results the source only passes on. *)
Class Pandas := {
  (** [pd.merge(left, right, on=on, how=how, suffixes=suffixes)] *)
  pd_merge : DataFrame → DataFrame → list string → string → string * string
             → exc DataFrame;
  (** [df.groupby(cols).agg(funcs).reset_index()] *)
  groupby_agg : DataFrame → list string → list (string * string) → exc DataFrame;
  (** the [(name, group)] pairs that iterating [df.groupby(col)] yields *)
  groupby_iter : DataFrame → string → exc (list (cell * DataFrame));
  (** [float(s1.corr(s2))] *)
  series_corr : list cell → list cell → exc pyfloat;
  (** [pd.to_datetime(series, errors='coerce')] *)
  to_datetime : list cell → exc (list (option Z));
  (** [float(series.mean())], [.std()], [.min()], [.max()] *)
  series_mean : list cell → exc pyfloat;
  series_std : list cell → exc pyfloat;
  series_min : list cell → exc pyfloat;
  series_max : list cell → exc pyfloat;
  (** [str(x)] of a group name *)
  py_str : cell → string;
  (** the sorting kernel of [df.sort_values(col)], whose default
      [kind='quicksort'] is not stable: of two rows of equal key, whether it
      leaves the first before the second *)
  quicksort_tie : list cell → list cell → bool
}.

(** Whether row [r] goes before row [s] when sorting on column [i]: by
    time, NaT last, and for equal keys as the sorting kernel decides. *)
Definition sorts_before `{Pandas} (i : nat) (r s : list cell) : bool :=
  let kr := time_key (row_get i r) in
  let ks := time_key (row_get i s) in
  time_le kr ks && (negb (time_le ks kr) || quicksort_tie r s).

Fixpoint insert_sorted `{Pandas} (i : nat) (r : list cell) (sorted : list (list cell))
  : list (list cell) :=
  match sorted with
  | [] => [r]
  | s :: ss =>
      if sorts_before i r s
      then r :: s :: ss
      else s :: insert_sorted i r ss
  end.

(** [df.sort_values(col)] on a datetime column: ascending, NaT last, rows
    of equal key in the order the sorting kernel leaves them. *)
Definition sort_values `{Pandas} (df : DataFrame) (col : string) : exc DataFrame :=
  match index_of col (columns df) with
  | Some i => mret (mkDataFrame (schema df) (foldr (insert_sorted i) [] (rows df)))
  | None => raise "KeyError" col
  end.

(** [d[k] = v] on a dict kept in insertion order. *)
Fixpoint dict_set {V} (k : string) (v : V) (d : list (string * V)) : list (string * V) :=
  match d with
  | [] => [(k, v)]
  | (k', v') :: d' => if String.eqb k' k then (k, v) :: d' else (k', v') :: dict_set k v d'
  end.

(** [d.get(k)] *)
Fixpoint dict_get {V} (k : string) (d : list (string * V)) : option V :=
  match d with
  | [] => None
  | (k', v) :: d' => if String.eqb k' k then Some v else dict_get k d'
  end.

(** ** class DataFusion *)

Record Metadata := mkMetadata {
  md_description : string;
  md_columns : list string;
  md_key_columns : list string;
  md_time_column : option string;
  md_shape : nat * nat;
  md_dtypes : list (string * dtype)
}.

(** The instance attributes [self.datasets] and [self.metadata]. *)
Record DataFusion := mkDataFusion {
  datasets : gmap string DataFrame;
  metadata : gmap string Metadata
}.

(** [DataFusion()] with no database url. *)
Definition DataFusion_init : DataFusion := mkDataFusion ∅ ∅.

Definition register_dataset (self : DataFusion) (name : string) (df : DataFrame)
    (description : string) (key_columns : option (list string))
    (time_column : option string) : DataFusion :=
  mkDataFusion
    (<[name := df]> (datasets self))
    (<[name := mkMetadata description (columns df) (default [] key_columns)
                 time_column (df_shape df) (schema df)]> (metadata self)).

Definition get_dataset (self : DataFusion) (name : string) : option DataFrame :=
  datasets self !! name.

Definition find_common_columns (self : DataFusion) (dataset1 dataset2 : string)
  : list string :=
  match datasets self !! dataset1, datasets self !! dataset2 with
  | Some d1, Some d2 =>
      let cols1 : gset string := list_to_set (columns d1) in
      let cols2 : gset string := list_to_set (columns d2) in
      elements (cols1 ∩ cols2)
  | _, _ => []
  end.

(** A filter value: a list or tuple of candidates, or a scalar. *)
Inductive filter_value :=
| FList (vs : list cell)
| FScalar (v : cell).

Definition apply_filter (df : DataFrame) (f : string * filter_value) : DataFrame :=
  if bool_decide (f.1 ∈ columns df) then
    match f.2 with
    | FList vs => mask_rows df f.1 (fun c => cell_isin c vs)
    | FScalar v => mask_rows df f.1 (fun c => cell_eqb c v)
    end
  else df.

(** Truthiness of an optional list, an optional int, an optional string. *)
Definition truthy_list {A} (o : option (list A)) : option (list A) :=
  match o with Some (x :: l) => Some (x :: l) | _ => None end.

Definition truthy_int (o : option Z) : option Z :=
  match o with Some 0%Z | None => None | Some n => Some n end.

Definition truthy_str (o : option string) : option string :=
  match o with Some EmptyString | None => None | Some s => Some s end.

(** The statistics of one value sequence, and the result of
    [time_series_analysis]. *)
Record Statistics := mkStatistics {
  st_mean : pyfloat;
  st_std : pyfloat;
  st_min : pyfloat;
  st_max : pyfloat;
  st_trend : string
}.

Record TimeSeries := mkTimeSeries {
  ts_dataset : string;
  (** the timestamps (NaT is [None]) whose [str] the source stores *)
  ts_time_range : option Z * option Z;
  ts_data_points : nat;
  ts_groups : option (list (string * Statistics));
  ts_statistics : option Statistics
}.

Section DataFusion.
Context `{Pandas}.

Definition merge_datasets (self : DataFusion) (left_name right_name : string)
    (on : option (list string)) (how : string) : exc DataFrame :=
  match datasets self !! left_name, datasets self !! right_name with
  | Some left_df, Some right_df =>
      let merge on :=
        try_except
          (pd_merge left_df right_df on how ("_left", "_right"))
          (fun _ => mret pd_DataFrame) in
      match on with
      | None =>
          match find_common_columns self left_name right_name with
          | [] => mret pd_DataFrame
          | on => merge on
          end
      | Some on => merge on
      end
  | _, _ => mret pd_DataFrame
  end.

Definition query_dataset (self : DataFusion) (dataset_name : string)
    (filters : option (list (string * filter_value)))
    (columns_ : option (list string)) (limit : option Z) : exc DataFrame :=
  match datasets self !! dataset_name with
  | None => mret pd_DataFrame
  | Some df =>
      let df :=
        match truthy_list filters with
        | Some fs => foldl apply_filter df fs
        | None => df
        end in
      df ← match truthy_list columns_ with
           | Some cols =>
               match filter (.∈ columns df) cols with
               | [] => mret df
               | available_cols => select_columns df available_cols
               end
           | None => mret df
           end;
      mret (match truthy_int limit with
            | Some n => head df n
            | None => df
            end)
  end.

Definition aggregate_data (self : DataFusion) (dataset_name : string)
    (group_by : list string) (agg_funcs : list (string * string))
    (filters : option (list (string * filter_value))) : exc DataFrame :=
  df ← query_dataset self dataset_name filters None None;
  if empty df then mret df else
  try_except
    (match filter (.∈ columns df) group_by with
     | [] => mret pd_DataFrame
     | valid_group_cols => groupby_agg df valid_group_cols agg_funcs
     end)
    (fun _ => mret pd_DataFrame).

Definition calculate_correlation (self : DataFusion)
    (dataset1_name dataset2_name value_col1 value_col2 : string)
    (merge_on : list string) : exc (pyfloat * DataFrame) :=
  merged ← merge_datasets self dataset1_name dataset2_name (Some merge_on) "inner";
  if empty merged then mret (Fin 0, pd_DataFrame) else
  try_except
    (let col1 := if bool_decide (value_col1 ∈ columns merged)
                 then value_col1 else value_col1 +:+ "_left" in
     let col2 := if bool_decide (value_col2 ∈ columns merged)
                 then value_col2 else value_col2 +:+ "_right" in
     selected ← select_columns merged [col1; col2];
     let merged_clean := dropna selected in
     if bool_decide (len merged_clean < 2) then mret (Fin 0, merged) else
     s1 ← get_series merged_clean col1;
     s2 ← get_series merged_clean col2;
     correlation ← series_corr s1 s2;
     mret (correlation, merged))
    (fun _ => mret (Fin 0, merged)).

(** The dict literal of statistics that both branches of
    [time_series_analysis] build from [values]. *)
Definition value_statistics (values : list cell) : exc Statistics :=
  mean ← series_mean values;
  std ← series_std values;
  min ← series_min values;
  max ← series_max values;
  last ← iloc_last values;
  first ← iloc_first values;
  increasing ← cell_gtb last first;
  mret (mkStatistics mean std min max
          (if (increasing : bool) then "increasing" else "decreasing")).

(** The body of [for group_name, group_df in df.groupby(group_by)]. *)
Fixpoint group_loop (value_column : string) (gs : list (cell * DataFrame))
    (groups : list (string * Statistics)) : exc (list (string * Statistics)) :=
  match gs with
  | [] => mret groups
  | (group_name, group_df) :: gs' =>
      col ← get_column group_df value_column;
      st ← value_statistics (series_dropna col);
      group_loop value_column gs' (dict_set (py_str group_name) st groups)
  end.

(** The first two steps of [time_series_analysis]: the time column made
    datetime unless it is already, then the frame sorted by it. *)
Definition by_time (df : DataFrame) (time_column : string) : exc DataFrame :=
  is_dt ← is_datetime64_any_dtype df time_column;
  df ← (if (is_dt : bool) then mret df else
          col ← get_column df time_column;
          ts ← to_datetime col;
          mret (set_column df time_column Ddatetime64 (time_cell <$> ts)));
  sort_values df time_column.

(** [None] is the empty dict [{}]. *)
Definition time_series_analysis (self : DataFusion)
    (dataset_name time_column value_column : string)
    (group_by : option string) : exc (option TimeSeries) :=
  df ← query_dataset self dataset_name None None None;
  if empty df then mret None else
  try_except
    (df ← by_time df time_column;
     tcol ← get_column df time_column;
     let results :=
       mkTimeSeries dataset_name
         (time_min tcol, time_max tcol)
         (len df) in
     let overall :=
       col ← get_column df value_column;
       st ← value_statistics (series_dropna col);
       mret (Some (results None (Some st))) in
     match truthy_str group_by with
     | Some g =>
         if bool_decide (g ∈ columns df) then
           gs ← groupby_iter df g;
           groups ← group_loop value_column gs [];
           mret (Some (results (Some groups) None))
         else overall
     | None => overall
     end)
    (fun _ => mret None).

End DataFusion.

(** ** class RAGPipeline *)

(** A document's metadata mapping; the [None] that the store may hold for
    a document added without metadata is not represented. *)
Abbreviation metadata_dict := (list (string * string)).

(** What [collection.query] answers: for each query embedding, the parallel
    lists of ids, documents, metadatas and distances of its neighbours,
    nearest first. *)
Record QueryResult := mkQueryResult {
  qr_ids : list (list string);
  qr_documents : list (list string);
  qr_metadatas : list (list metadata_dict);
  qr_distances : list (list Q)
}.

(** The dict [filtered_results] that [query] returns. *)
Record FilteredResults := mkFilteredResults {
  documents : list string;
  metadatas : list metadata_dict;
  distances : list Q;
  ids : list string
}.

(** The dict that [rag_query] returns; [num_sources] is absent from the
    answer given when nothing was retrieved. *)
Record RagAnswer := mkRagAnswer {
  answer : string;
  sources : list metadata_dict;
  context : string;
  confidence : Q;
  num_sources : option nat
}.

(** The vector store, the embedding model and the inference client. *)
Class Backend := {
  Collection : Type;
  Embedding : Type;
  (** [chroma_client.delete_collection(name=...)]: whether it raises; what
      a deletion changes in the store is not represented *)
  delete_collection : string → exc ();
  (** [chroma_client.get_or_create_collection(name=..., metadata={"hnsw:space": "cosine"})] *)
  get_or_create_collection : string → exc Collection;
  (** [embedder.encode(texts)] *)
  encode : list string → exc (list Embedding);
  (** [collection.query(query_embeddings=..., n_results=..., where=...)] *)
  collection_query : Collection → list Embedding → Z → option metadata_dict
                     → exc QueryResult;
  (** [llm_client.text_generation(prompt, max_new_tokens=..., temperature=...,
      do_sample=True, return_full_text=False)] *)
  text_generation : string → Z → Q → exc string
}.

Definition nl : string := String (Ascii.ascii_of_nat 10) EmptyString.

(** The characters of a [str], each as the bytes that encode it: a byte
    outside [0x80..0xBF] begins a character, and the continuation bytes
    that follow it belong to it. *)
Definition is_continuation (a : Ascii.ascii) : bool :=
  let n := Ascii.nat_of_ascii a in
  (128 <=? n) && (n <? 192).

Definition continues (s : string) : bool :=
  match s with
  | String b _ => is_continuation b
  | EmptyString => false
  end.

Fixpoint chars (s : string) : list string :=
  match s with
  | EmptyString => []
  | String a s' =>
      match chars s' with
      | c :: cs => if continues s' then String a c :: cs else String a "" :: c :: cs
      | [] => [String a ""]
      end
  end.

(** [''.join(cs)] *)
Definition join (cs : list string) : string := foldr String.append "" cs.

Definition utf8 (bytes : list nat) : string :=
  foldr (fun n s => String (Ascii.ascii_of_nat n) s) "" bytes.

(** The characters for which [str.isspace()] holds, which are those that
    [str.strip()] removes: U+0009..U+000D, U+001C..U+0020, U+0085, U+00A0,
    U+1680, U+2000..U+200A, U+2028, U+2029, U+202F, U+205F and U+3000. *)
Definition whitespace : list string :=
  ((fun n => utf8 [n]) <$> [9; 10; 11; 12; 13; 28; 29; 30; 31; 32])
  ++ [utf8 [194; 133]; utf8 [194; 160]; utf8 [225; 154; 128]]
  ++ ((fun n => utf8 [226; 128; n])
        <$> [128; 129; 130; 131; 132; 133; 134; 135; 136; 137; 138; 168; 169; 175])
  ++ [utf8 [226; 129; 159]; utf8 [227; 128; 128]].

Definition is_whitespace (c : string) : bool := bool_decide (c ∈ whitespace).

(** [s.lstrip()] and [s.strip()], on the characters. *)
Fixpoint lstrip (cs : list string) : list string :=
  match cs with
  | c :: cs' => if is_whitespace c then lstrip cs' else cs
  | [] => []
  end.

Definition strip (s : string) : string :=
  join (reverse (lstrip (reverse (lstrip (chars s))))).

(** [sum(l)]: from 0, left to right. *)
Definition py_sum (l : list Q) : Q := foldl Qplus 0%Q l.

(** The two prompt templates of [generate_response]. *)
Definition prompt_with_reasoning (query context : string) : string :=
  "You are AgriSense 2.0, an intelligent agricultural analysis system for India.

Context from government datasets:
" +:+ context +:+ "

User Question: " +:+ query +:+ "

Instructions:
1. Answer the question using ONLY the data provided in the context
2. Show your reasoning process step by step
3. If the data shows trends or correlations, explain them
4. Cite specific data points (states, years, values) to support your answer
5. If the context doesn't contain enough information, say so clearly
6. Suggest policy insights if relevant

Answer with reasoning:".

Definition prompt_plain (query context : string) : string :=
  "Context: " +:+ context +:+ "

Question: " +:+ query +:+ "

Answer clearly and concisely based only on the provided context:".

Section RAGPipeline.
Context `{Backend}.

(** The instance attributes that the methods below read or write. *)
Record RAGPipeline := mkRAGPipeline {
  top_k : Z;
  similarity_threshold : Q;
  collections : gmap string Collection
}.

Definition create_collection (self : RAGPipeline) (collection_name : string)
    (recreate : bool) : exc (Collection * RAGPipeline) :=
  try_except
    (_ ← (if recreate
          then try_except (delete_collection collection_name) (fun _ => mret ())
          else mret ());
     collection ← get_or_create_collection collection_name;
     mret (collection,
           mkRAGPipeline (top_k self) (similarity_threshold self)
             (<[collection_name := collection]> (collections self))))
    (fun e => Raised e).

Definition no_results : FilteredResults := mkFilteredResults [] [] [] [].

(** The loop [for i, distance in enumerate(results['distances'][0])]. *)
Fixpoint filter_loop (threshold : Q) (results : QueryResult) (i : nat)
    (ds : list Q) (filtered_results : FilteredResults) : exc FilteredResults :=
  match ds with
  | [] => mret filtered_results
  | distance :: ds' =>
      let similarity := (1 - distance)%Q in
      if Qle_bool threshold similarity then
        docs ← py_index (qr_documents results) 0;
        doc ← py_index docs i;
        metas ← py_index (qr_metadatas results) 0;
        meta ← py_index metas i;
        idents ← py_index (qr_ids results) 0;
        ident ← py_index idents i;
        filter_loop threshold results (S i) ds'
          (mkFilteredResults
             (documents filtered_results ++ [doc])
             (metadatas filtered_results ++ [meta])
             (distances filtered_results ++ [distance])
             (ids filtered_results ++ [ident]))
      else filter_loop threshold results (S i) ds' filtered_results
  end.

(** The index's answer to the query, before any filtering. *)
Definition index_query (collection : Collection) (query_text : string)
    (n_results : Z) (filter_dict : option metadata_dict) : exc QueryResult :=
  embeddings ← encode [query_text];
  query_embedding ← py_index embeddings 0;
  collection_query collection [query_embedding] n_results filter_dict.

Definition query (self : RAGPipeline) (query_text collection_name : string)
    (n_results : option Z) (filter_dict : option metadata_dict)
  : exc (FilteredResults * RAGPipeline) :=
  let created :=
    match collections self !! collection_name with
    | Some collection => mret (collection, self)
    | None => create_collection self collection_name false
    end in
  match created with
  | Raised _ => mret (no_results, self)
  | Returned (collection, self) =>
      filtered ←
        try_except
          (let n_results := default (top_k self) (truthy_int n_results) in
           results ← index_query collection query_text n_results filter_dict;
           ds ← py_index (qr_distances results) 0;
           filter_loop (similarity_threshold self) results 0 ds no_results)
          (fun _ => mret no_results);
      mret (filtered, self)
  end.

Definition generate_response (query context : string) (max_tokens : Z)
    (temperature : Q) (include_reasoning : bool) : exc string :=
  try_except
    (let prompt := if include_reasoning
                   then prompt_with_reasoning query context
                   else prompt_plain query context in
     response ← text_generation prompt max_tokens temperature;
     mret (strip response))
    (fun e => mret ("Error generating response: " +:+ exn_message e)).

(** [f"[Source {i} - {dataset}]\n{doc}\n"] for the pairs of
    [zip(documents, metadatas)], numbered from [i]. *)
Fixpoint context_parts (i : nat) (docs : list string) (metas : list metadata_dict)
  : list string :=
  match docs, metas with
  | doc :: docs', metadata :: metas' =>
      let dataset := default "Unknown" (dict_get "dataset" metadata) in
      ("[Source " +:+ pretty i +:+ " - " +:+ dataset +:+ "]" +:+ nl +:+ doc +:+ nl)
        :: context_parts (S i) docs' metas'
  | _, _ => []
  end.

Definition rag_query (self : RAGPipeline) (query_text collection_name : string)
    (include_reasoning : bool) (n_results : option Z)
  : exc (RagAnswer * RAGPipeline) :=
  '(retrieval_results, self) ← query self query_text collection_name n_results None;
  match documents retrieval_results with
  | [] =>
      mret (mkRagAnswer
              "I couldn't find relevant information in the available datasets to answer this question."
              [] "" 0%Q None, self)
  | _ =>
      let context :=
        String.concat nl
          (context_parts 1 (documents retrieval_results)
             (metadatas retrieval_results)) in
      answer ← generate_response query_text context 1024 (7 # 10) include_reasoning;
      let confidence :=
        match distances retrieval_results with
        | [] => 0%Q
        | ds => (1 - py_sum ds / inject_Z (Z.of_nat (length ds)))%Q
        end in
      mret (mkRagAnswer answer (metadatas retrieval_results) context confidence
              (Some (length (documents retrieval_results))), self)
  end.

End RAGPipeline.

(** ** A reference instance of [Pandas]

    The fragment of pandas that the worked examples exercise: inner joins on
    keys present on both sides, grouping with the aggregations sum, mean,
    min, max and count, and the numeric Series statistics.  Square roots are
    truncated to nine decimals, and sorting keeps rows of equal key in their
    order, as the kernel does on the short frames of the examples.  Outside the fragment the instance raises
    [NotImplementedError]. *)
Module Reference.

Definition unsupported {A} : exc A :=
  raise "NotImplementedError" "outside the reference fragment".

(** Equality of join and group keys: nulls match each other. *)
Definition key_eqb (a b : cell) : bool :=
  cell_eqb a b || (is_null a && is_null b).

Definition keys_eqb (a b : list cell) : bool :=
  bool_decide (length a = length b) && forallb (fun p => key_eqb p.1 p.2) (zip a b).

(** [on] resolved to positions; [KeyError] for a name that is absent. *)
Fixpoint positions (cols on : list string) : exc (list nat) :=
  match on with
  | [] => mret []
  | k :: on' =>
      match index_of k cols with
      | Some i => ps ← positions cols on'; mret (i :: ps)
      | None => raise "KeyError" k
      end
  end.

Definition suffixed (on other : list string) (suffix : string)
    (c : string * dtype) : string * dtype :=
  if bool_decide (c.1 ∉ on) && bool_decide (c.1 ∈ other)
  then (c.1 +:+ suffix, c.2) else c.

Definition non_key {A} (on : list string) (cols : list string) (l : list A) : list A :=
  (fun p => p.2) <$> List.filter (fun p : string * A => bool_decide (p.1 ∉ on)) (zip cols l).

Definition merge (left right : DataFrame) (on : list string) (how : string)
    (suffixes : string * string) : exc DataFrame :=
  if negb (String.eqb how "inner") || bool_decide (on = []) then unsupported else
  lpos ← positions (columns left) on;
  rpos ← positions (columns right) on;
  let others side := List.filter (fun c => bool_decide (c ∉ on)) (columns side) in
  let sch :=
    (suffixed on (others right) suffixes.1 <$> schema left)
    ++ (suffixed on (others left) suffixes.2
          <$> non_key on (columns right) (schema right)) in
  let key pos r := (fun i => row_get i r) <$> pos in
  let joined :=
    l ← rows left;
    r ← List.filter (fun r => keys_eqb (key lpos l) (key rpos r)) (rows right);
    [l ++ non_key on (columns right) r] in
  mret (mkDataFrame sch joined).

(** The numbers of a Series, nulls skipped. *)
Fixpoint numbers (s : list cell) : exc (list Q) :=
  match s with
  | [] => mret []
  | VNull :: s' => numbers s'
  | VNum q :: s' => qs ← numbers s'; mret (q :: qs)
  | _ :: _ => unsupported
  end.

Definition total (qs : list Q) : Q := Qred (foldl Qplus 0%Q qs).
Definition count (qs : list Q) : Q := inject_Z (Z.of_nat (length qs)).
Definition average (qs : list Q) : Q := Qred (total qs / count qs).

Definition sqrt9 (q : Q) : Q :=
  Qred (Z.sqrt (Qnum q * 10 ^ 18 / Zpos (Qden q)) # 10 ^ 9).

Definition sum_sq (qs : list Q) : Q :=
  let m := average qs in total ((fun x => (x - m) * (x - m))%Q <$> qs).

Definition least (qs : list Q) : pyfloat :=
  match qs with
  | [] => NaN
  | q :: qs' => Fin (foldl (fun a b => if Qle_bool a b then a else b) q qs')
  end.

Definition greatest (qs : list Q) : pyfloat :=
  match qs with
  | [] => NaN
  | q :: qs' => Fin (foldl (fun a b => if Qle_bool a b then b else a) q qs')
  end.

Definition mean (s : list cell) : exc pyfloat :=
  qs ← numbers s;
  mret (match qs with [] => NaN | _ => Fin (average qs) end).

Definition std (s : list cell) : exc pyfloat :=
  qs ← numbers s;
  mret (match qs with
        | [] | [_] => NaN
        | _ => Fin (sqrt9 (sum_sq qs / (count qs - 1)))
        end).

Definition corr (s1 s2 : list cell) : exc pyfloat :=
  xs ← numbers s1;
  ys ← numbers s2;
  if negb (bool_decide (length xs = length s1) && bool_decide (length ys = length s2)
           && bool_decide (length xs = length ys))
  then unsupported else
  let mx := average xs in
  let my := average ys in
  let cov := total (zip_with (fun x y => (x - mx) * (y - my))%Q xs ys) in
  let d := sqrt9 (sum_sq xs * sum_sq ys) in
  mret (if Qeq_bool d 0 then NaN else Fin (Qred (cov / d))).

Definition datetime (c : cell) : exc (option Z) :=
  match c with
  | VNull => mret None
  | VTime t => mret (Some t)
  | VNum q => if bool_decide (Qden q = 1%positive) then mret (Some (Qnum q)) else unsupported
  | VStr _ => unsupported
  end.

Fixpoint datetimes (s : list cell) : exc (list (option Z)) :=
  match s with
  | [] => mret []
  | c :: s' => t ← datetime c; ts ← datetimes s'; mret (t :: ts)
  end.

Definition str (c : cell) : string :=
  match c with
  | VNull => "nan"
  | VStr s => s
  | VTime t => "t" +:+ pretty t
  | VNum q =>
      if bool_decide (Qden q = 1%positive) then pretty (Qnum q)
      else pretty (Qnum q) +:+ "/" +:+ pretty (Zpos (Qden q))
  end.

(** Ascending order of group keys. *)
Definition cell_leb (a b : cell) : bool :=
  match a, b with
  | VNum x, VNum y => Qle_bool x y
  | VStr x, VStr y => String.leb x y
  | VTime x, VTime y => (x <=? y)%Z
  | VNull, _ => true
  | VNum _, _ => true
  | VStr _, VTime _ => true
  | _, _ => false
  end.

Fixpoint keys_leb (a b : list cell) : bool :=
  match a, b with
  | x :: a', y :: b' => if key_eqb x y then keys_leb a' b' else cell_leb x y
  | _, _ => true
  end.

Fixpoint insert_key (k : list cell) (ks : list (list cell)) : list (list cell) :=
  match ks with
  | [] => [k]
  | k' :: ks' =>
      if keys_eqb k k' then ks
      else if keys_leb k k' then k :: ks
      else k' :: insert_key k ks'
  end.

(** The distinct keys without nulls, ascending, with their rows. *)
Definition groups (df : DataFrame) (pos : list nat)
  : list (list cell * list (list cell)) :=
  let key r := (fun i => row_get i r) <$> pos in
  let keyed := List.filter (fun r => negb (existsb is_null (key r))) (rows df) in
  (fun k => (k, List.filter (fun r => keys_eqb (key r) k) keyed))
    <$> foldr insert_key [] (key <$> keyed).

Definition cell_of (f : pyfloat) : cell :=
  match f with NaN => VNull | Fin q => VNum q end.

Definition aggregate (f : string) (s : list cell) : exc cell :=
  qs ← numbers s;
  if String.eqb f "sum" then mret (VNum (total qs))
  else if String.eqb f "count" then mret (VNum (count qs))
  else if String.eqb f "mean" then cell_of <$> mean s
  else if String.eqb f "min" then mret (cell_of (least qs))
  else if String.eqb f "max" then mret (cell_of (greatest qs))
  else unsupported.

Fixpoint aggregates (df : DataFrame) (group : list (list cell))
    (funcs : list (string * string)) : exc (list cell) :=
  match funcs with
  | [] => mret []
  | (col, f) :: funcs' =>
      s ← get_column (mkDataFrame (schema df) group) col;
      c ← aggregate f s;
      cs ← aggregates df group funcs';
      mret (c :: cs)
  end.

Fixpoint aggregated_rows (df : DataFrame) (gs : list (list cell * list (list cell)))
    (funcs : list (string * string)) : exc (list (list cell)) :=
  match gs with
  | [] => mret []
  | (k, group) :: gs' =>
      cs ← aggregates df group funcs;
      rest ← aggregated_rows df gs' funcs;
      mret ((k ++ cs) :: rest)
  end.

Definition groupby_aggregate (df : DataFrame) (by_ : list string)
    (funcs : list (string * string)) : exc DataFrame :=
  pos ← positions (columns df) by_;
  key_schema ← column_positions (schema df) by_;
  rs ← aggregated_rows df (groups df pos) funcs;
  mret (mkDataFrame (key_schema.*2 ++ ((fun p => (p.1, Dfloat64)) <$> funcs)) rs).

Definition groupby_iterate (df : DataFrame) (by_ : string)
  : exc (list (cell * DataFrame)) :=
  pos ← positions (columns df) [by_];
  mret ((fun g => (default VNull (g.1 !! 0), mkDataFrame (schema df) g.2))
          <$> groups df pos).

(** The fragment, over a sorting kernel that decides ties by [tie]. *)
Definition sorting (tie : list cell → list cell → bool) : Pandas := {|
  pd_merge := merge;
  groupby_agg := groupby_aggregate;
  groupby_iter := groupby_iterate;
  series_corr := corr;
  to_datetime := datetimes;
  series_mean := mean;
  series_std := std;
  series_min := fun s => least <$> numbers s;
  series_max := fun s => greatest <$> numbers s;
  py_str := str;
  quicksort_tie := tie
|}.

#[export] Instance pandas : Pandas := sorting (fun _ _ => true).

End Reference.

(** ** A canned [Backend]

    A test double: every collection exists, the index answers [index] to
    every query and the language model answers [llm] to every prompt. *)
Module Stub.

Definition backend (index : exc QueryResult) (llm : exc string) : Backend := {|
  Collection := string;
  Embedding := unit;
  delete_collection := fun _ => mret ();
  get_or_create_collection := fun name => mret name;
  encode := fun texts => mret ((fun _ => ()) <$> texts);
  collection_query := fun _ _ _ _ => index;
  text_generation := fun _ _ _ => llm
|}.

End Stub.

(** ** Vocabulary of the properties *)

(** One call of [register_dataset]. *)
Record Registration := mkRegistration {
  reg_name : string;
  reg_df : DataFrame;
  reg_description : string;
  reg_key_columns : option (list string);
  reg_time_column : option string
}.

Definition register (self : DataFusion) (r : Registration) : DataFusion :=
  register_dataset self (reg_name r) (reg_df r) (reg_description r)
    (reg_key_columns r) (reg_time_column r).

(** A sequence of [register_dataset] calls, first to last. *)
Definition register_all (self : DataFusion) (calls : list Registration) : DataFusion :=
  foldl register self calls.

(** The calls that registered [name], first to last. *)
Definition registrations_of (name : string) (calls : list Registration)
  : list Registration :=
  List.filter (fun r => String.eqb (reg_name r) name) calls.

Definition metadata_of (r : Registration) : Metadata :=
  mkMetadata (reg_description r) (columns (reg_df r))
    (default [] (reg_key_columns r)) (reg_time_column r)
    (df_shape (reg_df r)) (schema (reg_df r)).

(** What [if filters: for col, value in filters.items(): ...] leaves of [df]. *)
Definition filtered (df : DataFrame) (filters : option (list (string * filter_value)))
  : DataFrame :=
  foldl apply_filter df (default [] filters).

(** What [if limit: df = df.head(limit)] leaves of [df]. *)
Definition limited (df : DataFrame) (limit : option Z) : DataFrame :=
  match truthy_int limit with
  | Some n => head df n
  | None => df
  end.

(** [del d[k]] on a filter mapping. *)
Definition dict_delete {V} (k : string) (d : list (string * V)) : list (string * V) :=
  List.filter (fun e => negb (String.eqb e.1 k)) d.

(** The rows that have a value in both of two columns of a joined frame;
    none when a column is missing. *)
Definition paired_observations (merged : DataFrame) (col1 col2 : string) : nat :=
  match select_columns merged [col1; col2] with
  | Returned selected => len (dropna selected)
  | Raised _ => 0
  end.

(** The value column of a joined frame: the name itself, or its suffixed
    version. *)
Definition resolved (merged : DataFrame) (value_col suffix : string) : string :=
  if bool_decide (value_col ∈ columns merged) then value_col else value_col +:+ suffix.

(** A hit of the index: id, document, metadata, distance. *)
Record Hit := mkHit {
  hit_id : string;
  hit_document : string;
  hit_metadata : metadata_dict;
  hit_distance : Q
}.

(** The hits of the first query of an index answer, in rank order. *)
Fixpoint zip_hits (idents docs : list string) (metas : list metadata_dict)
    (ds : list Q) : list Hit :=
  match idents, docs, metas, ds with
  | i :: idents', doc :: docs', m :: metas', d :: ds' =>
      mkHit i doc m d :: zip_hits idents' docs' metas' ds'
  | _, _, _, _ => []
  end.

Definition ranked (r : QueryResult) : list Hit :=
  match qr_ids r, qr_documents r, qr_metadatas r, qr_distances r with
  | idents :: _, docs :: _, metas :: _, ds :: _ => zip_hits idents docs metas ds
  | _, _, _, _ => []
  end.

(** The four lists of the first query are there and cover every distance. *)
Definition well_formed (r : QueryResult) : bool :=
  match qr_ids r, qr_documents r, qr_metadatas r, qr_distances r with
  | idents :: _, docs :: _, metas :: _, ds :: _ =>
      bool_decide (length ds ≤ length idents)
      && bool_decide (length ds ≤ length docs)
      && bool_decide (length ds ≤ length metas)
  | _, _, _, [] => true
  | _, _, _, ds :: _ => bool_decide (ds = [])
  end.

Definition similarity (h : Hit) : Q := (1 - hit_distance h)%Q.

(** The hits whose similarity reaches the threshold, order kept. *)
Definition surviving (t : Q) (hits : list Hit) : list Hit :=
  List.filter (fun h => Qle_bool t (similarity h)) hits.

Definition pack (hits : list Hit) : FilteredResults :=
  mkFilteredResults (hit_document <$> hits) (hit_metadata <$> hits)
    (hit_distance <$> hits) (hit_id <$> hits).

(** The four [append]s of the filtering loop, for a run of hits. *)
Definition extend (f g : FilteredResults) : FilteredResults :=
  mkFilteredResults (documents f ++ documents g) (metadatas f ++ metadatas g)
    (distances f ++ distances g) (ids f ++ ids g).

(** The collection that [query] searches, made on demand, and the state
    this leaves; it does not depend on the similarity threshold. *)
Definition searched `{Backend} (cs : gmap string Collection) (collection_name : string)
  : exc (Collection * gmap string Collection) :=
  match cs !! collection_name with
  | Some collection => mret (collection, cs)
  | None =>
      collection ← get_or_create_collection collection_name;
      mret (collection, <[collection_name := collection]> cs)
  end.

(** The index's neighbours for a query, in the index's order; none when a
    step before the filtering raised. *)
Definition index_ranking `{Backend} (k : Z) (cs : gmap string Collection)
    (query_text collection_name : string) (n_results : option Z)
    (filter_dict : option metadata_dict) : list Hit :=
  match searched cs collection_name with
  | Returned (collection, _) =>
      match index_query collection query_text
              (default k (truthy_int n_results)) filter_dict with
      | Returned r => ranked r
      | Raised _ => []
      end
  | Raised _ => []
  end.

(** The state [query] leaves. *)
Definition after_query `{Backend} (self : RAGPipeline) (collection_name : string)
  : RAGPipeline :=
  match searched (collections self) collection_name with
  | Returned (_, cs) => mkRAGPipeline (top_k self) (similarity_threshold self) cs
  | Raised _ => self
  end.

(** What every answer of [query] satisfies, whatever the index does: a
    distance for each document, each within the threshold. *)
Definition aligned (t : Q) (f : FilteredResults) : Prop :=
  length (documents f) = length (distances f)
  ∧ Forall (fun d => (t <= 1 - d)%Q) (distances f).

(** The prompt [generate_response] sends. *)
Definition prompt_of (include_reasoning : bool) (query context : string) : string :=
  if include_reasoning
  then prompt_with_reasoning query context
  else prompt_plain query context.

(** [mean(l)] *)
Definition mean (l : list Q) : Q :=
  (py_sum l / inject_Z (Z.of_nat (length l)))%Q.

(** Ascending times, NaT last, of the rows of a frame. *)
Definition time_ascending (i : nat) (rs : list (list cell)) : Prop :=
  Sorted (fun a b => time_le (time_key (row_get i a)) (time_key (row_get i b)) = true) rs.




(** ** Worked data *)
Module Examples.

Definition num (z : Z) : cell := VNum (inject_Z z).

Definition rainfall : DataFrame :=
  mkDataFrame [("state", Dobject); ("year", Dint64); ("mm", Dint64)]
    [[VStr "A"; num 2020; num 800];
     [VStr "A"; num 2021; num 850]].

Definition soil : DataFrame :=
  mkDataFrame [("district", Dobject); ("ph", Dint64)]
    [[VStr "D1"; num 6];
     [VStr "D2"; num 7]].

Definition crops : DataFrame :=
  mkDataFrame [("state", Dobject); ("year", Dint64); ("yield", Dint64)]
    [[VStr "A"; num 2020; num 3]].

(** The inner join of [rainfall] and [crops] on state and year. *)
Definition rainfall_crops : DataFrame :=
  mkDataFrame
    [("state", Dobject); ("year", Dint64); ("mm", Dint64); ("yield", Dint64)]
    [[VStr "A"; num 2020; num 800; num 3]].

Definition fusion : DataFusion :=
  register_all DataFusion_init
    [mkRegistration "rainfall" rainfall "" None None;
     mkRegistration "soil" soil "" None None;
     mkRegistration "crops" crops "" None None].

(** A series of values and the years they belong to, given out of order. *)
Definition series (name : string) (points : list (Z * Z)) : DataFusion :=
  register_dataset DataFusion_init name
    (mkDataFrame [("year", Dint64); ("value", Dint64)]
       ((fun p => [num p.1; num p.2]) <$> points))
    "" None (Some "year").


Definition two_points : DataFusion :=
  series "s" [(2021, 90); (2020, 100)]%Z.



(** An index answer of three neighbours. *)
Definition answer3 : QueryResult :=
  mkQueryResult [["doc_0"; "doc_1"; "doc_2"]]
    [["rice in A"; "wheat in B"; "rain in C"]]
    [[[("dataset", "crops")]; [("dataset", "crops")]; []]]
    [[1 # 10; 2 # 10; 6 # 10]]%Q.

Definition pipeline `{Backend} (t : Q) : RAGPipeline := mkRAGPipeline 5 t ∅.

End Examples.

(** ** Vocabulary of the further properties *)

(** The test one filter entry puts on a cell. *)
Definition matches (value : filter_value) (c : cell) : bool :=
  match value with
  | FList vs => cell_isin c vs
  | FScalar v => cell_eqb c v
  end.

(** A row passes an entry when the entry's column is not a column of the
    frame, or when its cell under that column matches. *)
Definition passes_entry (cols : list string) (row : list cell)
    (f : string * filter_value) : bool :=
  match index_of f.1 cols with
  | Some i => matches f.2 (row_get i row)
  | None => true
  end.

Definition passes (cols : list string) (fs : list (string * filter_value))
    (row : list cell) : bool :=
  forallb (passes_entry cols row) fs.


(** White space at the ends of a string. *)
Definition all_whitespace (s : string) : bool := forallb is_whitespace (chars s).

Definition starts_with_whitespace (s : string) : bool :=
  match chars s with
  | c :: _ => is_whitespace c
  | [] => false
  end.

Definition ends_with_whitespace (s : string) : bool :=
  match last (chars s) with
  | Some c => is_whitespace c
  | None => false
  end.

(** ** Writing to the vector store *)

(** The contents of the vector store, which [collection.add] changes. *)
Class Store `{Backend} := {
  World : Type;
  (** [collection.count()] *)
  collection_count : World → Collection → exc nat;
  (** [collection.add(embeddings=..., documents=..., metadatas=..., ids=...)] *)
  collection_add : World → Collection → list Embedding → list string
                   → list metadata_dict → list string → exc World
}.

(** [[f"doc_{existing_count + i}" for i in range(n)]] *)
Definition generated_ids (existing_count n : nat) : list string :=
  (fun i => "doc_" +:+ pretty (existing_count + i)) <$> seq 0 n.

(** [add_documents]: the pipeline it leaves, and the store it leaves or the
    exception it raises again. *)
Definition add_documents `{Store} (self : RAGPipeline) (world : World)
    (documents_ : list string) (metadatas_ : option (list metadata_dict))
    (collection_name : string) (ids_ : option (list string))
  : RAGPipeline * exc World :=
  let created :=
    match collections self !! collection_name with
    | Some collection => mret (collection, self)
    | None => create_collection self collection_name false
    end in
  match created with
  | Raised e => (self, Raised e)
  | Returned (collection, self) =>
      (self,
       try_except
         (embeddings ← encode documents_;
          ids ← match ids_ with
                | Some ids => mret ids
                | None =>
                    existing_count ← collection_count world collection;
                    mret (generated_ids existing_count (length documents_))
                end;
          collection_add world collection embeddings documents_
            (default ((fun _ => []) <$> documents_) (truthy_list metadatas_)) ids)
         (fun e => Raised e))
  end.

(** A store that only counts: adding [n] ids to a collection raises its
    count by [n]. *)
Module Counting.

Definition store (B : Backend) : @Store B := {|
  World := nat;
  collection_count := fun w _ => mret w;
  collection_add := fun w _ _ _ _ ids => mret (w + length ids)
|}.

End Counting.

(** ** The routes that call the two classes *)

(** What a route gives back: a response, or the [HTTPException] it raises. *)
Inductive http (A : Type) : Type :=
| HTTPException (status_code : Z) (detail : string)
| OK (a : A).
Arguments HTTPException {A} status_code detail.
Arguments OK {A} a.

(** [utils.chart_builder.ChartBuilder]: its attributes. *)
Record ChartBuilder := mkChartBuilder {
  width : Z;
  height : Z
}.

(** The charts of [ChartBuilder], which are built by plotly; each method
    catches every exception itself and then answers the empty dict. *)
Class Plotly := {
  Chart : Type;
  (** the empty dict [{}] *)
  no_chart : Chart;
  (** [create_scatter_plot(df, x_col, y_col, title)] *)
  create_scatter_plot : ChartBuilder → DataFrame → string → string → string → Chart;
  (** [create_line_chart(df, x_col, y_col, title, group_by=group_by)] *)
  create_line_chart : ChartBuilder → DataFrame → string → string → string
                      → option string → Chart;
  (** [create_bar_chart(df, x_col, y_col, title)] *)
  create_bar_chart : ChartBuilder → DataFrame → string → string → string → Chart;
  (** [create_choropleth_map(df, location_col, value_col, title)] *)
  create_choropleth_map : ChartBuilder → DataFrame → string → string → string → Chart;
  (** [create_table(df, title)] *)
  create_table : ChartBuilder → DataFrame → string → Chart
}.

(** Charts that show nothing, to run the routes. *)
Module Blank.

Definition plotly : Plotly := {|
  Chart := unit;
  no_chart := ();
  create_scatter_plot := fun _ _ _ _ _ => ();
  create_line_chart := fun _ _ _ _ _ _ => ();
  create_bar_chart := fun _ _ _ _ _ => ();
  create_choropleth_map := fun _ _ _ _ _ => ();
  create_table := fun _ _ _ => ()
|}.

End Blank.

(** [abs(x) > q] and [x > q] on a float that may be NaN. *)
Definition float_gt (x : pyfloat) (q : Q) : bool :=
  match x with
  | Fin v => negb (Qle_bool v q)
  | NaN => false
  end.

Definition float_abs (x : pyfloat) : pyfloat :=
  match x with
  | Fin v => Fin (if Qle_bool 0 v then v else (- v)%Q)
  | NaN => NaN
  end.

Record CorrelationRequest := mkCorrelationRequest {
  cq_dataset1 : string;
  cq_dataset2 : string;
  cq_value_col1 : string;
  cq_value_col2 : string;
  cq_merge_on : list string
}.

Record TimeSeriesRequest := mkTimeSeriesRequest {
  tq_dataset_name : string;
  tq_time_column : string;
  tq_value_column : string;
  tq_group_by : option string
}.

Record ChatRequest := mkChatRequest {
  rq_query : string;
  rq_include_reasoning : bool;
  rq_include_visualization : bool;
  rq_policy_mode : bool
}.

Record ChatResponse := mkChatResponse {
  cr_query : string;
  cr_answer : string;
  cr_sources : list metadata_dict;
  cr_confidence : Q;
  cr_visualization : option (list (string * string));
  cr_policy_insights : option string;
  cr_reasoning_chain : option string
}.

Section Routes.
Context `{Pandas} `{Backend} `{Plotly}.

(** [main.AppState]: the services that the routes below reach through
    [state]. *)
Record AppState := mkAppState {
  rag_pipeline : option RAGPipeline;
  data_fusion : option DataFusion;
  chart_builder : option ChartBuilder;
  initialized : bool
}.

Record CorrelationResponse := mkCorrelationResponse {
  co_correlation : pyfloat;
  co_interpretation : string;
  co_direction : string;
  co_data_points : nat;
  co_visualization : Chart
}.

(** [routes.visualize.analyze_correlation] *)
Definition analyze_correlation (state : AppState) (request : CorrelationRequest)
  : http CorrelationResponse :=
  match data_fusion state with
  | None => HTTPException 503 "Data fusion service not ready"
  | Some fusion =>
      match calculate_correlation fusion (cq_dataset1 request) (cq_dataset2 request)
              (cq_value_col1 request) (cq_value_col2 request) (cq_merge_on request) with
      | Raised e => HTTPException 500 (exn_message e)
      | Returned (correlation, merged_df) =>
          if empty merged_df then
            HTTPException 404 "Could not merge datasets or no common data found"
          else
            let chart_data :=
              match chart_builder state with
              | Some builder =>
                  let col1 := if bool_decide (cq_value_col1 request ∈ columns merged_df)
                              then cq_value_col1 request
                              else cq_value_col1 request +:+ "_left" in
                  let col2 := if bool_decide (cq_value_col2 request ∈ columns merged_df)
                              then cq_value_col2 request
                              else cq_value_col2 request +:+ "_right" in
                  create_scatter_plot builder merged_df col1 col2
                    ("Correlation: " +:+ cq_value_col1 request +:+ " vs "
                     +:+ cq_value_col2 request)
              | None => no_chart
              end in
            OK (mkCorrelationResponse correlation
                  (if float_gt (float_abs correlation) (7 # 10) then "strong"
                   else if float_gt (float_abs correlation) (4 # 10) then "moderate"
                   else "weak")
                  (if float_gt correlation 0 then "positive" else "negative")
                  (len merged_df) chart_data)
      end
  end.

(** [routes.visualize.analyze_timeseries] *)
Definition analyze_timeseries (state : AppState) (request : TimeSeriesRequest)
  : http (TimeSeries * Chart) :=
  match data_fusion state with
  | None => HTTPException 503 "Data fusion service not ready"
  | Some fusion =>
      match time_series_analysis fusion (tq_dataset_name request)
              (tq_time_column request) (tq_value_column request)
              (tq_group_by request) with
      | Raised e => HTTPException 500 (exn_message e)
      | Returned None => HTTPException 404 "Could not analyze time series data"
      | Returned (Some analysis) =>
          match chart_builder state with
          | Some builder =>
              match query_dataset fusion (tq_dataset_name request) None None None with
              | Raised e => HTTPException 500 (exn_message e)
              | Returned df =>
                  OK (analysis,
                      create_line_chart builder df (tq_time_column request)
                        (tq_value_column request)
                        ("Time Series: " +:+ tq_value_column request)
                        (tq_group_by request))
              end
          | None => OK (analysis, no_chart)
          end
      end
  end.

(** The prompt of the policy insights of [routes.chat.chat]. *)
Definition policy_prompt (answer_ : string) : string :=
  "Based on this analysis: " +:+ answer_ +:+ nl +:+ nl
  +:+ "Provide data-driven policy recommendations for Indian agriculture:".

(** [routes.chat.chat]: the response or the exception, and the state left. *)
Definition chat (state : AppState) (request : ChatRequest)
  : http ChatResponse * AppState :=
  match initialized state, rag_pipeline state with
  | true, Some pipeline =>
      match rag_query pipeline (rq_query request) "gov_datasets"
              (rq_include_reasoning request) None with
      | Raised e => (HTTPException 500 (exn_message e), state)
      | Returned (rag_result, pipeline) =>
          let visualization :=
            if rq_include_visualization request && bool_decide (is_Some (chart_builder state))
            then Some [("type", "info");
                       ("message",
                        "Visualization data will be available after dataset integration")]
            else None in
          let policy_insights :=
            if rq_policy_mode request then
              match generate_response (policy_prompt (answer rag_result))
                      (context rag_result) 512 (7 # 10) false with
              | Returned insights => Some insights
              | Raised _ => None
              end
            else None in
          let reasoning_chain :=
            if rq_include_reasoning request then Some (context rag_result) else None in
          (OK (mkChatResponse (rq_query request) (answer rag_result)
                 (sources rag_result) (confidence rag_result)
                 visualization policy_insights reasoning_chain),
           mkAppState (Some pipeline) (data_fusion state) (chart_builder state)
             (initialized state))
      end
  | _, _ =>
      (HTTPException 503 "AgriSense is still initializing. Please try again in a moment.",
       state)
  end.

End Routes.

(** ** Paginated fetching ([utils.fetch_datasets]) *)

Record DataGovFetcher := mkDataGovFetcher {
  api_key : string;
  base_url : string
}.

(** The two calls of [fetch_paginated] that leave the process. *)
Class DataGov := {
  (** [self.fetch_dataset(resource_id, filters, limit, offset)] *)
  fetch_dataset : DataGovFetcher → string → option metadata_dict → Z → Z
                  → exc DataFrame;
  (** [pd.concat(frames, ignore_index=True)] *)
  pd_concat : list DataFrame → exc DataFrame
}.

Definition batch_size : Z := 1000.

(** The loop [while offset < max_records] of [fetch_paginated]; it ends
    within [fuel] rounds when [fuel] is at least [max_records - offset]. *)
Fixpoint fetch_loop (fuel : nat) (fetch : Z → exc DataFrame) (max_records offset : Z)
    (all_data : list DataFrame) : exc (list DataFrame) :=
  match fuel with
  | 0 => mret all_data
  | S fuel =>
      if (offset <? max_records)%Z then
        df ← fetch offset;
        if empty df then mret all_data else
        let all_data := all_data ++ [df] in
        if (Z.of_nat (len df) <? batch_size)%Z then mret all_data else
        fetch_loop fuel fetch max_records (offset + batch_size)%Z all_data
      else mret all_data
  end.

Definition fetch_pages `{DataGov} (self : DataGovFetcher) (resource_id : string)
    (filters : option metadata_dict) (max_records : Z) : exc (list DataFrame) :=
  fetch_loop (Z.to_nat max_records)
    (fetch_dataset self resource_id filters batch_size) max_records 0 [].

Definition fetch_paginated `{DataGov} (self : DataGovFetcher) (resource_id : string)
    (filters : option metadata_dict) (max_records : Z) : exc DataFrame :=
  all_data ← fetch_pages self resource_id filters max_records;
  match all_data with
  | [] => mret pd_DataFrame
  | _ :: _ => pd_concat all_data
  end.

(** What the loop keeps of the pages it has: page [j] is the answer at
    offset [1000 * j] and is not empty, and every page before the last
    has at least a full batch of rows. *)
Definition paged (fetch : Z → exc DataFrame) (pages : list DataFrame) : Prop :=
  ∀ j page, pages !! j = Some page →
    fetch (batch_size * Z.of_nat j)%Z = Returned page
    ∧ empty page = false
    ∧ (S j < length pages → (batch_size ≤ Z.of_nat (len page))%Z).

(** Why the loop stopped after these pages. *)
Definition stopped (fetch : Z → exc DataFrame) (max_records : Z)
    (pages : list DataFrame) : Prop :=
  (max_records ≤ batch_size * Z.of_nat (length pages))%Z
  ∨ (∃ page, last pages = Some page ∧ (Z.of_nat (len page) < batch_size)%Z)
  ∨ (∃ df, fetch (batch_size * Z.of_nat (length pages))%Z = Returned df
           ∧ empty df = true).

(** A server of [total] records that honours limit and offset. *)
Module Server.

Definition page (total : nat) (limit offset : Z) : DataFrame :=
  mkDataFrame [("id", Dint64)]
    ((fun i => [VNum (inject_Z (offset + Z.of_nat i))])
       <$> seq 0 (Z.to_nat (Z.min limit (Z.of_nat total - offset)))).

Definition datagov (total : nat) : DataGov := {|
  fetch_dataset := fun _ _ _ limit offset => mret (page total limit offset);
  pd_concat := fun frames =>
    mret (mkDataFrame [("id", Dint64)] (frames ≫= rows))
|}.

End Server.

(** ** Choosing a chart ([utils.chart_builder]) *)

(** [s.lower()], for the ASCII letters; other characters are kept. *)
Definition lower_ascii (a : Ascii.ascii) : Ascii.ascii :=
  let n := Ascii.nat_of_ascii a in
  if (65 <=? n) && (n <=? 90) then Ascii.ascii_of_nat (n + 32) else a.

Fixpoint lower (s : string) : string :=
  match s with
  | EmptyString => EmptyString
  | String a s' => String (lower_ascii a) (lower s')
  end.

(** [word in s] on strings. *)
Fixpoint contains (word s : string) : bool :=
  String.prefix word s
  || match s with
     | EmptyString => false
     | String _ s' => contains word s'
     end.

(** [any(word in s for word in words)] *)
Definition any_word (words : list string) (s : string) : bool :=
  existsb (fun word => contains word s) words.

Definition detect_chart_type (query : string) (df : DataFrame) : string :=
  let query_lower := lower query in
  if any_word ["trend"; "over time"; "years"; "temporal"; "timeline"] query_lower
  then "line"
  else if any_word ["compare"; "comparison"; "versus"; "vs"; "between"] query_lower
  then "bar"
  else if any_word ["correlation"; "relationship"; "affect"; "impact"] query_lower
  then "scatter"
  else if any_word ["state"; "district"; "region"; "map"; "geography"] query_lower
  then
    if existsb (fun col : string => bool_decide (col ∈ columns df))
         ["state"; "district"; "region"; "location"]
    then "map" else "bar"
  else if 50 <? len df then "line" else "bar".

(** [df.select_dtypes(include=['number']).columns] *)
Definition numeric_columns (df : DataFrame) : list string :=
  (List.filter (fun c : string * dtype =>
                  match c.2 with Dint64 | Dfloat64 => true | _ => false end)
     (schema df)).*1.

(** [next((col for col in df.columns if col.lower() in names), None)] *)
Definition first_named (names : list string) (df : DataFrame) : option string :=
  List.find (fun col => bool_decide (lower col ∈ names)) (columns df).

Section Charts.
Context `{Plotly}.

(** The dict [auto_visualize] returns. *)
Record Visualization := mkVisualization {
  vz_type : string;
  vz_data : Chart;
  vz_message : string
}.

Definition auto_visualize (self : ChartBuilder) (query : string) (df : DataFrame)
    (title : option string) : exc Visualization :=
  if empty df then mret (mkVisualization "none" no_chart "No data to visualize") else
  let chart_type := detect_chart_type query df in
  let title :=
    match truthy_str title with
    | Some title => title
    | None => "Analysis: " +:+ join (take 50 (chars query)) +:+ "..."
    end in
  (** [numeric_cols[0] if len(numeric_cols) > 0 else df.columns[-1]] *)
  let value_col :=
    match numeric_columns df with
    | col :: _ => mret col
    | [] => match last (columns df) with
            | Some col => mret col
            | None => raise "IndexError" "index -1 is out of bounds for axis 0 with size 0"
            end
    end in
  chart_data ←
    (if String.eqb chart_type "line" then
       value_col ← value_col;
       match first_named ["year"; "month"; "date"; "time"; "period"] df with
       | Some time_col => mret (create_line_chart self df time_col value_col title None)
       | None =>
           first ← py_index (columns df) 0;
           mret (create_bar_chart self df first value_col title)
       end
     else if String.eqb chart_type "bar" then
       categorical_col ← py_index (columns df) 0;
       value_col ← value_col;
       mret (create_bar_chart self df categorical_col value_col title)
     else if String.eqb chart_type "scatter" then
       match numeric_columns df with
       | x :: y :: _ => mret (create_scatter_plot self df x y title)
       | _ => mret (create_table self df title)
       end
     else if String.eqb chart_type "map" then
       value_col ← value_col;
       match first_named ["state"; "district"; "region"] df with
       | Some location_col =>
           mret (create_choropleth_map self df location_col value_col title)
       | None =>
           first ← py_index (columns df) 0;
           mret (create_bar_chart self df first value_col title)
       end
     else mret (create_table self df title));
  mret (mkVisualization chart_type chart_data
          ("Generated " +:+ chart_type +:+ " visualization")).

End Charts.

(** * Properties *)

(** ** The error monad *)

Lemma returns_not_raises {A} (m : exc A) : returns m → ¬ raises m.
Proof. intros [a ->] [e He]. discriminate He. Qed.

Lemma py_index_head {A} (x : A) (l : list A) : py_index (x :: l) 0 = Returned x.
Proof. done. Qed.

Lemma py_index_lookup {A} (l : list A) (i : nat) (x : A) :
  l !! i = Some x → py_index l i = Returned x.
Proof. intros Hx. unfold py_index. by rewrite Hx. Qed.

Lemma try_except_returns {A} (m : exc A) (h : exn → exc A) :
  (∀ e, returns (h e)) → returns (try_except m h).
Proof. intros Hh. destruct m as [e|a]; simpl; [apply Hh | by exists a]. Qed.

(** ** The registry *)

Section Registry.
Implicit Types (self : DataFusion) (calls : list Registration) (r : Registration).

Lemma get_dataset_register self r name :
  get_dataset (register self r) name
  = if decide (reg_name r = name) then Some (reg_df r) else get_dataset self name.
Proof. unfold get_dataset, register, register_dataset. simpl. apply lookup_insert. Qed.

Lemma metadata_register self r name :
  metadata (register self r) !! name
  = if decide (reg_name r = name) then Some (metadata_of r) else metadata self !! name.
Proof. unfold register, register_dataset, metadata_of. simpl. apply lookup_insert. Qed.

Lemma register_all_snoc self calls r :
  register_all self (calls ++ [r]) = register (register_all self calls) r.
Proof. unfold register_all. by rewrite foldl_app. Qed.

Lemma registrations_of_snoc name calls r :
  registrations_of name (calls ++ [r])
  = registrations_of name calls ++ (if decide (reg_name r = name) then [r] else []).
Proof.
  unfold registrations_of. rewrite List.filter_app. simpl.
  destruct (decide (reg_name r = name)) as [->|Hne].
  - by rewrite String.eqb_refl.
  - by apply String.eqb_neq in Hne as ->.
Qed.

Lemma register_twice self name df1 d1 k1 t1 df2 d2 k2 t2 :
  register_dataset (register_dataset self name df1 d1 k1 t1) name df2 d2 k2 t2
  = register_dataset self name df2 d2 k2 t2.
Proof. unfold register_dataset. simpl. by rewrite !insert_insert_eq. Qed.

End Registry.

(** C8. After any sequence of [register_dataset] calls a name holds the
    dataset, and the metadata, of the last call that registered it (and what
    it held before when no call did); in particular two registrations of
    ["x"] leave exactly the state of the second one alone, and
    [get_dataset] answers the second content. *)
Theorem register_dataset_replaces :
  (∀ (self : DataFusion) (calls : list Registration) (name : string),
      get_dataset (register_all self calls) name
      = match last (registrations_of name calls) with
        | Some r => Some (reg_df r)
        | None => get_dataset self name
        end
      ∧ metadata (register_all self calls) !! name
        = match last (registrations_of name calls) with
          | Some r => Some (metadata_of r)
          | None => metadata self !! name
          end)
  ∧ (∀ (self : DataFusion) df1 d1 k1 t1 df2 d2 k2 t2,
        let once := register_dataset self "x" df1 d1 k1 t1 in
        let twice := register_dataset once "x" df2 d2 k2 t2 in
        get_dataset twice "x" = Some df2
        ∧ twice = register_dataset self "x" df2 d2 k2 t2).
Proof.
  split.
  - intros self calls name. induction calls as [|r calls IH] using rev_ind; [done|].
    rewrite register_all_snoc, registrations_of_snoc.
    rewrite get_dataset_register, metadata_register.
    destruct (decide (reg_name r = name)) as [Heq|Hne].
    + by rewrite last_snoc.
    + by rewrite app_nil_r.
  - intros self df1 d1 k1 t1 df2 d2 k2 t2. simpl. split.
    + unfold get_dataset, register_dataset. simpl. apply lookup_insert_eq.
    + apply register_twice.
Qed.

(** ** Filtering and projection *)

Section Query.
Implicit Types (df : DataFrame) (fs : list (string * filter_value)).

Lemma schema_mask_rows df col p : schema (mask_rows df col p) = schema df.
Proof. unfold mask_rows. by destruct (index_of col (columns df)). Qed.

Lemma schema_apply_filter df f : schema (apply_filter df f) = schema df.
Proof.
  unfold apply_filter. case_bool_decide; [|done].
  destruct f.2; apply schema_mask_rows.
Qed.

Lemma schema_filters df fs : schema (foldl apply_filter df fs) = schema df.
Proof.
  revert df. induction fs as [|f fs IH]; intros df; [done|].
  simpl. by rewrite IH, schema_apply_filter.
Qed.

Lemma columns_filters df fs : columns (foldl apply_filter df fs) = columns df.
Proof. unfold columns. by rewrite schema_filters. Qed.

Lemma schema_head df n : schema (head df n) = schema df.
Proof. done. Qed.

Lemma truthy_filters df filters :
  match truthy_list filters with
  | Some fs => foldl apply_filter df fs
  | None => df
  end = filtered df filters.
Proof. unfold filtered. by destruct filters as [[|f fs]|]. Qed.

Lemma apply_filter_unknown df f : f.1 ∉ columns df → apply_filter df f = df.
Proof. intros Hno. unfold apply_filter. by rewrite bool_decide_eq_false_2. Qed.

Lemma filters_delete_unknown df col fs :
  col ∉ columns df →
  foldl apply_filter df (dict_delete col fs) = foldl apply_filter df fs.
Proof.
  intros Hno. revert df Hno.
  induction fs as [|f fs IH]; intros df Hno; [done|].
  simpl. destruct (String.eqb_spec f.1 col) as [Heq|Hne]; simpl.
  - rewrite (apply_filter_unknown df f) by by rewrite Heq.
    by apply IH.
  - apply IH. unfold columns. by rewrite schema_apply_filter.
Qed.

Lemma filter_none {A} (P : A → Prop) `{∀ x, Decision (P x)} (l : list A) :
  (∀ x, x ∈ l → ¬ P x) → filter P l = [].
Proof.
  induction l as [|x l IH]; intros Hl; [done|].
  rewrite filter_cons_False by (apply Hl; left).
  apply IH. intros y Hy. apply Hl. by right.
Qed.

Lemma query_dataset_registered (self : DataFusion) name df filters columns_ limit :
  datasets self !! name = Some df →
  query_dataset self name filters columns_ limit
  = (df' ← match truthy_list columns_ with
           | Some cols =>
               match filter (.∈ columns df) cols with
               | [] => mret (filtered df filters)
               | available_cols => select_columns (filtered df filters) available_cols
               end
           | None => mret (filtered df filters)
           end;
     mret (match truthy_int limit with
           | Some n => head df' n
           | None => df'
           end)).
Proof.
  intros Hreg. unfold query_dataset. rewrite Hreg, truthy_filters.
  by replace (columns (filtered df filters)) with (columns df)
    by (symmetry; apply columns_filters).
Qed.

Lemma query_dataset_all_columns (self : DataFusion) name df filters :
  datasets self !! name = Some df →
  query_dataset self name filters None None = Returned (filtered df filters).
Proof. intros Hreg. by rewrite (query_dataset_registered _ _ df). Qed.

End Query.

Section Projection.
Implicit Types (df : DataFrame) (cols : list string).

Lemma index_of_is_Some col cols : col ∈ cols → is_Some (index_of col cols).
Proof.
  induction cols as [|c cols IH]; intros Hin; [by apply elem_of_nil in Hin|].
  simpl. destruct (String.eqb_spec c col) as [Heq|Hne]; [by eexists|].
  apply elem_of_cons in Hin as [->|Hin]; [done|].
  destruct (IH Hin) as [i ->]. by eexists.
Qed.

Lemma index_of_None col cols : col ∉ cols → index_of col cols = None.
Proof.
  induction cols as [|c cols IH]; intros Hno; [done|].
  apply not_elem_of_cons in Hno as [Hne Hno]. simpl.
  destruct (String.eqb_spec c col) as [Heq|_]; [by subst|].
  by rewrite IH.
Qed.

Lemma column_positions_returns sch cols :
  Forall (.∈ sch.*1) cols → returns (column_positions sch cols).
Proof.
  induction 1 as [|c cols Hc _ [ps IH]]; [by eexists|].
  simpl. destruct (index_of_is_Some _ _ Hc) as [i ->].
  rewrite IH. by eexists.
Qed.

Lemma select_columns_returns df cols :
  Forall (.∈ columns df) cols → returns (select_columns df cols).
Proof.
  intros Hcols. unfold select_columns.
  destruct (column_positions_returns _ _ Hcols) as [ps ->]. by eexists.
Qed.

Lemma query_dataset_returns (self : DataFusion) name filters columns_ limit :
  returns (query_dataset self name filters columns_ limit).
Proof.
  unfold query_dataset. destruct (datasets self !! name) as [df|]; [|by eexists].
  set (df' := match truthy_list filters with Some fs => _ | None => df end).
  destruct (truthy_list columns_) as [cols|]; [|by eexists].
  destruct (filter (.∈ columns df') cols) as [|c available] eqn:Havail; [by eexists|].
  destruct (select_columns_returns df' (c :: available)) as [r ->]; [|by eexists].
  rewrite <- Havail. apply Forall_forall. intros x Hx.
  by apply list_elem_of_filter in Hx as [? _].
Qed.

End Projection.

(** C9. When the dataset is registered and none of the requested columns
    is one of its columns, [query_dataset] skips the projection: it answers
    what it answers with no column list at all, namely the filtered and
    limited rows under the whole schema of the dataset. *)
Theorem query_dataset_unknown_columns (self : DataFusion) (name : string)
    (df : DataFrame) filters (cols : list string) limit :
  datasets self !! name = Some df →
  cols ≠ [] →
  Forall (.∉ columns df) cols →
  query_dataset self name filters (Some cols) limit
  = query_dataset self name filters None limit
  ∧ query_dataset self name filters (Some cols) limit
    = Returned (limited (filtered df filters) limit)
  ∧ schema (limited (filtered df filters) limit) = schema df.
Proof.
  intros Hreg Hcols Hnone.
  assert (filter (.∈ columns df) cols = []) as Hskip.
  { apply filter_none. intros c Hc Hin.
    by apply (proj1 (Forall_forall _ _) Hnone c Hc). }
  rewrite !(query_dataset_registered self name df) by done.
  destruct cols as [|c cols]; [done|]. unfold truthy_list. rewrite Hskip.
  repeat split.
  unfold limited. destruct (truthy_int limit); [rewrite schema_head|];
    apply schema_filters.
Qed.

Lemma query_dataset_unknown_columns_witness :
  query_dataset Examples.fusion "rainfall" None (Some ["district"; "ph"]) (Some 1%Z)
  = query_dataset Examples.fusion "rainfall" None None (Some 1%Z)
  ∧ query_dataset Examples.fusion "rainfall" None (Some ["district"; "ph"]) (Some 1%Z)
    = Returned (limited (filtered Examples.rainfall None) (Some 1%Z))
  ∧ schema (limited (filtered Examples.rainfall None) (Some 1%Z))
    = schema Examples.rainfall.
Proof.
  apply (query_dataset_unknown_columns Examples.fusion "rainfall" Examples.rainfall
           None ["district"; "ph"] (Some 1%Z)).
  - vm_compute. reflexivity.
  - discriminate.
  - apply (bool_decide_unpack _). vm_compute. exact I.
Defined.

(** C10. A filter entry whose column the registered dataset does not have
    is ignored by [query_dataset]: the call returns, and it returns what the
    call with that entry deleted from the filter mapping returns. *)
Theorem query_dataset_ignores_unknown_filter (self : DataFusion) (name : string)
    (df : DataFrame) (fs : list (string * filter_value)) (col : string) cols limit :
  datasets self !! name = Some df →
  col ∉ columns df →
  returns (query_dataset self name (Some fs) cols limit)
  ∧ query_dataset self name (Some fs) cols limit
    = query_dataset self name (Some (dict_delete col fs)) cols limit.
Proof.
  intros Hreg Hno. split; [apply query_dataset_returns|].
  rewrite !(query_dataset_registered self name df) by done.
  unfold filtered. simpl. by rewrite filters_delete_unknown.
Qed.

Lemma query_dataset_ignores_unknown_filter_witness :
  returns (query_dataset Examples.fusion "rainfall"
             (Some [("ph", FScalar (Examples.num 7)); ("year", FList [Examples.num 2021])])
             None None)
  ∧ query_dataset Examples.fusion "rainfall"
      (Some [("ph", FScalar (Examples.num 7)); ("year", FList [Examples.num 2021])])
      None None
    = query_dataset Examples.fusion "rainfall"
        (Some (dict_delete "ph"
                 [("ph", FScalar (Examples.num 7)); ("year", FList [Examples.num 2021])]))
        None None.
Proof.
  apply (query_dataset_ignores_unknown_filter Examples.fusion "rainfall"
           Examples.rainfall).
  - vm_compute. reflexivity.
  - apply (bool_decide_unpack _). vm_compute. exact I.
Defined.

(** ** Joins, aggregation and correlation *)

Section Fusion.
Context `{Pandas}.
Implicit Types (self : DataFusion) (df : DataFrame).

Lemma find_common_columns_disjoint self left_name right_name left_df right_df :
  datasets self !! left_name = Some left_df →
  datasets self !! right_name = Some right_df →
  Forall (.∉ columns right_df) (columns left_df) →
  find_common_columns self left_name right_name = [].
Proof.
  intros Hl Hr Hdisj. unfold find_common_columns. rewrite Hl, Hr.
  apply elements_empty_iff, elem_of_equiv_empty. intros c Hc.
  apply elem_of_intersection in Hc as [Hcl Hcr].
  apply elem_of_list_to_set in Hcl, Hcr.
  by apply (proj1 (Forall_forall _ _) Hdisj c Hcl).
Qed.

Lemma merge_datasets_returns self left_name right_name on how :
  returns (merge_datasets self left_name right_name on how).
Proof.
  unfold merge_datasets.
  destruct (datasets self !! left_name) as [left_df|]; [|by eexists].
  destruct (datasets self !! right_name) as [right_df|]; [|by eexists].
  destruct on as [on|];
    [|destruct (find_common_columns self left_name right_name); [by eexists|]];
    apply try_except_returns; by eexists.
Qed.

Lemma aggregate_data_registered self name df group_by agg_funcs filters :
  datasets self !! name = Some df →
  aggregate_data self name group_by agg_funcs filters
  = if empty (filtered df filters) then Returned (filtered df filters) else
    try_except
      (match filter (.∈ columns df) group_by with
       | [] => mret pd_DataFrame
       | valid_group_cols => groupby_agg (filtered df filters) valid_group_cols agg_funcs
       end)
      (fun _ => mret pd_DataFrame).
Proof.
  intros Hreg. unfold aggregate_data.
  rewrite (query_dataset_all_columns self name df) by done. simpl.
  by replace (columns (filtered df filters)) with (columns df)
    by (symmetry; apply columns_filters).
Qed.

Lemma filter_valid_idemp (cols group_by : list string) :
  filter (.∈ cols) (filter (.∈ cols) group_by) = filter (.∈ cols) group_by.
Proof.
  induction group_by as [|c group_by IH]; [done|].
  destruct (decide (c ∈ cols)) as [Hin|Hno].
  - rewrite !filter_cons_True by done. by rewrite IH.
  - by rewrite !filter_cons_False by done.
Qed.

End Fusion.

(** C1, as the code has it.  Joining two registered datasets that share no
    column name, with no key list given, raises nothing: [merge_datasets]
    returns the empty DataFrame [pd.DataFrame()], whatever the join mode. *)
Theorem merge_datasets_no_common_columns `{Pandas} (self : DataFusion)
    (left_name right_name : string) (left_df right_df : DataFrame) (how : string) :
  datasets self !! left_name = Some left_df →
  datasets self !! right_name = Some right_df →
  Forall (.∉ columns right_df) (columns left_df) →
  merge_datasets self left_name right_name None how = Returned pd_DataFrame.
Proof.
  intros Hl Hr Hdisj. unfold merge_datasets.
  rewrite (find_common_columns_disjoint self _ _ _ _ Hl Hr Hdisj).
  by rewrite Hl, Hr.
Qed.

Lemma merge_datasets_no_common_columns_witness :
  merge_datasets (H := Reference.pandas) Examples.fusion "rainfall" "soil" None "outer"
  = Returned pd_DataFrame.
Proof.
  apply (merge_datasets_no_common_columns (H := Reference.pandas) Examples.fusion
           "rainfall" "soil" Examples.rainfall Examples.soil "outer").
  - vm_compute. reflexivity.
  - vm_compute. reflexivity.
  - apply (bool_decide_unpack _). vm_compute. exact I.
Defined.

(** C1 as stated fails: ["rainfall"] and ["soil"] are registered and share
    no column, and the join with no key list does not raise
    [NoJoinKeyError]: it does not raise at all. *)
Lemma merge_datasets_no_join_key_error_counterexample :
  datasets Examples.fusion !! "rainfall" = Some Examples.rainfall
  ∧ datasets Examples.fusion !! "soil" = Some Examples.soil
  ∧ Forall (.∉ columns Examples.soil) (columns Examples.rainfall)
  ∧ ¬ raises (merge_datasets (H := Reference.pandas) Examples.fusion
                "rainfall" "soil" None "inner").
Proof.
  split; [by vm_compute|]. split; [by vm_compute|].
  split; [apply (bool_decide_unpack _); by vm_compute|].
  apply returns_not_raises. by eexists.
Qed.

(** C2, as the code has it.  For a registered dataset, [aggregate_data]
    raises nothing.  When no group-by column is a column of the dataset it
    returns an empty DataFrame.  In every case it answers what it answers
    for the valid subset of the group-by columns alone; when that subset and
    the filtered dataset are not empty, this is the grouping of the filtered
    dataset by the valid subset ([pd.DataFrame()] should pandas raise). *)
Theorem aggregate_data_group_columns `{Pandas} (self : DataFusion) (name : string)
    (df : DataFrame) (group_by : list string) agg_funcs filters :
  datasets self !! name = Some df →
  let valid := filter (.∈ columns df) group_by in
  returns (aggregate_data self name group_by agg_funcs filters)
  ∧ (valid = [] →
     ∃ r, aggregate_data self name group_by agg_funcs filters = Returned r
          ∧ empty r = true)
  ∧ aggregate_data self name group_by agg_funcs filters
    = aggregate_data self name valid agg_funcs filters
  ∧ (valid ≠ [] → empty (filtered df filters) = false →
     aggregate_data self name group_by agg_funcs filters
     = try_except (groupby_agg (filtered df filters) valid agg_funcs)
         (fun _ => mret pd_DataFrame)).
Proof.
  intros Hreg valid. rewrite !(aggregate_data_registered self name df) by done.
  subst valid. rewrite filter_valid_idemp.
  set (valid := filter (.∈ columns df) group_by).
  destruct (empty (filtered df filters)) eqn:Hempty.
  - repeat split; [by eexists| by eexists |done].
  - repeat split.
    + apply try_except_returns. by eexists.
    + intros ->. by eexists.
    + intros Hvalid _. by destruct valid.
Qed.

Lemma aggregate_data_group_columns_witness :
  datasets Examples.fusion !! "rainfall" = Some Examples.rainfall
  ∧ aggregate_data (H := Reference.pandas) Examples.fusion "rainfall"
      ["district"; "state"] [("mm", "mean")] None
    = aggregate_data (H := Reference.pandas) Examples.fusion "rainfall"
        ["state"] [("mm", "mean")] None
  ∧ aggregate_data (H := Reference.pandas) Examples.fusion "rainfall"
      ["district"; "state"] [("mm", "mean")] None
    = Returned (mkDataFrame [("state", Dobject); ("mm", Dfloat64)]
                  [[VStr "A"; Examples.num 825]]).
Proof.
  assert (datasets Examples.fusion !! "rainfall" = Some Examples.rainfall) as Hreg
    by (vm_compute; reflexivity).
  split; [exact Hreg|].
  destruct (aggregate_data_group_columns (H := Reference.pandas) Examples.fusion
              "rainfall" Examples.rainfall ["district"; "state"] [("mm", "mean")]
              None Hreg) as (_ & _ & Hvalid & Hgroup).
  split; [exact Hvalid|].
  rewrite Hgroup; [vm_compute; reflexivity | discriminate | reflexivity].
Defined.

(** C2 as stated fails: no group-by column of the call below exists in
    ["rainfall"], and the call does not raise [InvalidGroupColumnsError]: it
    returns [pd.DataFrame()]. *)
Lemma aggregate_data_invalid_group_columns_counterexample :
  datasets Examples.fusion !! "rainfall" = Some Examples.rainfall
  ∧ Forall (.∉ columns Examples.rainfall) ["district"; "ph"]
  ∧ aggregate_data (H := Reference.pandas) Examples.fusion "rainfall"
      ["district"; "ph"] [("mm", "mean")] None = Returned pd_DataFrame
  ∧ ¬ raises (aggregate_data (H := Reference.pandas) Examples.fusion "rainfall"
                ["district"; "ph"] [("mm", "mean")] None).
Proof.
  split; [by vm_compute|].
  split; [apply (bool_decide_unpack _); by vm_compute|].
  split; [by vm_compute|].
  apply returns_not_raises. by eexists.
Qed.

(** C7, as the code has it.  When the join leaves fewer than two rows with
    a value in both value columns, [calculate_correlation] does not fail and
    returns the coefficient 0.0; the dataset returned with it is the joined
    dataset itself, and [pd.DataFrame()] only when the join is empty. *)
Theorem calculate_correlation_sentinel `{Pandas} (self : DataFusion)
    (dataset1_name dataset2_name value_col1 value_col2 : string)
    (merge_on : list string) (merged : DataFrame) :
  merge_datasets self dataset1_name dataset2_name (Some merge_on) "inner"
  = Returned merged →
  paired_observations merged (resolved merged value_col1 "_left")
    (resolved merged value_col2 "_right") < 2 →
  calculate_correlation self dataset1_name dataset2_name value_col1 value_col2 merge_on
  = Returned (Fin 0, if empty merged then pd_DataFrame else merged).
Proof.
  intros Hmerge Hfew. unfold calculate_correlation. rewrite Hmerge. simpl.
  destruct (empty merged); [done|].
  unfold paired_observations, resolved in Hfew.
  destruct (select_columns merged _) as [e|selected]; simpl; [done|].
  by rewrite bool_decide_eq_true_2.
Qed.

Lemma calculate_correlation_sentinel_witness :
  merge_datasets (H := Reference.pandas) Examples.fusion "rainfall" "crops"
    (Some ["state"; "year"]) "inner" = Returned Examples.rainfall_crops
  ∧ paired_observations Examples.rainfall_crops "mm" "yield" < 2
  ∧ calculate_correlation (H := Reference.pandas) Examples.fusion
      "rainfall" "crops" "mm" "yield" ["state"; "year"]
    = Returned (Fin 0, Examples.rainfall_crops).
Proof.
  split; [vm_compute; reflexivity|]. split; [vm_compute; lia|].
  apply (calculate_correlation_sentinel (H := Reference.pandas) Examples.fusion
           "rainfall" "crops" "mm" "yield" ["state"; "year"] Examples.rainfall_crops).
  - vm_compute. reflexivity.
  - vm_compute. lia.
Defined.

(** C7 as stated fails: the join of ["rainfall"] and ["crops"] on state and
    year has one paired observation, and the dataset returned with the
    coefficient 0.0 is not empty: it is the joined row. *)
Lemma calculate_correlation_empty_detail_counterexample :
  merge_datasets (H := Reference.pandas) Examples.fusion "rainfall" "crops"
    (Some ["state"; "year"]) "inner" = Returned Examples.rainfall_crops
  ∧ paired_observations Examples.rainfall_crops "mm" "yield" = 1
  ∧ calculate_correlation (H := Reference.pandas) Examples.fusion
      "rainfall" "crops" "mm" "yield" ["state"; "year"]
    = Returned (Fin 0, Examples.rainfall_crops)
  ∧ empty Examples.rainfall_crops = false
  ∧ Examples.rainfall_crops ≠ pd_DataFrame.
Proof. repeat split; try (vm_compute; reflexivity). discriminate. Qed.

(** ** Retrieval *)

Section Hits.
Implicit Types (hits : list Hit) (t : Q).

Lemma filter_sublist {A} (p : A → bool) (l : list A) : List.filter p l `sublist_of` l.
Proof.
  induction l as [|x l IH]; simpl; [done|].
  destruct (p x); [by apply sublist_skip | by apply sublist_cons].
Qed.

Lemma filter_sublist_mono {A} (p q : A → bool) (l : list A) :
  (∀ x, p x = true → q x = true) →
  List.filter p l `sublist_of` List.filter q l.
Proof.
  intros Hpq. induction l as [|x l IH]; simpl; [done|].
  destruct (p x) eqn:Hp.
  - rewrite (Hpq x Hp). by apply sublist_skip.
  - destruct (q x); [by apply sublist_cons | done].
Qed.

Lemma surviving_similarity t hits h :
  h ∈ surviving t hits → (t <= similarity h)%Q.
Proof.
  unfold surviving. rewrite list_elem_of_In, List.filter_In.
  intros [_ Hle]. by apply Qle_bool_iff.
Qed.

Lemma surviving_mono t t' hits :
  (t' <= t)%Q → surviving t hits `sublist_of` surviving t' hits.
Proof.
  intros Hle. apply filter_sublist_mono. intros h Hh.
  apply Qle_bool_iff. apply Qle_bool_iff in Hh. by eapply Qle_trans.
Qed.

Lemma extend_nil f : extend f (pack []) = f.
Proof. destruct f. unfold extend. simpl. by rewrite !app_nil_r. Qed.

Lemma extend_cons f h hits :
  extend f (pack (h :: hits))
  = extend (mkFilteredResults (documents f ++ [hit_document h])
              (metadatas f ++ [hit_metadata h]) (distances f ++ [hit_distance h])
              (ids f ++ [hit_id h])) (pack hits).
Proof. unfold extend. simpl. by rewrite <- !app_assoc. Qed.

Lemma zip_hits_nil idents docs metas : zip_hits idents docs metas [] = [].
Proof. by destruct idents, docs, metas. Qed.

End Hits.

Section Retrieval.
Context `{Backend}.
Implicit Types (self : RAGPipeline) (r : QueryResult) (t : Q).

Lemma extend_no_results f : extend no_results f = f.
Proof. by destruct f. Qed.

Lemma filter_loop_ranked t ri rd rm rds idents docs metas ds_all :
  let r := mkQueryResult (idents :: ri) (docs :: rd) (metas :: rm) (ds_all :: rds) in
  length ds_all ≤ length idents →
  length ds_all ≤ length docs →
  length ds_all ≤ length metas →
  ∀ ds i acc,
    drop i ds_all = ds →
    filter_loop t r i ds acc
    = Returned
        (extend acc
           (pack (surviving t
                    (zip_hits (drop i idents) (drop i docs) (drop i metas) ds)))).
Proof.
  intros r Hi Hd Hm ds. induction ds as [|d ds IH]; intros i acc Hdrop.
  - simpl. by rewrite zip_hits_nil, extend_nil.
  - assert (i < length ds_all) as Hlt.
    { destruct (decide (i < length ds_all)) as [|Hge]; [done|].
      rewrite drop_ge in Hdrop by lia. discriminate. }
    destruct (lookup_lt_is_Some_2 ds_all i Hlt) as [d' Hd'].
    rewrite (drop_S _ _ _ Hd') in Hdrop. injection Hdrop as -> Hrest.
    destruct (lookup_lt_is_Some_2 idents i ltac:(lia)) as [ident Hident].
    destruct (lookup_lt_is_Some_2 docs i ltac:(lia)) as [doc Hdoc].
    destruct (lookup_lt_is_Some_2 metas i ltac:(lia)) as [meta Hmeta].
    rewrite (drop_S _ _ _ Hident), (drop_S _ _ _ Hdoc), (drop_S _ _ _ Hmeta).
    cbn [filter_loop zip_hits]. unfold surviving. cbn [List.filter].
    change (similarity (mkHit ident doc meta d)) with (1 - d)%Q.
    destruct (Qle_bool t (1 - d)).
    + cbn [r qr_documents qr_metadatas qr_ids].
      repeat (first [ rewrite py_index_head
                    | rewrite (py_index_lookup _ _ _ Hident)
                    | rewrite (py_index_lookup _ _ _ Hdoc)
                    | rewrite (py_index_lookup _ _ _ Hmeta) ];
              cbn [mbind exc_bind]).
      fold r. rewrite (IH (S i) _ Hrest). by rewrite extend_cons.
    + by rewrite (IH (S i) _ Hrest).
Qed.

(** The part of [query] inside [try], once the collection is at hand. *)
Lemma filtering_eq t (collection : Collection) text (k : Z) w :
  (∀ r, index_query collection text k w = Returned r → well_formed r = true) →
  try_except
    (results ← index_query collection text k w;
     ds ← py_index (qr_distances results) 0;
     filter_loop t results 0 ds no_results)
    (fun _ => mret no_results)
  = Returned (pack (surviving t
                      match index_query collection text k w with
                      | Returned r => ranked r
                      | Raised _ => []
                      end)).
Proof.
  intros Hwf. destruct (index_query collection text k w) as [e|r]; [done|].
  specialize (Hwf r eq_refl). destruct r as [ri rd rm rds].
  unfold well_formed, ranked in *. cbn [qr_ids qr_documents qr_metadatas qr_distances] in *.
  cbn [mbind exc_bind qr_distances].
  destruct rds as [|ds_all rds]; [by destruct ri, rd, rm|].
  rewrite py_index_head. cbn [mbind exc_bind].
  destruct ri as [|idents ri]; [by apply bool_decide_eq_true in Hwf as ->|].
  destruct rd as [|docs rd]; [by apply bool_decide_eq_true in Hwf as ->|].
  destruct rm as [|metas rm]; [by apply bool_decide_eq_true in Hwf as ->|].
  apply andb_true_iff in Hwf as [Hwf Hm]. apply andb_true_iff in Hwf as [Hi Hd].
  apply bool_decide_eq_true in Hi, Hd, Hm.
  rewrite (filter_loop_ranked t ri rd rm rds idents docs metas ds_all Hi Hd Hm
             ds_all 0 no_results eq_refl).
  by rewrite extend_no_results.
Qed.

Lemma query_eq self text name n w :
  (∀ c k r, index_query c text k w = Returned r → well_formed r = true) →
  query self text name n w
  = Returned
      (pack (surviving (similarity_threshold self)
               (index_ranking (top_k self) (collections self) text name n w)),
       after_query self name).
Proof.
  intros Hwf. destruct self as [k t cs].
  unfold query, index_ranking, after_query, searched, create_collection.
  cbn [top_k similarity_threshold collections].
  destruct (cs !! name) as [c|].
  - cbn [mret exc_ret mbind exc_bind].
    by rewrite filtering_eq by (intros r; apply Hwf).
  - cbn [mret exc_ret mbind exc_bind try_except].
    destruct (get_or_create_collection name) as [e|c]; [done|].
    cbn [mret exc_ret mbind exc_bind try_except top_k similarity_threshold].
    by rewrite filtering_eq by (intros r; apply Hwf).
Qed.

End Retrieval.

Section Confidence.
Context `{Backend}.
Implicit Types (self : RAGPipeline) (f : FilteredResults).

Lemma filter_loop_aligned t r i ds acc f :
  aligned t acc → filter_loop t r i ds acc = Returned f → aligned t f.
Proof.
  revert i acc. induction ds as [|d ds IH]; intros i acc Hacc Hloop.
  - by injection Hloop as <-.
  - cbn [filter_loop] in Hloop.
    destruct (Qle_bool t (1 - d)) eqn:Hle; [|by eapply IH].
    destruct (py_index (qr_documents r) 0) as [|docs]; [done|].
    cbn [mbind exc_bind] in Hloop.
    destruct (py_index docs i) as [|doc]; [done|].
    cbn [mbind exc_bind] in Hloop.
    destruct (py_index (qr_metadatas r) 0) as [|metas]; [done|].
    cbn [mbind exc_bind] in Hloop.
    destruct (py_index metas i) as [|meta]; [done|].
    cbn [mbind exc_bind] in Hloop.
    destruct (py_index (qr_ids r) 0) as [|idents]; [done|].
    cbn [mbind exc_bind] in Hloop.
    destruct (py_index idents i) as [|ident]; [done|].
    cbn [mbind exc_bind] in Hloop.
    eapply IH; [|exact Hloop]. destruct Hacc as [Hlen Hall]. split; simpl.
    + rewrite !length_app, Hlen. done.
    + apply Forall_app. split; [done|]. apply Forall_singleton.
      by apply Qle_bool_iff.
Qed.

Lemma query_aligned self text name n w :
  ∃ f self', query self text name n w = Returned (f, self')
             ∧ aligned (similarity_threshold self) f.
Proof.
  assert (∀ t, aligned t no_results) as Hnone by (by split; [|constructor]).
  assert (∀ t (m : exc FilteredResults),
            (∀ f, m = Returned f → aligned t f) →
            ∃ f, try_except m (fun _ => mret no_results) = Returned f ∧ aligned t f)
    as Htry.
  { intros t [e|f] Hm; [by exists no_results | exists f; auto]. }
  unfold query.
  destruct (match collections self !! name with
            | Some collection => mret (collection, self)
            | None => create_collection self name false
            end) as [e|[c self']] eqn:Hcreated; [by eexists _, _|].
  assert (similarity_threshold self' = similarity_threshold self) as Ht.
  { destruct (collections self !! name); [by injection Hcreated as _ <-|].
    unfold create_collection in Hcreated. cbn [mbind exc_bind mret exc_ret] in Hcreated.
    destruct (get_or_create_collection name); [done|].
    by injection Hcreated as _ <-. }
  edestruct (Htry (similarity_threshold self)) as (f & -> & Hf); [|by eexists _, _].
  intros f Hf. rewrite <- Ht.
  destruct (index_query c text _ w) as [|r]; [done|].
  cbn [mbind exc_bind] in Hf.
  destruct (py_index (qr_distances r) 0) as [|ds]; [done|].
  by eapply filter_loop_aligned.
Qed.

Lemma generate_response_returns query_text context_ max_tokens temperature reasoning :
  returns (generate_response query_text context_ max_tokens temperature reasoning).
Proof. apply try_except_returns. by eexists. Qed.

End Confidence.

(** C3. Under the threshold [t], [query] returns and every distance [d] it
    returns has similarity [1 - d >= t].  When the index answers with
    parallel lists that cover every distance, the result is the index's
    ranking restricted to the hits of similarity at least [t], in the
    index's order, and under a lower threshold [t'] every hit returned
    under [t] is still returned, in the same relative order. *)
Theorem query_threshold_filter `{Backend} (k : Z) (cs : gmap string Collection)
    (query_text collection_name : string) (n_results : option Z)
    (filter_dict : option metadata_dict) (t t' : Q) :
  (t' <= t)%Q →
  let hits := index_ranking k cs query_text collection_name n_results filter_dict in
  let run t := query (mkRAGPipeline k t cs) query_text collection_name n_results
                 filter_dict in
  (∃ f self', run t = Returned (f, self')
              ∧ Forall (fun d => (t <= 1 - d)%Q) (distances f))
  ∧ ((∀ c j r, index_query c query_text j filter_dict = Returned r
               → well_formed r = true) →
     (∃ self', run t = Returned (pack (surviving t hits), self'))
     ∧ (∃ self', run t' = Returned (pack (surviving t' hits), self'))
     ∧ surviving t hits `sublist_of` hits
     ∧ surviving t hits `sublist_of` surviving t' hits).
Proof.
  intros Hle hits run. subst run. cbn beta. split.
  - destruct (query_aligned (mkRAGPipeline k t cs) query_text collection_name
                n_results filter_dict) as (f & self' & Hrun & _ & Hall).
    by exists f, self'.
  - intros Hwf. rewrite !query_eq by done.
    cbn [top_k collections similarity_threshold]. fold hits.
    split; [by eexists|]. split; [by eexists|]. split.
    + apply filter_sublist.
    + by apply surviving_mono.
Qed.

Lemma query_threshold_filter_witness :
  let B := Stub.backend (Returned Examples.answer3) (Returned "ok") in
  well_formed Examples.answer3 = true
  ∧ (3 # 10 <= 7 # 10)%Q
  ∧ fst <$> query (H := B) (Examples.pipeline (7 # 10)) "rice" "gov_datasets" None None
    = Returned (mkFilteredResults ["rice in A"; "wheat in B"]
                  [[("dataset", "crops")]; [("dataset", "crops")]]
                  [1 # 10; 2 # 10]%Q ["doc_0"; "doc_1"])
  ∧ fst <$> query (H := B) (Examples.pipeline (3 # 10)) "rice" "gov_datasets" None None
    = Returned (mkFilteredResults ["rice in A"; "wheat in B"; "rain in C"]
                  [[("dataset", "crops")]; [("dataset", "crops")]; []]
                  [1 # 10; 2 # 10; 6 # 10]%Q ["doc_0"; "doc_1"; "doc_2"])
  ∧ surviving (7 # 10) (ranked Examples.answer3)
    `sublist_of` surviving (3 # 10) (ranked Examples.answer3).
Proof.
  intros B.
  assert (3 # 10 <= 7 # 10)%Q as Hle by (vm_compute; discriminate).
  assert (∀ c j r, index_query (H := B) c "rice" j None = Returned r
                   → well_formed r = true) as Hwf.
  { intros c j r Hr. vm_compute in Hr. injection Hr as <-. vm_compute. reflexivity. }
  destruct (query_threshold_filter (H := B) 5 ∅ "rice" "gov_datasets" None None
              (7 # 10) (3 # 10) Hle) as [_ Hranked].
  destruct (Hranked Hwf) as (_ & _ & _ & Hmono).
  split; [vm_compute; reflexivity|]. split; [exact Hle|].
  split; [vm_compute; reflexivity|]. split; [vm_compute; reflexivity|].
  exact Hmono.
Defined.

(** C5. [rag_query] does not fail, and the confidence it returns is 0.0
    when the set that [query] retrieved (after the threshold filter) is
    empty, and 1 - mean(distances) over the distances of that set
    otherwise. *)
Theorem rag_query_confidence `{Backend} (self : RAGPipeline)
    (query_text collection_name : string) (include_reasoning : bool)
    (n_results : option Z) :
  ∃ retrieved self' result,
    query self query_text collection_name n_results None = Returned (retrieved, self')
    ∧ rag_query self query_text collection_name include_reasoning n_results
      = Returned (result, self')
    ∧ confidence result
      = match distances retrieved with
        | [] => 0%Q
        | _ :: _ => (1 - mean (distances retrieved))%Q
        end.
Proof.
  destruct (query_aligned self query_text collection_name n_results None)
    as (f & self' & Hq & Hlen & _).
  exists f, self'. unfold rag_query. rewrite Hq. cbn [mbind exc_bind].
  destruct (documents f) as [|doc docs] eqn:Hdocs.
  - destruct (distances f); [|done]. by eexists.
  - destruct (generate_response_returns query_text
                (String.concat nl (context_parts 1 (doc :: docs) (metadatas f)))
                1024 (7 # 10) include_reasoning) as [a ->].
    cbn [mbind exc_bind mret exc_ret]. eexists. split; [done|]. split; [done|].
    cbn [confidence]. by destruct (distances f).
Qed.

(** ** Trimming the generated text *)

Section Strip.
Implicit Types (s c : string) (cs : list string).

Lemma app_assoc_string s1 s2 s3 : (s1 +:+ s2) +:+ s3 = s1 +:+ (s2 +:+ s3).
Proof.
  induction s1 as [|a s1 IH]; [done|].
  change ((String a s1 +:+ s2) +:+ s3) with (String a ((s1 +:+ s2) +:+ s3)).
  by rewrite IH.
Qed.

Lemma join_app cs1 cs2 : join (cs1 ++ cs2) = join cs1 +:+ join cs2.
Proof.
  induction cs1 as [|c cs1 IH]; [done|]. cbn [app join foldr]. fold (join (cs1 ++ cs2)).
  fold (join cs1). by rewrite IH, app_assoc_string.
Qed.

(** A string that is empty or begins a character. *)
Definition begins_char s : bool := negb (continues s).

(** The first character of a string begins with the string's first byte. *)
Lemma chars_head a s : ∃ c cs, chars (String a s) = String a c :: cs.
Proof.
  cbn [chars]. destruct (chars s) as [|c cs]; [by eexists _, _|].
  destruct (continues s); by eexists _, _.
Qed.



Lemma join_chars s : join (chars s) = s.
Proof.
  induction s as [|a s IH]; [done|]. cbn [chars].
  destruct (chars s) as [|c cs]; [by rewrite <- IH|].
  destruct (continues s); cbn [join foldr] in IH |- *; by rewrite <- IH.
Qed.

Lemma chars_app s1 s2 :
  begins_char s2 = true → chars (s1 +:+ s2) = chars s1 ++ chars s2.
Proof.
  intros Hs2%negb_true_iff. induction s1 as [|a s1 IH]; [done|].
  change (String a s1 +:+ s2) with (String a (s1 +:+ s2)). cbn [chars]. rewrite IH.
  destruct s1 as [|b s1].
  - change ("" +:+ s2) with s2. rewrite Hs2. by destruct (chars s2).
  - change (String b s1 +:+ s2) with (String b (s1 +:+ s2)).
    destruct (chars_head b s1) as (c & cs & ->). cbn [continues app].
    by destruct (is_continuation b).
Qed.

(** The characters of a string are characters, and each but the first
    begins one. *)
Lemma chars_wf s :
  Forall (fun c => chars c = [c]) (chars s)
  ∧ Forall (fun c => c ≠ "" ∧ begins_char c = true) (tail (chars s)).
Proof.
  induction s as [|a s [IH1 IH2]]; [by split|]. cbn [chars].
  destruct s as [|b s]; [by split; repeat constructor|].
  destruct (chars_head b s) as (c & cs & Hc). rewrite Hc in IH1, IH2 |- *.
  apply Forall_cons in IH1 as [Hone IH1]. cbn [tail] in IH2.
  cbn [continues]. destruct (is_continuation b) eqn:Hb; cbn [tail].
  - split; [|done]. constructor; [|done].
    change (chars (String a (String b c)))
      with (match chars (String b c) with
            | c' :: cs' =>
                if continues (String b c) then String a c' :: cs'
                else String a "" :: c' :: cs'
            | [] => [String a ""]
            end).
    rewrite Hone. cbn [continues]. by rewrite Hb.
  - split; [by repeat constructor|]. constructor; [|done].
    split; [done|]. unfold begins_char. cbn [continues]. by rewrite Hb.
Qed.

Lemma chars_join cs :
  Forall (fun c => chars c = [c]) cs →
  Forall (fun c => c ≠ "" ∧ begins_char c = true) (tail cs) →
  chars (join cs) = cs.
Proof.
  induction cs as [|c cs IH]; [done|]. intros [Hc Hcs]%Forall_cons Htail.
  cbn [tail] in Htail. cbn [join foldr]. fold (join cs). rewrite chars_app.
  - rewrite Hc, IH; [done|done|]. destruct Htail as [|c' cs _ Htail]; [constructor|done].
  - destruct Htail as [|c' cs [Hne Hbegin] _]; [done|]. cbn [join foldr].
    by destruct c' as [|a c'].
Qed.

Lemma Forall_tail_app {A} (P : A → Prop) (l1 l2 : list A) :
  Forall P (tail (l1 ++ l2)) → Forall P (tail l1) ∧ Forall P (tail l2).
Proof.
  destruct l1 as [|x l1]; cbn [app tail]; [by split; [constructor|]|].
  intros [H1 H2]%Forall_app. split; [done|]. destruct l2; [constructor|].
  by apply Forall_cons in H2 as [_ ?].
Qed.

(** A run of the characters of a string is the characters of its join. *)
Lemma chars_join_infix s cs1 cs cs2 :
  chars s = cs1 ++ cs ++ cs2 → chars (join cs) = cs.
Proof.
  intros Hs. destruct (chars_wf s) as [Hone Hbegin]. rewrite Hs in Hone, Hbegin.
  apply Forall_app in Hone as [_ [Hone _]%Forall_app].
  apply Forall_tail_app in Hbegin as [_ Hbegin].
  apply Forall_tail_app in Hbegin as [Hbegin _]. by apply chars_join.
Qed.

Lemma lstrip_split cs :
  ∃ pre, cs = pre ++ lstrip cs ∧ forallb is_whitespace pre = true.
Proof.
  induction cs as [|c cs (pre & Hcs & Hpre)]; [by exists []|].
  cbn [lstrip]. destruct (is_whitespace c) eqn:Hc; [|by exists []].
  exists (c :: pre). split; [by rewrite <- app_comm_cons, <- Hcs|].
  cbn [forallb]. by rewrite Hc.
Qed.

Lemma lstrip_start cs c : hd_error (lstrip cs) = Some c → is_whitespace c = false.
Proof.
  induction cs as [|c' cs IH]; [done|]. cbn [lstrip].
  destruct (is_whitespace c') eqn:Hc'; [done|]. by intros [= <-].
Qed.

Lemma lstrip_id cs :
  match hd_error cs with Some c => is_whitespace c | None => false end = false →
  lstrip cs = cs.
Proof. destruct cs as [|c cs]; [done|]. cbn [hd_error lstrip]. by intros ->. Qed.

Lemma forallb_reverse {A} (p : A → bool) (l : list A) :
  forallb p (reverse l) = forallb p l.
Proof.
  induction l as [|x l IH]; [done|].
  rewrite reverse_cons, forallb_app, IH. cbn [forallb].
  by rewrite andb_true_r, andb_comm.
Qed.

Lemma strip_spec s :
  ∃ pre post,
    s = pre +:+ strip s +:+ post
    ∧ all_whitespace pre = true ∧ all_whitespace post = true
    ∧ starts_with_whitespace (strip s) = false
    ∧ ends_with_whitespace (strip s) = false.
Proof.
  destruct (lstrip_split (chars s)) as (P & Hs & HP).
  destruct (lstrip_split (reverse (lstrip (chars s)))) as (T & Hm & HT).
  unfold strip, all_whitespace, starts_with_whitespace, ends_with_whitespace.
  set (U := lstrip (reverse (lstrip (chars s)))) in *.
  assert (lstrip (chars s) = reverse U ++ reverse T) as Hmid.
  { by rewrite <- reverse_app, <- Hm, reverse_involutive. }
  rewrite Hmid in Hs.
  exists (join P), (join (reverse T)).
  rewrite (chars_join_infix s [] P (reverse U ++ reverse T)) by done.
  rewrite (chars_join_infix s P (reverse U) (reverse T)) by done.
  rewrite (chars_join_infix s (P ++ reverse U) (reverse T) [])
    by (by rewrite app_nil_r, <- app_assoc).
  split; [by rewrite <- !join_app, <- Hs, join_chars|]. split; [done|].
  split; [by rewrite forallb_reverse|]. split.
  - destruct (reverse U) as [|c cs] eqn:HU; [done|].
    apply (lstrip_start (chars s)). by rewrite Hmid.
  - rewrite last_reverse. destruct (hd_error U) as [c|] eqn:Hc; [|done].
    by apply (lstrip_start (reverse (lstrip (chars s)))).
Qed.

(** A string without white space at its ends is left as it is. *)
Lemma strip_id s :
  starts_with_whitespace s = false → ends_with_whitespace s = false → strip s = s.
Proof.
  unfold starts_with_whitespace, ends_with_whitespace, strip. intros Hstart Hend.
  rewrite (lstrip_id (chars s)) by (by destruct (chars s)).
  rewrite lstrip_id by (by rewrite head_reverse).
  by rewrite reverse_involutive, join_chars.
Qed.

End Strip.

Section ErrorText.
Implicit Types (s c : string).

Lemma whitespace_not_E :
  forallb (fun w => match w with
                    | String a _ => negb (Ascii.nat_of_ascii a =? 69)
                    | EmptyString => true
                    end) whitespace = true.
Proof. vm_compute. reflexivity. Qed.

(** The text of a failure begins with the letter E. *)
Lemma error_text_start s :
  starts_with_whitespace ("Error generating response: " +:+ s) = false.
Proof.
  change ("Error generating response: " +:+ s)
    with (String (Ascii.ascii_of_nat 69) ("rror generating response: " +:+ s)).
  unfold starts_with_whitespace.
  destruct (chars_head (Ascii.ascii_of_nat 69) ("rror generating response: " +:+ s))
    as (c & cs & ->).
  unfold is_whitespace. apply bool_decide_eq_false. intros Hin.
  pose proof whitespace_not_E as Hall. rewrite forallb_forall in Hall.
  apply list_elem_of_In, Hall in Hin. discriminate Hin.
Qed.

End ErrorText.

(** C6, as the code has it.  When the language-model service raises,
    [generate_response] returns, as its ordinary string result, the text
    "Error generating response: " followed by the message of the error.
    Unless this text ends in white space, a service that answers with this
    very text gives the same result; when it does end in white space (as
    for an empty message), no answer of a service gives it. *)
Theorem generate_response_error_text `{Backend} (query_text context_ : string)
    (max_tokens : Z) (temperature : Q) (include_reasoning : bool) (e : exn) :
  text_generation (prompt_of include_reasoning query_text context_) max_tokens temperature
  = Raised e →
  let text := "Error generating response: " +:+ exn_message e in
  generate_response query_text context_ max_tokens temperature include_reasoning
  = Returned text
  ∧ (ends_with_whitespace text = false →
     ∀ answering : Backend,
       @text_generation answering (prompt_of include_reasoning query_text context_)
         max_tokens temperature = Returned text →
       generate_response (H := answering) query_text context_ max_tokens temperature
         include_reasoning = Returned text)
  ∧ (ends_with_whitespace text = true →
     ∀ (answering : Backend) (response : string),
       @text_generation answering (prompt_of include_reasoning query_text context_)
         max_tokens temperature = Returned response →
       generate_response (H := answering) query_text context_ max_tokens temperature
         include_reasoning ≠ Returned text).
Proof.
  intros Hfail text. split; [|split].
  - unfold generate_response.
    fold (prompt_of include_reasoning query_text context_). by rewrite Hfail.
  - intros Hend answering Hanswer. unfold generate_response.
    fold (prompt_of include_reasoning query_text context_). rewrite Hanswer.
    cbn [mbind exc_bind mret exc_ret try_except]. f_equal.
    apply strip_id; [apply error_text_start | done].
  - intros Hend answering response Hanswer. unfold generate_response.
    fold (prompt_of include_reasoning query_text context_). rewrite Hanswer.
    cbn [mbind exc_bind mret exc_ret try_except]. intros [= Hstrip].
    destruct (strip_spec response) as (_ & _ & _ & _ & _ & _ & Hno).
    rewrite Hstrip in Hno. congruence.
Qed.

Lemma generate_response_error_text_witness :
  generate_response
    (H := Stub.backend (Returned Examples.answer3)
            (raise "HfHubHTTPError" "503 Service Unavailable"))
    "Which state grows rice?" "" 1024 (7 # 10) true
  = Returned "Error generating response: 503 Service Unavailable"
  ∧ generate_response
      (H := Stub.backend (Returned Examples.answer3)
              (Returned "Error generating response: 503 Service Unavailable"))
      "Which state grows rice?" "" 1024 (7 # 10) true
    = Returned "Error generating response: 503 Service Unavailable".
Proof.
  destruct (generate_response_error_text
              (H := Stub.backend (Returned Examples.answer3)
                      (raise "HfHubHTTPError" "503 Service Unavailable"))
              "Which state grows rice?" "" 1024 (7 # 10) true
              (Exception "HfHubHTTPError" "503 Service Unavailable"))
    as (Hfail & Hsame & _); [vm_compute; reflexivity|].
  split; [exact Hfail|]. apply Hsame; vm_compute; reflexivity.
Defined.

(** A failure without a message ends in a blank, which no answer of a
    service does. *)
Lemma empty_message_is_told_apart :
  generate_response
    (H := Stub.backend (Returned Examples.answer3) (raise "TimeoutError" ""))
    "Which state grows rice?" "" 1024 (7 # 10) true
  = Returned "Error generating response: "
  ∧ generate_response
      (H := Stub.backend (Returned Examples.answer3)
              (Returned "Error generating response: "))
      "Which state grows rice?" "" 1024 (7 # 10) true
    = Returned "Error generating response:".
Proof. vm_compute. split; reflexivity. Qed.

(** A failing service and a service that answers with the very text of the
    failure give the same result. *)
Lemma failure_reads_as_answer :
  generate_response
    (H := Stub.backend (Returned Examples.answer3)
            (raise "HfHubHTTPError" "503 Service Unavailable"))
    "Which state grows rice?" "" 1024 (7 # 10) true
  = generate_response
      (H := Stub.backend (Returned Examples.answer3)
              (Returned "Error generating response: 503 Service Unavailable"))
      "Which state grows rice?" "" 1024 (7 # 10) true.
Proof. vm_compute. reflexivity. Qed.

(** C6 as stated fails: no test on the result of [generate_response] tells
    every failure of the service from every answer of the service. *)
Lemma generate_response_tagged_failure_counterexample :
  ¬ ∃ is_failure : exc string → bool,
      ∀ (B : Backend) query_text context_ max_tokens temperature include_reasoning,
        let m := text_generation (prompt_of include_reasoning query_text context_)
                   max_tokens temperature in
        let result := generate_response query_text context_ max_tokens temperature
                        include_reasoning in
        (raises m → is_failure result = true)
        ∧ (returns m → is_failure result = false).
Proof.
  intros [is_failure Htag].
  destruct (Htag (Stub.backend (Returned Examples.answer3)
                    (raise "HfHubHTTPError" "503 Service Unavailable"))
              "Which state grows rice?" "" 1024%Z (7 # 10)%Q true) as [Hfail _].
  destruct (Htag (Stub.backend (Returned Examples.answer3)
                    (Returned "Error generating response: 503 Service Unavailable"))
              "Which state grows rice?" "" 1024%Z (7 # 10)%Q true) as [_ Hok].
  cbn zeta in Hfail, Hok.
  specialize (Hfail ltac:(by eexists)). specialize (Hok ltac:(by eexists)).
  rewrite failure_reads_as_answer in Hfail. congruence.
Qed.

(** ** Time series *)

Section Chronology.
Context `{Pandas}.
Implicit Types (i : nat) (r : list cell) (rs : list (list cell)).

Lemma time_le_total a b : time_le a b = false → time_le b a = true.
Proof. destruct a as [x|], b as [y|]; simpl; try done. intros. lia. Qed.

Lemma insert_sorted_HdRel i r s rs :
  time_le (time_key (row_get i s)) (time_key (row_get i r)) = true →
  HdRel (fun a b => time_le (time_key (row_get i a)) (time_key (row_get i b)) = true)
    s rs →
  HdRel (fun a b => time_le (time_key (row_get i a)) (time_key (row_get i b)) = true)
    s (insert_sorted i r rs).
Proof.
  intros Hsr Hs. destruct Hs as [|s' rs Hss']; simpl; [by constructor|].
  destruct (sorts_before i r s'); by constructor.
Qed.

Lemma sorts_before_le i r s :
  sorts_before i r s = true →
  time_le (time_key (row_get i r)) (time_key (row_get i s)) = true.
Proof. unfold sorts_before. by intros [? _]%andb_prop. Qed.

Lemma sorts_after_le i r s :
  sorts_before i r s = false →
  time_le (time_key (row_get i s)) (time_key (row_get i r)) = true.
Proof.
  unfold sorts_before. intros [Hle|Htie]%andb_false_iff; [by apply time_le_total|].
  apply orb_false_iff in Htie as [Hge _]. by apply negb_false_iff in Hge.
Qed.

Lemma insert_sorted_ascending i r rs :
  time_ascending i rs → time_ascending i (insert_sorted i r rs).
Proof.
  unfold time_ascending. induction 1 as [|s rs Hrs IH Hs]; simpl.
  - by repeat constructor.
  - destruct (sorts_before i r s) eqn:Hle.
    + constructor; [by constructor|]. constructor. by apply sorts_before_le.
    + constructor; [done|]. apply insert_sorted_HdRel; [|done].
      by apply sorts_after_le.
Qed.

Lemma insert_sorted_Permutation i r rs : insert_sorted i r rs ≡ₚ r :: rs.
Proof.
  induction rs as [|s rs IH]; simpl; [done|].
  destruct (sorts_before i r s); [done|]. rewrite IH. apply Permutation_swap.
Qed.

Lemma sort_values_sorted df col sorted :
  sort_values df col = Returned sorted →
  schema sorted = schema df
  ∧ rows sorted ≡ₚ rows df
  ∧ ∃ i, index_of col (columns sorted) = Some i ∧ time_ascending i (rows sorted).
Proof.
  unfold sort_values. destruct (index_of col (columns df)) as [i|] eqn:Hi; [|done].
  intros [= <-]. split; [done|]. split; [|exists i; split; [done|]]; simpl.
  - induction (rows df) as [|r rs IH]; simpl; [done|].
    by rewrite insert_sorted_Permutation, IH.
  - induction (rows df) as [|r rs IH]; simpl; [constructor|].
    by apply insert_sorted_ascending.
Qed.

End Chronology.

Section Trend.
Context `{Pandas}.
Implicit Types (values : list cell) (st : Statistics).

Lemma get_column_index df col i :
  index_of col (columns df) = Some i → get_column df col = Returned (row_get i <$> rows df).
Proof. intros Hi. unfold get_column. by rewrite Hi. Qed.

Lemma bind_Returned {A B} (m : exc A) (f : A → exc B) (b : B) :
  m ≫= f = Returned b → ∃ a, m = Returned a ∧ f a = Returned b.
Proof. destruct m as [e|a]; [done|]. by exists a. Qed.



End Trend.

(** ** Time series: columns, nulls and counts *)

Section Frames.
Implicit Types (df : DataFrame) (i j : nat).

Lemma index_of_lookup col cols i : index_of col cols = Some i → cols !! i = Some col.
Proof.
  revert i. induction cols as [|c cols IH]; intros i; simpl; [done|].
  destruct (String.eqb_spec c col) as [->|_]; [by intros [= <-]|].
  destruct (index_of col cols) as [k|]; [|done]. intros [= <-]. by apply IH.
Qed.

Lemma index_of_elem_of col cols i : index_of col cols = Some i → col ∈ cols.
Proof. intros Hi. eapply list_elem_of_lookup_2, index_of_lookup, Hi. Qed.

Lemma row_get_insert_ne i j v (r : list cell) :
  j ≠ i → row_get j (<[i := v]> r) = row_get j r.
Proof.
  intros Hne. unfold row_get. rewrite !nth_lookup.
  by rewrite list_lookup_insert_ne.
Qed.

Lemma column_imap_insert i j (g : nat → cell) (rs : list (list cell)) :
  j ≠ i →
  row_get j <$> imap (fun k r => <[i := g k]> r) rs = row_get j <$> rs.
Proof.
  intros Hne. revert g. induction rs as [|r rs IH]; intros g; [done|].
  rewrite imap_cons, !fmap_cons, row_get_insert_ne by done. f_equal.
  apply (IH (g ∘ S)).
Qed.

Lemma set_column_shape df col dt values i :
  index_of col (columns df) = Some i →
  columns (set_column df col dt values) = columns df
  ∧ length (rows (set_column df col dt values)) = length (rows df)
  ∧ ∀ j, j ≠ i →
      row_get j <$> rows (set_column df col dt values) = row_get j <$> rows df.
Proof.
  intros Hi. unfold set_column. rewrite Hi. cbn [rows schema]. split; [|split].
  - unfold columns. cbn [schema]. rewrite list_fmap_insert. cbn [fst].
    apply list_insert_id. by apply index_of_lookup.
  - by rewrite length_imap.
  - intros j Hj. by apply (column_imap_insert i j (fun k => nth k values VNull)).
Qed.

Lemma series_dropna_nulls (s : list cell) :
  Forall (fun c => is_null c = true) s → series_dropna s = [].
Proof.
  induction 1 as [|c s Hc _ IH]; [done|]. unfold series_dropna in *. simpl.
  by rewrite Hc.
Qed.

Lemma time_range_ordered (s : list cell) :
  match time_min s, time_max s with
  | Some a, Some b => (a ≤ b)%Z
  | None, None => True
  | _, _ => False
  end.
Proof.
  induction s as [|c s IH]; simpl; [done|].
  destruct (time_key c) as [t|]; [|done].
  destruct (time_min s) as [a|], (time_max s) as [b|]; try done. lia.
Qed.

End Frames.

Section Analysis.
Context `{Pandas}.
Implicit Types (self : DataFusion) (df sorted : DataFrame).

Lemma by_time_shape df time_column sorted :
  by_time df time_column = Returned sorted →
  ∃ i, index_of time_column (columns df) = Some i
       ∧ columns sorted = columns df
       ∧ length (rows sorted) = length (rows df)
       ∧ ∀ j, j ≠ i → row_get j <$> rows sorted ≡ₚ row_get j <$> rows df.
Proof.
  unfold by_time, is_datetime64_any_dtype. intros Hby.
  destruct (index_of time_column (columns df)) as [i|] eqn:Hi; [|done].
  exists i. split; [done|]. cbn [mbind exc_bind mret exc_ret] in Hby.
  apply bind_Returned in Hby as (df' & Hdf' & Hsort).
  apply sort_values_sorted in Hsort as (Hschema & Hperm & _).
  assert (columns df' = columns df
          ∧ length (rows df') = length (rows df)
          ∧ ∀ j, j ≠ i → row_get j <$> rows df' = row_get j <$> rows df)
    as (Hcols & Hlen & Hcol).
  { destruct (match snd <$> schema df !! i with Some Ddatetime64 => true | _ => false end).
    - by injection Hdf' as <-.
    - apply bind_Returned in Hdf' as (col & _ & Hdf').
      apply bind_Returned in Hdf' as (ts & _ & Hdf'). injection Hdf' as <-.
      by apply set_column_shape. }
  split; [unfold columns in *; by rewrite Hschema|].
  split; [by rewrite Hperm|].
  intros j Hj. rewrite <- (Hcol j Hj). by apply fmap_Permutation.
Qed.

Lemma time_series_registered self name df tc vc gb :
  datasets self !! name = Some df →
  time_series_analysis self name tc vc gb
  = if empty df then Returned None else
    try_except
      (sorted ← by_time df tc;
       tcol ← get_column sorted tc;
       let results :=
         mkTimeSeries name (time_min tcol, time_max tcol) (len sorted) in
       let overall :=
         col ← get_column sorted vc;
         st ← value_statistics (series_dropna col);
         mret (Some (results None (Some st))) in
       match truthy_str gb with
       | Some g =>
           if bool_decide (g ∈ columns sorted) then
             gs ← groupby_iter sorted g;
             groups ← group_loop vc gs [];
             mret (Some (results (Some groups) None))
           else overall
       | None => overall
       end)
      (fun _ => mret None).
Proof.
  intros Hreg. unfold time_series_analysis.
  by rewrite (query_dataset_all_columns self name df).
Qed.

Lemma value_statistics_nil : raises (value_statistics []).
Proof.
  unfold value_statistics.
  destruct (series_mean []); [by eexists|]. cbn [mbind exc_bind].
  destruct (series_std []); [by eexists|]. cbn [mbind exc_bind].
  destruct (series_min []); [by eexists|]. cbn [mbind exc_bind].
  destruct (series_max []); [by eexists|]. cbn [mbind exc_bind].
  by eexists.
Qed.

End Analysis.

Section Groups.
Context `{Pandas}.
Implicit Types (values : list cell) (gs : list (cell * DataFrame)).









End Groups.



(** The second worked sequence: 100 then 90 in time order is
    "decreasing". *)
Lemma two_points_decreasing :
  ∃ result st,
    time_series_analysis (H := Reference.pandas) Examples.two_points
      "s" "year" "value" None = Returned (Some result)
    ∧ ts_statistics result = Some st
    ∧ st_trend st = "decreasing".
Proof. eexists _, _. vm_compute. repeat split. Qed.

(** A tie is "decreasing". *)
Lemma tie_is_decreasing :
  ∃ result st,
    time_series_analysis (H := Reference.pandas)
      (Examples.series "s" [(2020, 100); (2021, 120); (2022, 100)]%Z)
      "s" "year" "value" None = Returned (Some result)
    ∧ ts_statistics result = Some st
    ∧ st_trend st = "decreasing".
Proof. eexists _, _. vm_compute. repeat split. Qed.

(** Which of two rows of equal time comes first is the kernel's choice, and
    the label follows it: the same two rows read "increasing" under one
    kernel and "decreasing" under the other. *)
Lemma equal_times_follow_the_kernel :
  let same_year := Examples.series "s" [(2020, 100); (2020, 110)]%Z in
  (∃ result st,
      time_series_analysis (H := Reference.sorting (fun _ _ => true)) same_year
        "s" "year" "value" None = Returned (Some result)
      ∧ ts_statistics result = Some st
      ∧ st_trend st = "increasing")
  ∧ (∃ result st,
        time_series_analysis (H := Reference.sorting (fun _ _ => false)) same_year
          "s" "year" "value" None = Returned (Some result)
        ∧ ts_statistics result = Some st
        ∧ st_trend st = "decreasing").
Proof. split; eexists _, _; vm_compute; repeat split. Qed.

(** ** Worked scenarios *)

(** The rainfall scenario: mean 825, min 800, max 850, trend
    "increasing". *)
Lemma rainfall_scenario :
  ∃ result st,
    time_series_analysis (H := Reference.pandas) Examples.fusion
      "rainfall" "year" "mm" None = Returned (Some result)
    ∧ ts_statistics result = Some st
    ∧ st_mean st = Fin 825 ∧ st_min st = Fin 800 ∧ st_max st = Fin 850
    ∧ st_trend st = "increasing".
Proof. eexists _, _. vm_compute. repeat split. Qed.

(** Retrieval over a collection that was never created: no document, the
    fixed answer, confidence 0.0, and the collection now exists. *)
Lemma never_created_collection :
  let B := Stub.backend (Returned (mkQueryResult [[]] [[]] [[]] [[]])) (Returned "unused") in
  rag_query (H := B) (Examples.pipeline (7 # 10)) "rice" "gov_datasets" true None
  = Returned
      (mkRagAnswer
         "I couldn't find relevant information in the available datasets to answer this question."
         [] "" 0 None,
       mkRAGPipeline 5 (7 # 10) {["gov_datasets" := "gov_datasets"]}).
Proof. vm_compute. reflexivity. Qed.

(** Two neighbours at distances 0.1 and 0.2 survive the threshold 0.7: the
    confidence is 0.85 and the context lists them in rank order. *)
Lemma two_sources_confidence :
  let B := Stub.backend (Returned Examples.answer3) (Returned " Rice grows in A. ") in
  ∃ result self',
    rag_query (H := B) (Examples.pipeline (7 # 10)) "rice" "gov_datasets" false None
    = Returned (result, self')
    ∧ answer result = "Rice grows in A."
    ∧ (confidence result == 85 # 100)%Q
    ∧ num_sources result = Some 2
    ∧ context result
      = "[Source 1 - crops]" +:+ nl +:+ "rice in A" +:+ nl +:+ nl
        +:+ "[Source 2 - crops]" +:+ nl +:+ "wheat in B" +:+ nl.
Proof. eexists _, _. vm_compute. repeat split. Qed.

(** * Further properties *)

(** ** Filtering, projection and limit *)

Section Rows.
Implicit Types (df : DataFrame) (fs : list (string * filter_value)).

Lemma filter_true {A} (l : list A) : List.filter (fun _ => true) l = l.
Proof. induction l as [|x l IH]; simpl; [done | by rewrite IH]. Qed.

Lemma filter_filter_andb {A} (p q : A → bool) (l : list A) :
  List.filter q (List.filter p l) = List.filter (fun x => p x && q x) l.
Proof.
  induction l as [|x l IH]; simpl; [done|].
  destruct (p x); simpl; [destruct (q x)|]; by rewrite IH.
Qed.

Lemma filter_ext_bool {A} (p q : A → bool) (l : list A) :
  (∀ x, p x = q x) → List.filter p l = List.filter q l.
Proof. intros Hpq. induction l as [|x l IH]; simpl; [done|]. by rewrite Hpq, IH. Qed.

Lemma rows_apply_filter df f :
  rows (apply_filter df f)
  = List.filter (fun r => passes_entry (columns df) r f) (rows df).
Proof.
  unfold apply_filter, passes_entry, mask_rows, matches. case_bool_decide as Hin.
  - destruct (index_of_is_Some _ _ Hin) as [i Hi].
    destruct f.2; by rewrite Hi.
  - rewrite (index_of_None _ _ Hin). by rewrite filter_true.
Qed.

Lemma rows_filters df fs :
  rows (foldl apply_filter df fs) = List.filter (passes (columns df) fs) (rows df).
Proof.
  revert df. induction fs as [|f fs IH]; intros df; simpl.
  - by rewrite filter_true.
  - rewrite IH, rows_apply_filter, filter_filter_andb.
    unfold columns. by rewrite schema_apply_filter.
Qed.

Lemma filtered_eq df filters :
  filtered df filters
  = mkDataFrame (schema df)
      (List.filter (passes (columns df) (default [] filters)) (rows df)).
Proof.
  unfold filtered. rewrite <- rows_filters, <- (schema_filters df (default [] filters)).
  by destruct (foldl apply_filter df (default [] filters)).
Qed.

Lemma passes_Permutation cols fs fs' row :
  fs ≡ₚ fs' → passes cols fs row = passes cols fs' row.
Proof.
  unfold passes. induction 1 as [|f fs fs' _ IH|f g fs|fs1 fs2 fs3 _ IH1 _ IH2]; simpl.
  - done.
  - by rewrite IH.
  - by rewrite !andb_assoc, (andb_comm (passes_entry cols row f)).
  - by rewrite IH1.
Qed.

End Rows.

(** X1. The entries of the filter mapping are combined by "and".  With no
    column list and no limit, [query_dataset] on a registered dataset whose
    column names are pairwise distinct keeps the dataset's columns and, in
    their order, exactly those of its rows that every entry, asked for on
    its own, keeps. *)
Theorem query_dataset_conjunction (self : DataFusion) (name : string)
    (df : DataFrame) (filters : option (list (string * filter_value))) :
  datasets self !! name = Some df →
  NoDup (columns df) →
  ∃ (r : DataFrame) (keep : list cell → bool),
    query_dataset self name filters None None = Returned r
    ∧ schema r = schema df
    ∧ rows r = List.filter keep (rows df)
    ∧ ∀ row, row ∈ rows df →
        (keep row = true
         ↔ ∀ f, f ∈ default [] filters →
             ∃ r1, query_dataset self name (Some [f]) None None = Returned r1
                   ∧ row ∈ rows r1).
Proof.
  intros Hreg _.
  exists (mkDataFrame (schema df)
            (List.filter (passes (columns df) (default [] filters)) (rows df))),
    (passes (columns df) (default [] filters)).
  split; [by rewrite (query_dataset_all_columns self name df), filtered_eq|].
  split; [done|]. split; [done|]. intros row Hrow.
  assert (∀ f, (∃ r1, query_dataset self name (Some [f]) None None = Returned r1
                      ∧ row ∈ rows r1)
               ↔ passes_entry (columns df) row f = true) as Hone.
  { intros f. rewrite (query_dataset_all_columns self name df), filtered_eq by done.
    assert (passes (columns df) (default [] (Some [f])) row
            = passes_entry (columns df) row f) as Hf by apply andb_true_r.
    split.
    - intros (r1 & [= <-] & Hin). cbn [rows] in Hin.
      apply list_elem_of_In, List.filter_In in Hin as [_ Hin]. by rewrite <- Hf.
    - intros Hpass. eexists. split; [done|]. cbn [rows].
      apply list_elem_of_In, List.filter_In.
      split; [by apply list_elem_of_In | by rewrite Hf]. }
  unfold passes. rewrite forallb_forall. split.
  - intros Hall f Hf. apply Hone, Hall. by apply list_elem_of_In.
  - intros Hall f Hf. apply Hone, Hall. by apply list_elem_of_In.
Qed.

Lemma query_dataset_conjunction_witness :
  ∃ keep,
    query_dataset Examples.fusion "rainfall"
      (Some [("year", FList [Examples.num 2021; Examples.num 2022]);
             ("state", FScalar (VStr "A")); ("ph", FScalar VNull)])
      None None
    = Returned (mkDataFrame (schema Examples.rainfall)
                  [[VStr "A"; Examples.num 2021; Examples.num 850]])
    ∧ [[VStr "A"; Examples.num 2021; Examples.num 850]]
      = List.filter keep (rows Examples.rainfall).
Proof.
  destruct (query_dataset_conjunction Examples.fusion "rainfall" Examples.rainfall
              (Some [("year", FList [Examples.num 2021; Examples.num 2022]);
                     ("state", FScalar (VStr "A")); ("ph", FScalar VNull)]))
    as (r & keep & Hr & _ & Hrows & _).
  - vm_compute. reflexivity.
  - apply (bool_decide_unpack _). vm_compute. exact I.
  - exists keep. vm_compute in Hr. injection Hr as <-. split; [reflexivity | exact Hrows].
Defined.

(** X2. The order of the entries of the filter mapping does not matter:
    two mappings with the same entries in a different order give the same
    answer, whatever the column list and the limit. *)
Theorem query_dataset_filter_order (self : DataFusion) (name : string)
    (fs fs' : list (string * filter_value)) cols limit :
  fs ≡ₚ fs' →
  query_dataset self name (Some fs) cols limit
  = query_dataset self name (Some fs') cols limit.
Proof.
  intros Hperm. destruct (datasets self !! name) as [df|] eqn:Hreg.
  - rewrite !(query_dataset_registered self name df) by done.
    rewrite !filtered_eq. simpl.
    by rewrite (filter_ext_bool _ _ _ (fun row => passes_Permutation (columns df) fs fs' row Hperm)).
  - unfold query_dataset. by rewrite Hreg.
Qed.

Lemma query_dataset_filter_order_witness :
  query_dataset Examples.fusion "rainfall"
    (Some [("year", FScalar (Examples.num 2021)); ("state", FScalar (VStr "A"))])
    (Some ["mm"]) None
  = query_dataset Examples.fusion "rainfall"
      (Some [("state", FScalar (VStr "A")); ("year", FScalar (Examples.num 2021))])
      (Some ["mm"]) None.
Proof.
  apply (query_dataset_filter_order Examples.fusion "rainfall").
  apply Permutation_swap.
Defined.

Section Limit.
Implicit Types (df : DataFrame).

Lemma limited_empty limit : limited pd_DataFrame limit = pd_DataFrame.
Proof.
  unfold limited, head. destruct (truthy_int limit); [|done]. simpl.
  by rewrite take_nil.
Qed.

Lemma len_limited df (n : Z) : (0 < n)%Z → len (limited df (Some n)) ≤ Z.to_nat n.
Proof.
  intros Hn. unfold limited, len. destruct n as [|p|p]; try lia.
  unfold truthy_int, head. simpl rows. rewrite length_take. lia.
Qed.

Lemma query_dataset_limited (self : DataFusion) name filters cols limit :
  query_dataset self name filters cols limit
  = (fun r => limited r limit) <$> query_dataset self name filters cols None.
Proof.
  destruct (datasets self !! name) as [df|] eqn:Hreg.
  - rewrite !(query_dataset_registered self name df) by done.
    destruct (match truthy_list cols with Some _ => _ | None => _ end) as [e|r]; done.
  - unfold query_dataset. rewrite Hreg. simpl. by rewrite limited_empty.
Qed.

End Limit.

(** X3. The limit is applied last, to the filtered and projected frame: a
    positive limit [n] keeps its first [n] rows, so at most [n] rows come
    back; a negative limit drops its last [-n] rows; and the limit 0 is no
    limit at all, every row comes back. *)
Theorem query_dataset_limit (self : DataFusion) (name : string) filters cols :
  (∀ limit, query_dataset self name filters cols limit
            = (fun r => limited r limit) <$> query_dataset self name filters cols None)
  ∧ (∀ (n : Z) r, (0 < n)%Z →
       query_dataset self name filters cols (Some n) = Returned r →
       len r ≤ Z.to_nat n
       ∧ ∃ r0, query_dataset self name filters cols None = Returned r0
               ∧ rows r = take (Z.to_nat n) (rows r0))
  ∧ (∀ (n : Z) r, (n < 0)%Z →
       query_dataset self name filters cols (Some n) = Returned r →
       ∃ r0, query_dataset self name filters cols None = Returned r0
             ∧ rows r = take (len r0 - Z.to_nat (- n)) (rows r0))
  ∧ query_dataset self name filters cols (Some 0%Z)
    = query_dataset self name filters cols None.
Proof.
  split; [apply query_dataset_limited|]. split; [|split].
  - intros n r Hn Hr. rewrite query_dataset_limited in Hr.
    destruct (query_dataset self name filters cols None) as [e|r0]; [done|].
    injection Hr as <-. split; [by apply len_limited|]. exists r0. split; [done|].
    destruct n; try lia. done.
  - intros n r Hn Hr. rewrite query_dataset_limited in Hr.
    destruct (query_dataset self name filters cols None) as [e|r0]; [done|].
    injection Hr as <-. exists r0. split; [done|]. destruct n; try lia. done.
  - rewrite query_dataset_limited.
    by destruct (query_dataset self name filters cols None).
Qed.

Section Select.
Implicit Types (df : DataFrame) (cols : list string).



End Select.



(** ** Unknown names and swallowed errors *)

Section Soft.
Context `{Pandas}.
Implicit Types (self : DataFusion).

Lemma merge_datasets_unknown_left self name other on how :
  datasets self !! name = None →
  merge_datasets self name other on how = Returned pd_DataFrame.
Proof. intros Hno. unfold merge_datasets. by rewrite Hno. Qed.

Lemma merge_datasets_unknown_right self name other on how :
  datasets self !! name = None →
  merge_datasets self other name on how = Returned pd_DataFrame.
Proof.
  intros Hno. unfold merge_datasets. rewrite Hno.
  by destruct (datasets self !! other).
Qed.

Lemma query_dataset_unknown self name filters cols limit :
  datasets self !! name = None →
  query_dataset self name filters cols limit = Returned pd_DataFrame.
Proof. intros Hno. unfold query_dataset. by rewrite Hno. Qed.

Lemma aggregate_data_returns self name group_by agg_funcs filters :
  returns (aggregate_data self name group_by agg_funcs filters).
Proof.
  unfold aggregate_data.
  destruct (query_dataset_returns self name filters None None) as [df ->].
  cbn [mbind exc_bind]. destruct (empty df); [by eexists|].
  apply try_except_returns. by eexists.
Qed.

Lemma calculate_correlation_returns self n1 n2 v1 v2 on :
  returns (calculate_correlation self n1 n2 v1 v2 on).
Proof.
  unfold calculate_correlation.
  destruct (merge_datasets_returns self n1 n2 (Some on) "inner") as [merged ->].
  cbn [mbind exc_bind]. destruct (empty merged); [by eexists|].
  apply try_except_returns. by eexists.
Qed.

Lemma get_series_Returned df col (s : list cell) :
  get_series df col = Returned s → get_column df col = Returned s.
Proof. unfold get_series. by case_bool_decide. Qed.

Lemma time_series_analysis_returns self name tc vc gb :
  returns (time_series_analysis self name tc vc gb).
Proof.
  unfold time_series_analysis.
  destruct (query_dataset_returns self name None None None) as [df ->].
  cbn [mbind exc_bind]. destruct (empty df); [by eexists|].
  apply try_except_returns. by eexists.
Qed.

End Soft.

(** X5. A name that was never registered makes no operation fail:
    [get_dataset] answers [None], [query_dataset], [aggregate_data] and
    [merge_datasets] (the name on either side) answer [pd.DataFrame()],
    [find_common_columns] answers the empty list, [calculate_correlation]
    answers 0.0 with [pd.DataFrame()], and [time_series_analysis] answers
    the empty dict. *)
Theorem unknown_dataset_is_soft `{Pandas} (self : DataFusion) (name : string) :
  datasets self !! name = None →
  get_dataset self name = None
  ∧ (∀ filters cols limit,
       query_dataset self name filters cols limit = Returned pd_DataFrame)
  ∧ (∀ group_by agg_funcs filters,
       aggregate_data self name group_by agg_funcs filters = Returned pd_DataFrame)
  ∧ (∀ other on how,
       merge_datasets self name other on how = Returned pd_DataFrame
       ∧ merge_datasets self other name on how = Returned pd_DataFrame
       ∧ find_common_columns self name other = []
       ∧ find_common_columns self other name = [])
  ∧ (∀ other v1 v2 on,
       calculate_correlation self name other v1 v2 on = Returned (Fin 0, pd_DataFrame)
       ∧ calculate_correlation self other name v1 v2 on = Returned (Fin 0, pd_DataFrame))
  ∧ (∀ time_column value_column group_by,
       time_series_analysis self name time_column value_column group_by
       = Returned None).
Proof.
  intros Hno. split; [done|]. split; [intros; by apply query_dataset_unknown|].
  split; [|split; [|split]].
  - intros group_by agg_funcs filters. unfold aggregate_data.
    by rewrite query_dataset_unknown.
  - intros other on how. split; [by apply merge_datasets_unknown_left|].
    split; [by apply merge_datasets_unknown_right|].
    unfold find_common_columns. rewrite Hno. by destruct (datasets self !! other).
  - intros other v1 v2 on. unfold calculate_correlation.
    by rewrite merge_datasets_unknown_left, merge_datasets_unknown_right.
  - intros tc vc gb. unfold time_series_analysis. by rewrite query_dataset_unknown.
Qed.

Lemma unknown_dataset_is_soft_witness :
  query_dataset Examples.fusion "wheat" None None None = Returned pd_DataFrame
  ∧ calculate_correlation (H := Reference.pandas) Examples.fusion
      "rainfall" "wheat" "mm" "yield" ["state"] = Returned (Fin 0, pd_DataFrame)
  ∧ time_series_analysis (H := Reference.pandas) Examples.fusion
      "wheat" "year" "yield" None = Returned None.
Proof.
  destruct (unknown_dataset_is_soft (H := Reference.pandas) Examples.fusion "wheat")
    as (_ & Hquery & _ & _ & Hcorr & Hts); [vm_compute; reflexivity|].
  split; [apply Hquery|]. split; [apply Hcorr | apply Hts].
Defined.

(** X6. [merge_datasets], [calculate_correlation] and
    [time_series_analysis] do their pandas work under a [try] and never
    raise, whatever their arguments and whatever pandas does underneath;
    nor does [aggregate_data] when it is given no filters, the filtering
    being the one step it takes before its [try]. *)
Theorem fusion_never_raises `{Pandas} (self : DataFusion) :
  (∀ left_name right_name on how,
     returns (merge_datasets self left_name right_name on how))
  ∧ (∀ n1 n2 v1 v2 on, returns (calculate_correlation self n1 n2 v1 v2 on))
  ∧ (∀ name time_column value_column group_by,
       returns (time_series_analysis self name time_column value_column group_by))
  ∧ (∀ name group_by agg_funcs,
       returns (aggregate_data self name group_by agg_funcs None)).
Proof.
  split; [intros; apply merge_datasets_returns|].
  split; [intros; apply calculate_correlation_returns|].
  split; [intros; apply time_series_analysis_returns|].
  intros; apply aggregate_data_returns.
Qed.

(** X7. The join keys found for two registered datasets are exactly the
    column names the two share, each once; swapping the datasets gives the
    same keys up to order; and when there is at least one, the join with no
    key list is the join on these keys. *)
Theorem find_common_columns_shared `{Pandas} (self : DataFusion)
    (dataset1 dataset2 : string) (d1 d2 : DataFrame) :
  datasets self !! dataset1 = Some d1 →
  datasets self !! dataset2 = Some d2 →
  let keys := find_common_columns self dataset1 dataset2 in
  NoDup keys
  ∧ (∀ c, c ∈ keys ↔ c ∈ columns d1 ∧ c ∈ columns d2)
  ∧ keys ≡ₚ find_common_columns self dataset2 dataset1
  ∧ (keys ≠ [] →
     ∀ how, merge_datasets self dataset1 dataset2 None how
            = merge_datasets self dataset1 dataset2 (Some keys) how).
Proof.
  intros H1 H2 keys. subst keys. split; [|split; [|split]].
  - unfold find_common_columns. rewrite H1, H2. apply NoDup_elements.
  - intros c. unfold find_common_columns. rewrite H1, H2.
    rewrite elem_of_elements, elem_of_intersection, !elem_of_list_to_set. done.
  - unfold find_common_columns. rewrite H1, H2.
    by rewrite (comm_L (∩) (list_to_set (columns d1))).
  - intros Hkeys how. unfold merge_datasets. rewrite H1, H2.
    by destruct (find_common_columns self dataset1 dataset2).
Qed.

Lemma find_common_columns_shared_witness :
  find_common_columns Examples.fusion "rainfall" "crops"
  ≡ₚ find_common_columns Examples.fusion "crops" "rainfall"
  ∧ (∀ c, c ∈ find_common_columns Examples.fusion "rainfall" "crops"
          ↔ c ∈ columns Examples.rainfall ∧ c ∈ columns Examples.crops).
Proof.
  destruct (find_common_columns_shared (H := Reference.pandas) Examples.fusion
              "rainfall" "crops" Examples.rainfall Examples.crops)
    as (_ & Hin & Hperm & _).
  - vm_compute. reflexivity.
  - vm_compute. reflexivity.
  - split; [exact Hperm | exact Hin].
Defined.

(** X8. Whatever happens, the dataset that [calculate_correlation] returns
    is the inner join on the given keys ([pd.DataFrame()] when that join is
    empty); and a coefficient other than 0.0 comes back only when at least
    two rows of the join have a value in both value columns, and then it
    is the correlation pandas computes of the two columns of those rows. *)
Theorem calculate_correlation_cases `{Pandas} (self : DataFusion)
    (dataset1_name dataset2_name value_col1 value_col2 : string)
    (merge_on : list string) :
  ∃ merged coefficient,
    merge_datasets self dataset1_name dataset2_name (Some merge_on) "inner"
    = Returned merged
    ∧ calculate_correlation self dataset1_name dataset2_name value_col1 value_col2
        merge_on
      = Returned (coefficient, if empty merged then pd_DataFrame else merged)
    ∧ (coefficient ≠ Fin 0 →
       let col1 := resolved merged value_col1 "_left" in
       let col2 := resolved merged value_col2 "_right" in
       2 ≤ paired_observations merged col1 col2
       ∧ ∃ selected s1 s2,
           select_columns merged [col1; col2] = Returned selected
           ∧ get_column (dropna selected) col1 = Returned s1
           ∧ get_column (dropna selected) col2 = Returned s2
           ∧ series_corr s1 s2 = Returned coefficient).
Proof.
  destruct (merge_datasets_returns self dataset1_name dataset2_name
              (Some merge_on) "inner") as [merged Hmerge].
  exists merged. unfold calculate_correlation. rewrite Hmerge. cbn [mbind exc_bind].
  destruct (empty merged); [by exists (Fin 0)|].
  unfold paired_observations. fold (resolved merged value_col1 "_left").
  fold (resolved merged value_col2 "_right").
  destruct (select_columns merged _) as [e|selected]; [by exists (Fin 0)|].
  cbn [mbind exc_bind]. case_bool_decide as Hfew; [by exists (Fin 0)|].
  destruct (get_series (dropna selected) (resolved merged value_col1 "_left"))
    as [e|s1] eqn:Hs1; [by exists (Fin 0)|].
  cbn [mbind exc_bind].
  destruct (get_series (dropna selected) (resolved merged value_col2 "_right"))
    as [e|s2] eqn:Hs2; [by exists (Fin 0)|].
  cbn [mbind exc_bind].
  destruct (series_corr s1 s2) as [e|c] eqn:Hcorr; [by exists (Fin 0)|].
  exists c. split; [done|]. split; [done|]. intros _. cbn zeta.
  split; [unfold len in *; lia|]. exists selected, s1, s2.
  split; [done|]. split; [by apply get_series_Returned|].
  split; [by apply get_series_Returned | done].
Qed.

(** X9. [time_series_analysis] of a registered dataset answers the empty
    dict when the time column is not a column of the dataset, and, for an
    analysis without grouping, when the value column is not one: the
    [KeyError] is swallowed. *)
Theorem time_series_missing_column `{Pandas} (self : DataFusion)
    (name : string) (df : DataFrame) :
  datasets self !! name = Some df →
  (∀ time_column value_column group_by,
     time_column ∉ columns df →
     time_series_analysis self name time_column value_column group_by
     = Returned None)
  ∧ (∀ time_column value_column group_by,
       value_column ∉ columns df →
       match truthy_str group_by with
       | Some g => g ∉ columns df
       | None => True
       end →
       time_series_analysis self name time_column value_column group_by
       = Returned None).
Proof.
  intros Hreg. split.
  - intros tc vc gb Hno. rewrite (time_series_registered self name df) by done.
    destruct (empty df); [done|]. unfold by_time, is_datetime64_any_dtype.
    by rewrite (index_of_None _ _ Hno).
  - intros tc vc gb Hno Hgb. rewrite (time_series_registered self name df) by done.
    destruct (empty df); [done|].
    destruct (by_time df tc) as [e|sorted] eqn:Hby; [done|].
    destruct (by_time_shape df tc sorted Hby) as (i & Hi & Hcols & _).
    cbn [mbind exc_bind]. rewrite (get_column_index sorted tc i) by by rewrite Hcols.
    cbn [mbind exc_bind]. rewrite Hcols.
    assert (get_column sorted vc = raise "KeyError" vc) as Hraise.
    { unfold get_column. by rewrite Hcols, (index_of_None _ _ Hno). }
    destruct (truthy_str gb) as [g|].
    + rewrite bool_decide_eq_false_2 by done. by rewrite Hraise.
    + by rewrite Hraise.
Qed.

Lemma time_series_missing_column_witness :
  time_series_analysis (H := Reference.pandas) Examples.fusion
    "rainfall" "date" "mm" (Some "state") = Returned None
  ∧ time_series_analysis (H := Reference.pandas) Examples.fusion
      "rainfall" "year" "rain" None = Returned None.
Proof.
  destruct (time_series_missing_column (H := Reference.pandas) Examples.fusion
              "rainfall" Examples.rainfall) as [Htime Hvalue].
  - vm_compute. reflexivity.
  - split.
    + apply Htime. apply (bool_decide_unpack _). vm_compute. exact I.
    + apply Hvalue; [|exact I]. apply (bool_decide_unpack _). vm_compute. exact I.
Defined.

(** X10. When every value of the value column is null, an analysis without
    grouping of a registered dataset answers the empty dict: there is no
    first value to compare, and the [IndexError] is swallowed. *)
Theorem time_series_all_null `{Pandas} (self : DataFusion)
    (name time_column value_column : string) (group_by : option string)
    (df : DataFrame) (col : list cell) :
  datasets self !! name = Some df →
  value_column ≠ time_column →
  get_column df value_column = Returned col →
  Forall (fun c => is_null c = true) col →
  match truthy_str group_by with
  | Some g => g ∉ columns df
  | None => True
  end →
  time_series_analysis self name time_column value_column group_by = Returned None.
Proof.
  intros Hreg Hne Hcol Hnull Hgb.
  rewrite (time_series_registered self name df) by done.
  destruct (empty df); [done|].
  destruct (by_time df time_column) as [e|sorted] eqn:Hby; [done|].
  destruct (by_time_shape df time_column sorted Hby) as (i & Hi & Hcols & _ & Hperm).
  cbn [mbind exc_bind]. rewrite (get_column_index sorted time_column i)
    by by rewrite Hcols.
  cbn [mbind exc_bind]. rewrite Hcols.
  unfold get_column in Hcol.
  destruct (index_of value_column (columns df)) as [j|] eqn:Hj; [|done].
  injection Hcol as <-.
  assert (j ≠ i) as Hji.
  { intros ->. apply index_of_lookup in Hi, Hj. congruence. }
  assert (get_column sorted value_column = Returned (row_get j <$> rows sorted))
    as Hc by (apply get_column_index; by rewrite Hcols).
  assert (series_dropna (row_get j <$> rows sorted) = []) as Hdrop.
  { apply series_dropna_nulls. by rewrite (Hperm j Hji). }
  destruct value_statistics_nil as [e He].
  assert (∀ results : option (list (string * Statistics)) → option Statistics → TimeSeries,
            (col ← get_column sorted value_column;
             st ← value_statistics (series_dropna col);
             mret (Some (results None (Some st)))) = Raised e) as Hoverall.
  { intros results. rewrite Hc. cbn [mbind exc_bind]. by rewrite Hdrop, He. }
  destruct (truthy_str group_by) as [g|].
  - rewrite bool_decide_eq_false_2 by done. by rewrite Hoverall.
  - by rewrite Hoverall.
Qed.

Lemma time_series_all_null_witness :
  time_series_analysis (H := Reference.pandas)
    (register_dataset DataFusion_init "plots"
       (mkDataFrame [("year", Dint64); ("mm", Dfloat64)]
          [[Examples.num 2020; VNull]; [Examples.num 2021; VNull]])
       "" None None)
    "plots" "year" "mm" None = Returned None.
Proof.
  apply (time_series_all_null (H := Reference.pandas) _ "plots" "year" "mm" None
           (mkDataFrame [("year", Dint64); ("mm", Dfloat64)]
              [[Examples.num 2020; VNull]; [Examples.num 2021; VNull]])
           [VNull; VNull]).
  - vm_compute. reflexivity.
  - discriminate.
  - vm_compute. reflexivity.
  - repeat constructor.
  - exact I.
Defined.

(** X11. An analysis that answers at all is about a registered, non-empty
    dataset that has the time column; it names that dataset, counts every
    row of it as a data point (rows with a null time or value included),
    gives a time range whose start is not after its end, and holds either
    the overall statistics or the groups, never both. *)
Theorem time_series_result `{Pandas} (self : DataFusion)
    (name time_column value_column : string) (group_by : option string)
    (result : TimeSeries) :
  time_series_analysis self name time_column value_column group_by
  = Returned (Some result) →
  ∃ df, datasets self !! name = Some df
        ∧ empty df = false
        ∧ time_column ∈ columns df
        ∧ ts_dataset result = name
        ∧ ts_data_points result = len df
        ∧ match ts_time_range result with
          | (Some a, Some b) => (a ≤ b)%Z
          | (None, None) => True
          | _ => False
          end
        ∧ (is_Some (ts_groups result) ↔ ts_statistics result = None).
Proof.
  intros Hrun. destruct (datasets self !! name) as [df|] eqn:Hreg.
  - exists df. split; [done|].
    rewrite (time_series_registered self name df) in Hrun by done.
    destruct (empty df); [done|]. split; [done|].
    destruct (by_time df time_column) as [e|sorted] eqn:Hby; [done|].
    destruct (by_time_shape df time_column sorted Hby) as (i & Hi & Hcols & Hlen & _).
    split; [by eapply index_of_elem_of|].
    cbn [mbind exc_bind] in Hrun.
    rewrite (get_column_index sorted time_column i) in Hrun by by rewrite Hcols.
    cbn [mbind exc_bind] in Hrun.
    pose proof (time_range_ordered (row_get i <$> rows sorted)) as Hrange.
    assert (∀ m : exc (option TimeSeries),
              try_except m (fun _ => mret None) = Returned (Some result) →
              m = Returned (Some result)) as Htry.
    { by intros [e|r]. }
    apply Htry in Hrun.
    assert (∀ col_m : exc (option TimeSeries),
              col_m = (col ← get_column sorted value_column;
                       st ← value_statistics (series_dropna col);
                       mret (Some (mkTimeSeries name
                                     (time_min (row_get i <$> rows sorted),
                                      time_max (row_get i <$> rows sorted))
                                     (len sorted) None (Some st)))) →
              col_m = Returned (Some result) →
              ts_dataset result = name ∧ ts_data_points result = len df
              ∧ match ts_time_range result with
                | (Some a, Some b) => (a ≤ b)%Z
                | (None, None) => True
                | _ => False
                end
              ∧ (is_Some (ts_groups result) ↔ ts_statistics result = None))
      as Hoverall.
    { intros m -> Hm. apply bind_Returned in Hm as (c & _ & Hm).
      apply bind_Returned in Hm as (st & _ & Hm). injection Hm as <-.
      cbn [ts_dataset ts_data_points ts_time_range ts_groups ts_statistics].
      split; [done|]. split; [done|]. split; [done|].
      split; [by intros [? ?] | done]. }
    destruct (truthy_str group_by) as [g|]; [|by eapply Hoverall].
    case_bool_decide; [|by eapply Hoverall].
    apply bind_Returned in Hrun as (gs & _ & Hrun).
    apply bind_Returned in Hrun as (groups & _ & Hrun). injection Hrun as <-.
    cbn [ts_dataset ts_data_points ts_time_range ts_groups ts_statistics].
    split; [done|]. split; [done|]. split; [done|]. split; [done | by eexists].
  - unfold time_series_analysis in Hrun. rewrite query_dataset_unknown in Hrun by done.
    done.
Qed.

Lemma time_series_result_witness :
  ∃ result df,
    time_series_analysis (H := Reference.pandas) Examples.fusion
      "rainfall" "year" "mm" (Some "state") = Returned (Some result)
    ∧ datasets Examples.fusion !! "rainfall" = Some df
    ∧ ts_data_points result = len df
    ∧ ts_statistics result = None.
Proof.
  eexists. 
  destruct (time_series_result (H := Reference.pandas) Examples.fusion
              "rainfall" "year" "mm" (Some "state")
              (mkTimeSeries "rainfall" (Some 2020%Z, Some 2021%Z) 2
                 (Some [("A", mkStatistics (Fin 825) (Fin (35355339059 # 1000000000))
                                 (Fin 800) (Fin 850) "increasing")])
                 None))
    as (df & Hreg & _ & _ & _ & Hpoints & _ & _).
  - vm_compute. reflexivity.
  - exists df. split; [vm_compute; reflexivity|]. split; [exact Hreg|].
    split; [exact Hpoints | reflexivity].
Defined.

(** ** The pipeline's collections *)

(** X12. Without [recreate], [create_collection] answers with the
    collection the store gives and records it under its name, leaving every
    other entry and the settings alone, and a failure of the store to give
    the collection is raised to the caller.  With [recreate], a deletion
    that raises is swallowed: the outcome is then that of the call without
    [recreate]. *)
Theorem create_collection_outcome `{Backend} (self : RAGPipeline)
    (collection_name : string) :
  (∀ e, delete_collection collection_name = Raised e →
        create_collection self collection_name true
        = create_collection self collection_name false)
  ∧ (∀ e, get_or_create_collection collection_name = Raised e →
          create_collection self collection_name false = Raised e)
  ∧ (∀ collection,
       get_or_create_collection collection_name = Returned collection →
       ∃ self',
         create_collection self collection_name false = Returned (collection, self')
         ∧ collections self' !! collection_name = Some collection
         ∧ (∀ other, other ≠ collection_name →
                     collections self' !! other = collections self !! other)
         ∧ top_k self' = top_k self
         ∧ similarity_threshold self' = similarity_threshold self).
Proof.
  unfold create_collection. split; [|split].
  - by intros e ->.
  - by intros e ->.
  - intros collection ->. eexists. split; [done|].
    cbn [collections top_k similarity_threshold]. split; [apply lookup_insert_eq|].
    split; [|done]. intros other Hother. by apply lookup_insert_ne.
Qed.

(** X13. [query] never raises and never loses a collection: it leaves the
    pipeline as it was when the collection is already known or cannot be
    made (then with no result), and otherwise only adds the collection it
    made, under the queried name. *)
Theorem query_keeps_collections `{Backend} (self : RAGPipeline)
    (query_text collection_name : string) (n_results : option Z)
    (filter_dict : option metadata_dict) :
  ∃ f self',
    query self query_text collection_name n_results filter_dict = Returned (f, self')
    ∧ top_k self' = top_k self
    ∧ similarity_threshold self' = similarity_threshold self
    ∧ (∀ other, other ≠ collection_name →
                collections self' !! other = collections self !! other)
    ∧ match collections self !! collection_name with
      | Some collection => self' = self
      | None =>
          match get_or_create_collection collection_name with
          | Returned collection => collections self' !! collection_name = Some collection
          | Raised _ => self' = self ∧ f = no_results
          end
      end.
Proof.
  unfold query. destruct (collections self !! collection_name) as [c|] eqn:Hc.
  - cbn [mret exc_ret]. destruct (try_except _ _) as [e|f] eqn:Htry.
    + by destruct (index_query c query_text _ filter_dict ≫= _).
    + by exists f, self.
  - unfold create_collection. cbn [mbind exc_bind mret exc_ret].
    destruct (get_or_create_collection collection_name) as [e|c];
      cbn [mbind exc_bind mret exc_ret try_except].
    + by exists no_results, self.
    + destruct (try_except _ _) as [e|f] eqn:Htry.
      * by destruct (index_query c query_text _ filter_dict ≫= _).
      * eexists f, _. split; [done|]. cbn [collections top_k similarity_threshold].
        split; [done|]. split; [done|]. split; [|apply lookup_insert_eq].
        intros other Hother. by apply lookup_insert_ne.
Qed.

(** ** A failing language model *)

(** X15. A language model that fails does not make [rag_query] fail: when
    something was retrieved and the service raises [e] on the prompt,
    [rag_query] returns the text "Error generating response: " with the
    message of [e] as its answer, together with the sources, the context
    and the confidence of the retrieval, as for a real answer. *)
Theorem rag_query_failed_generation `{Backend} (self self' : RAGPipeline)
    (query_text collection_name : string) (include_reasoning : bool)
    (n_results : option Z) (retrieved : FilteredResults) (e : exn) :
  query self query_text collection_name n_results None = Returned (retrieved, self') →
  documents retrieved ≠ [] →
  let context_ :=
    String.concat nl (context_parts 1 (documents retrieved) (metadatas retrieved)) in
  text_generation (prompt_of include_reasoning query_text context_) 1024 (7 # 10)
  = Raised e →
  rag_query self query_text collection_name include_reasoning n_results
  = Returned
      (mkRagAnswer ("Error generating response: " +:+ exn_message e)
         (metadatas retrieved) context_
         match distances retrieved with
         | [] => 0%Q
         | _ :: _ => (1 - mean (distances retrieved))%Q
         end
         (Some (length (documents retrieved))),
       self').
Proof.
  intros Hq Hdocs context_ Hfail. unfold rag_query. rewrite Hq. cbn [mbind exc_bind].
  destruct (documents retrieved) as [|doc docs] eqn:Hd; [done|].
  unfold generate_response. fold context_.
  fold (prompt_of include_reasoning query_text context_). rewrite Hfail.
  cbn [try_except mbind exc_bind mret exc_ret].
  by destruct (distances retrieved).
Qed.

Lemma rag_query_failed_generation_witness :
  let B := Stub.backend (Returned Examples.answer3)
             (raise "HfHubHTTPError" "503 Service Unavailable") in
  ∃ self',
    rag_query (H := B) (Examples.pipeline (7 # 10)) "rice" "gov_datasets" false None
    = Returned
        (mkRagAnswer "Error generating response: 503 Service Unavailable"
           [[("dataset", "crops")]; [("dataset", "crops")]]
           ("[Source 1 - crops]" +:+ nl +:+ "rice in A" +:+ nl +:+ nl
            +:+ "[Source 2 - crops]" +:+ nl +:+ "wheat in B" +:+ nl)
           (1 - mean [1 # 10; 2 # 10])%Q (Some 2),
         self').
Proof.
  intros B. eexists.
  apply (rag_query_failed_generation (H := B) (Examples.pipeline (7 # 10)) _
           "rice" "gov_datasets" false None
           (mkFilteredResults ["rice in A"; "wheat in B"]
              [[("dataset", "crops")]; [("dataset", "crops")]]
              [1 # 10; 2 # 10]%Q ["doc_0"; "doc_1"])
           (Exception "HfHubHTTPError" "503 Service Unavailable")).
  - vm_compute. reflexivity.
  - discriminate.
  - vm_compute. reflexivity.
Defined.

(** X16. When the language model answers, [generate_response] returns its
    text with the white space removed at both ends and nothing else
    changed: the text is the result between two runs of white space, and
    the result neither starts nor ends with white space. *)
Theorem generate_response_trimmed `{Backend} (query_text context_ : string)
    (max_tokens : Z) (temperature : Q) (include_reasoning : bool)
    (response : string) :
  text_generation (prompt_of include_reasoning query_text context_) max_tokens temperature
  = Returned response →
  ∃ result pre post,
    generate_response query_text context_ max_tokens temperature include_reasoning
    = Returned result
    ∧ response = pre +:+ result +:+ post
    ∧ all_whitespace pre = true ∧ all_whitespace post = true
    ∧ starts_with_whitespace result = false
    ∧ ends_with_whitespace result = false.
Proof.
  intros Hok. destruct (strip_spec response) as (pre & post & Hsplit).
  exists (strip response), pre, post. split; [|done].
  unfold generate_response. fold (prompt_of include_reasoning query_text context_).
  by rewrite Hok.
Qed.

Lemma generate_response_trimmed_witness :
  generate_response
    (H := Stub.backend (Returned Examples.answer3)
            (Returned (nl +:+ "  Rice grows in A. " +:+ nl)))
    "Which state grows rice?" "" 1024 (7 # 10) false
  = Returned "Rice grows in A.".
Proof.
  destruct (generate_response_trimmed
              (H := Stub.backend (Returned Examples.answer3)
                      (Returned (nl +:+ "  Rice grows in A. " +:+ nl)))
              "Which state grows rice?" "" 1024 (7 # 10) false
              (nl +:+ "  Rice grows in A. " +:+ nl))
    as (result & pre & post & Hrun & _); [vm_compute; reflexivity|].
  vm_compute. reflexivity.
Defined.

(** ** Adding documents *)

Section Ids.

Lemma generated_ids_lookup (k n i : nat) :
  i < n → generated_ids k n !! i = Some ("doc_" +:+ pretty (k + i)).
Proof.
  intros Hi. unfold generated_ids. rewrite list_lookup_fmap, lookup_seq_lt by done.
  done.
Qed.

Lemma elem_of_generated_ids (k n : nat) (x : string) :
  x ∈ generated_ids k n ↔ ∃ i, i < n ∧ x = "doc_" +:+ pretty (k + i).
Proof.
  unfold generated_ids. rewrite list_elem_of_fmap. split.
  - intros (i & -> & Hi). apply elem_of_seq in Hi. exists i. split; [lia | done].
  - intros (i & Hi & ->). exists i. split; [done|]. apply elem_of_seq. lia.
Qed.

Lemma doc_id_inj (a b : nat) :
  "doc_" +:+ pretty a = "doc_" +:+ pretty b → a = b.
Proof. intros Heq. apply (inj (String.app "doc_")) in Heq. by apply (inj pretty). Qed.

Lemma generated_ids_NoDup (k n : nat) : NoDup (generated_ids k n).
Proof.
  unfold generated_ids. apply NoDup_fmap_2_strong; [|apply NoDup_seq].
  intros i j _ _ Heq. apply doc_id_inj in Heq. lia.
Qed.

End Ids.

(** X17. Called without ids on a known collection, [add_documents] hands
    the store one id per document, [doc_k], [doc_(k+1)], ... from the count
    [k] the collection reports; these ids are pairwise distinct, and
    distinct from the ids of any batch numbered from a count of at least
    [k] plus the batch size.  Two batches numbered from the same count share
    their first id. *)
Theorem add_documents_ids `{Store} (self : RAGPipeline) (world : World)
    (documents_ : list string) metadatas_ (collection_name : string)
    (collection : Collection) (embeddings : list Embedding) (k : nat) :
  collections self !! collection_name = Some collection →
  encode documents_ = Returned embeddings →
  collection_count world collection = Returned k →
  let ids := generated_ids k (length documents_) in
  add_documents self world documents_ metadatas_ collection_name None
  = (self, collection_add world collection embeddings documents_
             (default ((fun _ => []) <$> documents_) (truthy_list metadatas_)) ids)
  ∧ length ids = length documents_
  ∧ NoDup ids
  ∧ (∀ i, i < length documents_ → ids !! i = Some ("doc_" +:+ pretty (k + i)))
  ∧ (∀ k' n' x, k + length documents_ ≤ k' → x ∈ ids → x ∉ generated_ids k' n')
  ∧ (∀ n', 0 < length documents_ → 0 < n' →
           ∃ x, x ∈ ids ∧ x ∈ generated_ids k n').
Proof.
  intros Hc Henc Hcount ids. subst ids. split; [|split; [|split; [|split; [|split]]]].
  - unfold add_documents. rewrite Hc. cbn [mret exc_ret]. rewrite Henc, Hcount.
    cbn [mbind exc_bind mret exc_ret].
    by destruct (collection_add world collection embeddings documents_ _ _).
  - unfold generated_ids. by rewrite length_fmap, length_seq.
  - apply generated_ids_NoDup.
  - intros i Hi. by apply generated_ids_lookup.
  - intros k' n' x Hk Hx Hx'.
    apply elem_of_generated_ids in Hx as (i & Hi & ->).
    apply elem_of_generated_ids in Hx' as (j & Hj & Heq).
    apply doc_id_inj in Heq. lia.
  - intros n' Hn Hn'. exists ("doc_" +:+ pretty (k + 0)).
    split; apply elem_of_generated_ids; exists 0; by split.
Qed.

Lemma add_documents_ids_witness :
  let B := Stub.backend (Returned Examples.answer3) (Returned "ok") in
  add_documents (H0 := Counting.store B)
    (mkRAGPipeline 5 (7 # 10) {["gov_datasets" := "gov_datasets"]}) 5
    ["rain in A"; "rain in B"] None "gov_datasets" None
  = (mkRAGPipeline 5 (7 # 10) {["gov_datasets" := "gov_datasets"]}, Returned 7)
  ∧ generated_ids 5 2 = ["doc_5"; "doc_6"].
Proof.
  intros B.
  destruct (add_documents_ids (H0 := Counting.store B)
              (mkRAGPipeline 5 (7 # 10) {["gov_datasets" := "gov_datasets"]}) 5
              ["rain in A"; "rain in B"] None "gov_datasets" "gov_datasets" [(); ()] 5)
    as (Hrun & _).
  - vm_compute. reflexivity.
  - vm_compute. reflexivity.
  - vm_compute. reflexivity.
  - split; [|vm_compute; reflexivity]. rewrite Hrun. vm_compute. reflexivity.
Defined.

(** X18. Unlike [query], [add_documents] swallows nothing: a failure to
    make the collection, to embed, to count or to add is raised again to the
    caller.  A collection made on the way is still recorded in the
    pipeline, and with explicit ids the count is never asked for. *)
Theorem add_documents_raises `{Store} (self : RAGPipeline) (world : World)
    (documents_ : list string) metadatas_ (collection_name : string) ids_ (e : exn) :
  let searched_ := searched (collections self) collection_name in
  (searched_ = Raised e →
   add_documents self world documents_ metadatas_ collection_name ids_
   = (self, Raised e))
  ∧ (∀ collection cs,
       searched_ = Returned (collection, cs) →
       let self' := mkRAGPipeline (top_k self) (similarity_threshold self) cs in
       (encode documents_ = Raised e →
        add_documents self world documents_ metadatas_ collection_name ids_
        = (self', Raised e))
       ∧ (∀ embeddings,
            encode documents_ = Returned embeddings →
            (ids_ = None → collection_count world collection = Raised e →
             add_documents self world documents_ metadatas_ collection_name ids_
             = (self', Raised e))
            ∧ (∀ ids,
                 ids_ = Some ids →
                 add_documents self world documents_ metadatas_ collection_name ids_
                 = (self', collection_add world collection embeddings documents_
                             (default ((fun _ => []) <$> documents_)
                                (truthy_list metadatas_)) ids)))).
Proof.
  destruct self as [k t cs0]. unfold searched, add_documents, create_collection.
  cbn [collections top_k similarity_threshold].
  destruct (cs0 !! collection_name) as [c|] eqn:Hc; cbn [mret exc_ret mbind exc_bind try_except].
  - split; [done|]. intros collection cs [= <- <-]. split.
    + by intros ->.
    + intros embeddings ->. cbn [mbind exc_bind]. split.
      * by intros -> ->.
      * intros ids ->. cbn [mret exc_ret mbind exc_bind].
        by destruct (collection_add world c embeddings documents_ _ ids).
  - destruct (get_or_create_collection collection_name) as [e'|c];
      cbn [mret exc_ret mbind exc_bind try_except].
    + split; [by intros [= ->]|]. by intros collection cs.
    + split; [done|]. intros collection cs [= <- <-]. split.
      * by intros ->.
      * intros embeddings ->. cbn [mbind exc_bind]. split.
        -- by intros -> ->.
        -- intros ids ->. cbn [mret exc_ret mbind exc_bind].
           by destruct (collection_add world c embeddings documents_ _ ids).
Qed.

(** ** Routes *)

Section RouteFacts.
Context `{Pandas} `{Backend} `{Plotly}.

Lemma calculate_correlation_detail (fusion : DataFusion) n1 n2 v1 v2 on merged :
  merge_datasets fusion n1 n2 (Some on) "inner" = Returned merged →
  ∃ c, calculate_correlation fusion n1 n2 v1 v2 on
       = Returned (c, if empty merged then pd_DataFrame else merged)
       ∧ (paired_observations merged (resolved merged v1 "_left")
            (resolved merged v2 "_right") < 2 → c = Fin 0).
Proof.
  intros Hmerge. unfold calculate_correlation. rewrite Hmerge. cbn [mbind exc_bind].
  destruct (empty merged); [by exists (Fin 0)|].
  unfold paired_observations. fold (resolved merged v1 "_left").
  fold (resolved merged v2 "_right").
  destruct (select_columns merged _) as [e|selected]; [by exists (Fin 0)|].
  cbn [mbind exc_bind]. case_bool_decide as Hfew; [by exists (Fin 0)|].
  destruct (get_series (dropna selected) (resolved merged v1 "_left") ≫= _)
    as [e|[c m]] eqn:Hrest.
  - by exists (Fin 0).
  - exists c. apply bind_Returned in Hrest as (s1 & _ & Hrest).
    apply bind_Returned in Hrest as (s2 & _ & Hrest).
    apply bind_Returned in Hrest as (c' & _ & Hrest). injection Hrest as -> <-.
    split; [done|]. intros Hlt. unfold len in *. lia.
Qed.

Lemma time_series_no_time_column (fusion : DataFusion) name df tc vc gb :
  datasets fusion !! name = Some df →
  tc ∉ columns df →
  time_series_analysis fusion name tc vc gb = Returned None.
Proof.
  intros Hreg Hno. rewrite (time_series_registered fusion name df) by done.
  destruct (empty df); [done|]. unfold by_time, is_datetime64_any_dtype.
  by rewrite (index_of_None _ _ Hno).
Qed.

End RouteFacts.

(** X19. With the fusion service present, the correlation route answers
    404 exactly when the inner join is empty (an unknown dataset included)
    and never 500; otherwise it answers 200 with the number of joined rows
    as data points.  When fewer than two joined rows have both values, the
    200 answer reports the correlation 0.0 as "weak" and "negative". *)
Theorem analyze_correlation_status `{Pandas} `{Backend} `{Plotly}
    (state : AppState) (request : CorrelationRequest) (fusion : DataFusion)
    (merged : DataFrame) :
  data_fusion state = Some fusion →
  merge_datasets fusion (cq_dataset1 request) (cq_dataset2 request)
    (Some (cq_merge_on request)) "inner" = Returned merged →
  (empty merged = true →
   analyze_correlation state request
   = HTTPException 404 "Could not merge datasets or no common data found")
  ∧ (empty merged = false →
     ∃ response,
       analyze_correlation state request = OK response
       ∧ co_data_points response = len merged
       ∧ (paired_observations merged
            (resolved merged (cq_value_col1 request) "_left")
            (resolved merged (cq_value_col2 request) "_right") < 2 →
          co_correlation response = Fin 0
          ∧ co_interpretation response = "weak"
          ∧ co_direction response = "negative")).
Proof.
  intros Hfusion Hmerge. unfold analyze_correlation. rewrite Hfusion.
  destruct (calculate_correlation_detail fusion _ _ (cq_value_col1 request)
              (cq_value_col2 request) _ merged Hmerge) as (c & -> & Hzero).
  destruct (empty merged) eqn:Hempty.
  - split; [done|]. done.
  - rewrite Hempty. split; [done|]. intros _. eexists. split; [done|].
    cbn [co_data_points co_correlation co_interpretation co_direction].
    split; [done|]. intros Hfew. by rewrite (Hzero Hfew).
Qed.

Lemma analyze_correlation_status_witness :
  ∃ response,
    analyze_correlation (H := Reference.pandas)
      (H0 := Stub.backend (Returned Examples.answer3) (Returned "ok"))
      (H1 := Blank.plotly)
      (mkAppState None (Some Examples.fusion) None true)
      (mkCorrelationRequest "rainfall" "crops" "mm" "yield" ["state"; "year"])
    = OK response
    ∧ co_data_points response = 1
    ∧ co_correlation response = Fin 0
    ∧ co_interpretation response = "weak"
    ∧ co_direction response = "negative".
Proof.
  destruct (analyze_correlation_status (H := Reference.pandas)
              (H0 := Stub.backend (Returned Examples.answer3) (Returned "ok"))
              (H1 := Blank.plotly)
              (mkAppState None (Some Examples.fusion) None true)
              (mkCorrelationRequest "rainfall" "crops" "mm" "yield" ["state"; "year"])
              Examples.fusion Examples.rainfall_crops)
    as [_ Hok].
  - reflexivity.
  - vm_compute. reflexivity.
  - destruct Hok as (response & Hrun & Hpoints & Hfew); [vm_compute; reflexivity|].
    exists response. split; [exact Hrun|]. split; [exact Hpoints|].
    apply Hfew. vm_compute. lia.
Defined.

(** X20. With the fusion service present, the time-series route never
    answers 500: it answers 404 exactly when the analysis is the empty
    dict, which is the case for an unknown dataset, a dataset without rows
    or columns, and a time column the dataset does not have; otherwise it
    answers 200 with the analysis. *)
Theorem analyze_timeseries_status `{Pandas} `{Backend} `{Plotly}
    (state : AppState) (request : TimeSeriesRequest) (fusion : DataFusion) :
  data_fusion state = Some fusion →
  let analysed :=
    time_series_analysis fusion (tq_dataset_name request) (tq_time_column request)
      (tq_value_column request) (tq_group_by request) in
  match analyze_timeseries state request with
  | OK (analysis, _) => analysed = Returned (Some analysis)
  | HTTPException status_code detail =>
      status_code = 404%Z ∧ detail = "Could not analyze time series data"
      ∧ analysed = Returned None
  end
  ∧ (match datasets fusion !! tq_dataset_name request with
     | None => True
     | Some df => empty df = true ∨ tq_time_column request ∉ columns df
     end →
     analyze_timeseries state request
     = HTTPException 404 "Could not analyze time series data").
Proof.
  intros Hfusion analysed. subst analysed. unfold analyze_timeseries. rewrite Hfusion.
  split.
  - destruct (time_series_analysis_returns fusion (tq_dataset_name request)
                (tq_time_column request) (tq_value_column request)
                (tq_group_by request)) as [[analysis|] ->]; [|done].
    destruct (chart_builder state); [|done].
    by destruct (query_dataset_returns fusion (tq_dataset_name request) None None None)
      as [df ->].
  - intros Hbad.
    assert (time_series_analysis fusion (tq_dataset_name request)
              (tq_time_column request) (tq_value_column request)
              (tq_group_by request) = Returned None) as ->; [|done].
    destruct (datasets fusion !! tq_dataset_name request) as [df|] eqn:Hreg.
    + destruct Hbad as [Hempty|Hno].
      * rewrite (time_series_registered fusion _ df) by done. by rewrite Hempty.
      * by apply (time_series_no_time_column fusion _ df).
    + unfold time_series_analysis. by rewrite query_dataset_unknown.
Qed.

Lemma analyze_timeseries_status_witness :
  analyze_timeseries (H := Reference.pandas)
    (H0 := Stub.backend (Returned Examples.answer3) (Returned "ok"))
    (H1 := Blank.plotly)
    (mkAppState None (Some Examples.fusion) None true)
    (mkTimeSeriesRequest "wheat" "year" "yield" None)
  = HTTPException 404 "Could not analyze time series data".
Proof.
  apply (analyze_timeseries_status (H := Reference.pandas)
           (H0 := Stub.backend (Returned Examples.answer3) (Returned "ok"))
           (H1 := Blank.plotly)
           (mkAppState None (Some Examples.fusion) None true)
           (mkTimeSeriesRequest "wheat" "year" "yield" None) Examples.fusion).
  - reflexivity.
  - vm_compute. exact I.
Defined.

(** X21. The chat route answers 503, changing nothing, until the service
    is initialised with a pipeline.  From then on, whenever [rag_query]
    returns, it answers 200 with the query and with the answer, the sources
    and the confidence of [rag_query], the context as reasoning chain
    exactly when reasoning was asked for, and policy insights exactly in
    policy mode, and it keeps the pipeline that [rag_query] leaves. *)
Theorem chat_outcome `{Backend}
    (state : AppState) (request : ChatRequest) :
  (initialized state = false ∨ rag_pipeline state = None →
   chat state request
   = (HTTPException 503 "AgriSense is still initializing. Please try again in a moment.",
      state))
  ∧ (∀ pipeline rag_result pipeline',
       initialized state = true → rag_pipeline state = Some pipeline →
       rag_query pipeline (rq_query request) "gov_datasets"
         (rq_include_reasoning request) None = Returned (rag_result, pipeline') →
       ∃ response,
         chat state request
         = (OK response,
            mkAppState (Some pipeline') (data_fusion state) (chart_builder state) true)
         ∧ cr_query response = rq_query request
         ∧ cr_answer response = answer rag_result
         ∧ cr_sources response = sources rag_result
         ∧ cr_confidence response = confidence rag_result
         ∧ cr_reasoning_chain response
           = (if rq_include_reasoning request then Some (context rag_result) else None)
         ∧ (is_Some (cr_policy_insights response) ↔ rq_policy_mode request = true)).
Proof.
  split.
  - unfold chat. intros [-> | ->]; [done|]. by destruct (initialized state).
  - intros pipeline result pipeline' Hinit Hpipe Hrag. unfold chat.
    rewrite Hinit, Hpipe, Hrag. eexists. split; [done|].
    cbn [cr_query cr_answer cr_sources cr_confidence cr_reasoning_chain
         cr_policy_insights].
    repeat (split; [done|]). destruct (rq_policy_mode request).
    + destruct (generate_response_returns (policy_prompt (answer result))
                  (context result) 512 (7 # 10) false) as [insights ->].
      split; [done | by eexists].
    + split; [by intros [? ?] | done].
Qed.

(** X22. While the language model is down, the chat route still answers
    200 when [rag_query] returns and something was retrieved: the answer is
    the text "Error generating response: " with the message of the failure,
    the policy insights asked for are that same text, and sources and
    confidence are those of the retrieval. *)
Theorem chat_model_down `{Backend}
    (state : AppState) (request : ChatRequest) (pipeline pipeline' : RAGPipeline)
    (retrieved : FilteredResults) (e : exn) :
  initialized state = true →
  rag_pipeline state = Some pipeline →
  returns (rag_query pipeline (rq_query request) "gov_datasets"
             (rq_include_reasoning request) None) →
  query pipeline (rq_query request) "gov_datasets" None None
  = Returned (retrieved, pipeline') →
  documents retrieved ≠ [] →
  (∀ prompt max_tokens temperature,
     text_generation prompt max_tokens temperature = Raised e) →
  ∃ response,
    chat state request
    = (OK response,
       mkAppState (Some pipeline') (data_fusion state) (chart_builder state) true)
    ∧ cr_answer response = "Error generating response: " +:+ exn_message e
    ∧ cr_policy_insights response
      = (if rq_policy_mode request
         then Some ("Error generating response: " +:+ exn_message e) else None)
    ∧ cr_sources response = metadatas retrieved
    ∧ cr_confidence response
      = match distances retrieved with
        | [] => 0%Q
        | _ :: _ => (1 - mean (distances retrieved))%Q
        end.
Proof.
  intros Hinit Hpipe _ Hq Hdocs Hdown. unfold chat, rag_query.
  rewrite Hinit, Hpipe, Hq. cbn [mbind exc_bind].
  destruct (documents retrieved) as [|doc docs] eqn:Hd; [done|].
  unfold generate_response. rewrite !Hdown.
  cbn [try_except mbind exc_bind mret exc_ret answer context sources confidence].
  rewrite Hdown. cbn [try_except mret exc_ret]. eexists. split; [done|].
  cbn [cr_answer cr_policy_insights cr_sources cr_confidence].
  split; [done|]. split; [done|]. split; [done|]. by destruct (distances retrieved).
Qed.

Lemma chat_model_down_witness :
  let B := Stub.backend (Returned Examples.answer3)
             (raise "HfHubHTTPError" "503 Service Unavailable") in
  ∃ response state',
    chat (H0 := B)
      (mkAppState (Some (Examples.pipeline (7 # 10))) None None true)
      (mkChatRequest "rice" true true true)
    = (OK response, state')
    ∧ cr_answer response = "Error generating response: 503 Service Unavailable"
    ∧ cr_policy_insights response
      = Some "Error generating response: 503 Service Unavailable".
Proof.
  intros B.
  destruct (chat_model_down (H := B)
              (mkAppState (Some (Examples.pipeline (7 # 10))) None None true)
              (mkChatRequest "rice" true true true)
              (Examples.pipeline (7 # 10))
              (mkRAGPipeline 5 (7 # 10) {["gov_datasets" := "gov_datasets"]})
              (mkFilteredResults ["rice in A"; "wheat in B"]
                 [[("dataset", "crops")]; [("dataset", "crops")]]
                 [1 # 10; 2 # 10]%Q ["doc_0"; "doc_1"])
              (Exception "HfHubHTTPError" "503 Service Unavailable"))
    as (response & Hrun & Hanswer & Hpolicy & _).
  - reflexivity.
  - reflexivity.
  - eexists. vm_compute. reflexivity.
  - vm_compute. reflexivity.
  - discriminate.
  - intros prompt max_tokens temperature. reflexivity.
  - exists response. eexists. split; [exact Hrun|]. split; [exact Hanswer | exact Hpolicy].
Defined.

(** ** Paginated fetching *)

Section Pages.
Implicit Types (fetch : Z → exc DataFrame) (pages : list DataFrame).

Lemma fetch_loop_pages fetch (max_records : Z) (fuel : nat) (offset : Z) acc pages :
  offset = (batch_size * Z.of_nat (length acc))%Z →
  (max_records - offset ≤ Z.of_nat fuel)%Z →
  paged fetch acc →
  Forall (fun p => (batch_size ≤ Z.of_nat (len p))%Z) acc →
  (acc ≠ [] → (offset < max_records + batch_size)%Z) →
  fetch_loop fuel fetch max_records offset acc = Returned pages →
  paged fetch pages
  ∧ stopped fetch max_records pages
  ∧ (pages ≠ [] → (batch_size * Z.of_nat (length pages) < max_records + batch_size)%Z).
Proof.
  unfold stopped, paged, batch_size. revert offset acc.
  induction fuel as [|fuel IH]; intros offset acc Hoff Hfuel Hacc Hfull Hbound Hloop.
  - injection Hloop as <-. split; [done|]. split; [left; lia|].
    intros Hne. specialize (Hbound Hne). lia.
  - cbn [fetch_loop] in Hloop. destruct (Z.ltb_spec offset max_records) as [Hlt|Hge].
    + apply bind_Returned in Hloop as (df & Hdf & Hloop).
      destruct (empty df) eqn:Hempty.
      { injection Hloop as <-. split; [done|]. split.
        - right. right. exists df. by rewrite <- Hoff.
        - intros Hne. specialize (Hbound Hne). lia. }
      assert (∀ j page, (acc ++ [df]) !! j = Some page →
                fetch (1000 * Z.of_nat j)%Z = Returned page
                ∧ empty page = false
                ∧ (S j < length (acc ++ [df]) → (1000 ≤ Z.of_nat (len page))%Z))
        as Hpaged.
      { intros j page Hj. destruct (decide (j < length acc)) as [Hin|Hout].
        - rewrite lookup_app_l in Hj by done.
          destruct (Hacc j page Hj) as (Hf & He & _). split; [done|]. split; [done|].
          intros _. by apply (proj1 (Forall_lookup _ _) Hfull j).
        - rewrite lookup_app_r in Hj by lia.
          destruct (j - length acc) as [|k] eqn:Hk; [|by destruct k].
          injection Hj as <-. assert (j = length acc) as -> by lia.
          split; [by rewrite <- Hoff|]. split; [done|].
          rewrite length_app. simpl. lia. }
      unfold batch_size in Hloop.
      destruct (Z.ltb_spec (Z.of_nat (len df)) 1000) as [Hshort|Hlong].
      { injection Hloop as <-. split; [done|]. split.
        - right. left. exists df. by rewrite last_snoc.
        - intros _. rewrite length_app. simpl. lia. }
      apply IH in Hloop; [done|..].
      * rewrite length_app. simpl. lia.
      * lia.
      * done.
      * apply Forall_app. split; [done|]. by apply Forall_singleton.
      * intros _. lia.
    + injection Hloop as <-. split; [done|]. split; [left; lia|].
      intros Hne. specialize (Hbound Hne). lia.
Qed.

End Pages.

(** X23. The pages [fetch_paginated] collects are the answers of the
    server at the offsets 0, 1000, 2000, ..., each not empty and each but
    the last holding a full batch; the loop stops at the first empty or
    short page or when the next offset reaches [max_records], so it collects
    at most one page per started thousand of [max_records].  With no
    page the result is [pd.DataFrame()], otherwise the concatenation. *)
Theorem fetch_paginated_pages `{DataGov} (self : DataGovFetcher)
    (resource_id : string) (filters : option metadata_dict) (max_records : Z)
    (pages : list DataFrame) :
  fetch_pages self resource_id filters max_records = Returned pages →
  let fetch := fetch_dataset self resource_id filters batch_size in
  paged fetch pages
  ∧ stopped fetch max_records pages
  ∧ (pages ≠ [] → (batch_size * Z.of_nat (length pages) < max_records + batch_size)%Z)
  ∧ ((max_records ≤ 0)%Z → pages = [])
  ∧ fetch_paginated self resource_id filters max_records
    = match pages with
      | [] => Returned pd_DataFrame
      | _ :: _ => pd_concat pages
      end.
Proof.
  intros Hpages fetch. unfold fetch_pages in Hpages. fold fetch in Hpages.
  destruct (fetch_loop_pages fetch max_records (Z.to_nat max_records) 0 [] pages)
    as (Hp & Hs & Hb); try done.
  - lia.
  - split; [done|]. split; [done|]. split; [done|]. split.
    + intros Hmax. destruct pages as [|p pages]; [done|].
      specialize (Hb ltac:(done)). unfold batch_size in Hb.
      rewrite length_cons in Hb. lia.
    + unfold fetch_paginated, fetch_pages. fold fetch. by rewrite Hpages.
Qed.

Lemma fetch_paginated_pages_witness :
  let fetcher := mkDataGovFetcher "key" "https://api.data.gov.in/resource" in
  length <$> fetch_pages (H := Server.datagov 2300) fetcher "rainfall" None 10000
  = Returned 3
  ∧ len <$> fetch_paginated (H := Server.datagov 2300) fetcher "rainfall" None 10000
    = Returned 2300
  ∧ len <$> fetch_paginated (H := Server.datagov 2300) fetcher "rainfall" None 1500
    = Returned 2000.
Proof.
  intros fetcher.
  destruct (fetch_pages (H := Server.datagov 2300) fetcher "rainfall" None 10000)
    as [e|pages] eqn:Hpages; [by vm_compute in Hpages|].
  destruct (fetch_paginated_pages (H := Server.datagov 2300) fetcher "rainfall" None
              10000 pages Hpages) as (_ & _ & _ & _ & Hrun).
  split; [|split].
  - vm_compute in Hpages. injection Hpages as <-. vm_compute. reflexivity.
  - vm_compute. reflexivity.
  - vm_compute. reflexivity.
Defined.

(** ** Choosing a chart *)

Lemma detect_chart_type_in (query : string) (df : DataFrame) :
  detect_chart_type query df ∈ ["line"; "bar"; "scatter"; "map"].
Proof.
  unfold detect_chart_type.
  repeat match goal with
         | |- context [if ?b then _ else _] => destruct b
         end; set_solver.
Qed.

(** X24. [detect_chart_type] only ever answers "line", "bar", "scatter" or
    "map", never "table"; and it answers "map" only for a frame that has a
    column named state, district, region or location, and a query that
    names a place word and none of the trend, comparison or correlation
    words. *)
Theorem detect_chart_type_range (query : string) (df : DataFrame) :
  detect_chart_type query df ∈ ["line"; "bar"; "scatter"; "map"]
  ∧ detect_chart_type query df ≠ "table"
  ∧ (detect_chart_type query df = "map" →
     (∃ col, col ∈ ["state"; "district"; "region"; "location"] ∧ col ∈ columns df)
     ∧ any_word ["state"; "district"; "region"; "map"; "geography"] (lower query) = true
     ∧ any_word ["trend"; "over time"; "years"; "temporal"; "timeline"] (lower query)
       = false
     ∧ any_word ["compare"; "comparison"; "versus"; "vs"; "between"] (lower query)
       = false
     ∧ any_word ["correlation"; "relationship"; "affect"; "impact"] (lower query)
       = false).
Proof.
  split; [apply detect_chart_type_in|]. unfold detect_chart_type.
  destruct (any_word ["trend"; _; _; _; _] (lower query)); [by split|].
  destruct (any_word ["compare"; _; _; _; _] (lower query)); [by split|].
  destruct (any_word ["correlation"; _; _; _] (lower query)); [by split|].
  destruct (any_word ["state"; _; _; _; _] (lower query)).
  - destruct (existsb _ _) eqn:Hgeo; [|by split].
    split; [done|]. intros _. split; [|done].
    apply existsb_exists in Hgeo as (col & Hcol & Hin).
    exists col. split; [by apply list_elem_of_In | by apply bool_decide_eq_true in Hin].
  - destruct (50 <? len df); by split.
Qed.

Section ChartFacts.
Context `{Plotly}.

Lemma columns_nonempty (df : DataFrame) :
  empty df = false → ∃ col cols, columns df = col :: cols.
Proof.
  unfold empty, columns. destruct (schema df) as [|[c d] sch]; [done|].
  intros _. by eexists _, _.
Qed.

End ChartFacts.

(** X25. [auto_visualize] never raises.  For an empty frame it answers the
    type "none" with no chart; for any other frame the type it reports is
    the one [detect_chart_type] chose, so one of "line", "bar", "scatter"
    and "map" and never "table", with the message naming that type. *)
Theorem auto_visualize_outcome `{Plotly} (self : ChartBuilder) (query : string)
    (df : DataFrame) (title : option string) :
  ∃ v,
    auto_visualize self query df title = Returned v
    ∧ (empty df = true → v = mkVisualization "none" no_chart "No data to visualize")
    ∧ (empty df = false →
       vz_type v = detect_chart_type query df
       ∧ vz_message v = "Generated " +:+ detect_chart_type query df +:+ " visualization")
    ∧ vz_type v ∈ ["none"; "line"; "bar"; "scatter"; "map"].
Proof.
  unfold auto_visualize. destruct (empty df) eqn:Hempty.
  { eexists. split; [done|]. split; [done|]. split; [done|]. set_solver. }
  destruct (columns_nonempty df Hempty) as (col & cols & Hcols).
  assert (∃ value_col,
            match numeric_columns df with
            | c :: _ => mret c
            | [] => match last (columns df) with
                    | Some c => mret c
                    | None => raise "IndexError"
                                "index -1 is out of bounds for axis 0 with size 0"
                    end
            end = Returned value_col) as [value_col ->].
  { destruct (numeric_columns df); [|by eexists].
    rewrite Hcols. destruct (last (col :: cols)) eqn:Hlast; [by eexists|].
    by apply last_None in Hlast. }
  rewrite Hcols, py_index_head. cbn [mbind exc_bind mret exc_ret].
  assert (∃ chart,
            (if String.eqb (detect_chart_type query df) "line" then _
             else _) = Returned chart) as [chart ->].
  { destruct (String.eqb (detect_chart_type query df) "line").
    { destruct (first_named _ df); by eexists. }
    destruct (String.eqb (detect_chart_type query df) "bar"); [by eexists|].
    destruct (String.eqb (detect_chart_type query df) "scatter").
    { destruct (numeric_columns df) as [|x [|y l]]; by eexists. }
    destruct (String.eqb (detect_chart_type query df) "map"); [|by eexists].
    destruct (first_named _ df); by eexists. }
  eexists. split; [done|]. split; [done|]. split; [done|].
  cbn [vz_type]. rewrite elem_of_cons. right. apply detect_chart_type_in.
Qed.

(** ** The registry and its metadata *)

(** X26. Whatever datasets are registered in a fresh [DataFusion], in
    whatever order and however often under the same name, the two
    dictionaries stay in step: a name has metadata exactly when it has a
    dataset, and then the metadata's columns, shape and dtypes are those of
    the dataset held and its key columns are a list (the empty one when none
    were given); an unfiltered [query_dataset] gives back that dataset. *)
Theorem registry_in_step (calls : list Registration) (name : string) :
  let self := register_all DataFusion_init calls in
  (is_Some (datasets self !! name) ↔ is_Some (metadata self !! name))
  ∧ (∀ df, datasets self !! name = Some df →
       ∃ md r, metadata self !! name = Some md
             ∧ r ∈ calls
             ∧ reg_name r = name
             ∧ reg_df r = df
             ∧ md_columns md = columns df
             ∧ md_shape md = (len df, length (columns df))
             ∧ md_dtypes md = schema df
             ∧ md_key_columns md = default [] (reg_key_columns r)
             ∧ query_dataset self name None None None = Returned df).
Proof.
  induction calls as [|r calls IH] using rev_ind.
  - simpl. split.
    + unfold register_all. simpl. rewrite !lookup_empty. done.
    + intros df Hdf. unfold register_all in Hdf. simpl in Hdf.
      by rewrite lookup_empty in Hdf.
  - cbv zeta in IH |- *. rewrite register_all_snoc.
    pose proof (get_dataset_register (register_all DataFusion_init calls) r name) as Hd.
    pose proof (metadata_register (register_all DataFusion_init calls) r name) as Hm.
    unfold get_dataset in Hd. rewrite Hd, Hm.
    destruct (decide (reg_name r = name)) as [Heq|Hne].
    + split; [split; intros _; by eexists|].
      intros df [= <-]. exists (metadata_of r), r.
      split; [done|]. split; [apply elem_of_app; right; apply elem_of_cons; by left|].
      split; [done|]. split; [done|]. split; [done|].
      split; [unfold metadata_of, df_shape, len, columns; simpl;
              by rewrite length_fmap|].
      split; [done|]. split; [done|].
      rewrite (query_dataset_all_columns _ name (reg_df r)) by (by rewrite Hd).
      by destruct (reg_df r).
    + destruct IH as [IH1 IH2]. split; [done|].
      intros df Hdf. destruct (IH2 df Hdf) as (md & r0 & Hmd & Hin & Hn & Hr & Hc & Hs & Ht & Hk & Hq).
      exists md, r0. split; [done|].
      split; [apply elem_of_app; by left|].
      do 6 (split; [done|]).
      rewrite (query_dataset_all_columns _ name df) by (by rewrite Hd).
      by destruct df.
Qed.

(** X27. When no row of a registered dataset passes the filters,
    [aggregate_data] answers the dataset's own columns with no row, whatever
    the group-by columns and the aggregations asked for: pandas is not
    called, and group-by columns the dataset lacks go unnoticed. *)
Theorem aggregate_data_no_rows `{Pandas} (self : DataFusion) (name : string)
    (df : DataFrame) (group_by : list string) agg_funcs filters :
  datasets self !! name = Some df →
  List.filter (passes (columns df) (default [] filters)) (rows df) = [] →
  aggregate_data self name group_by agg_funcs filters
  = Returned (mkDataFrame (schema df) []).
Proof.
  intros Hreg Hnone. rewrite (aggregate_data_registered self name df) by done.
  rewrite filtered_eq, Hnone. unfold empty. simpl. by destruct (schema df).
Qed.

Lemma aggregate_data_no_rows_witness :
  aggregate_data (H := Reference.pandas) Examples.fusion "rainfall" ["nowhere"]
    [("mm", "sum")] (Some [("state", FScalar (VStr "B"))])
  = Returned (mkDataFrame (schema Examples.rainfall) []).
Proof.
  apply (aggregate_data_no_rows (H := Reference.pandas) Examples.fusion "rainfall"
           Examples.rainfall); vm_compute; reflexivity.
Defined.
